(** * Checkout payment protocol: wallet session, network switch, payment
      group construction, payment attempts, countdown and view timers.

    Shallow embedding of
      - src/composables/useAlgorand.ts            (module [UseAlgorand])
      - the standalone payment page               (module [PaymentPage])
      - the dev-tool payment form                 (module [PaymentForm])
      - the exchange-rate and payment-stats views (modules
        [ExchangeRateDemo] and [PaymentStats]).

    Whatever the code awaits from a collaborator (the Pera wallet, the
    algod node) is an explicit input, a record of answers; what it takes
    from the JavaScript host and from algosdk is the interface
    [Algosdk.Platform].  Every call made on the wallet is appended to a
    log kept in the state, so that a prompt is observable.  An [async]
    function is split where it first awaits ([*_begin]) and where it is
    resumed ([*_settle]), so that two calls can overlap. *)

From Stdlib Require Import Ascii.
From stdpp Require Import base gmap strings list pretty.

Open Scope string_scope.
Open Scope list_scope.

(* ===================================================================== *)
(** * JavaScript values the code relies on                                *)
(* ===================================================================== *)

Module Js.

(** What a [catch (e)] clause receives: an [Error] with its [message]
    (possibly empty); some other value, whose [.message] is
    [undefined]; or [null] or [undefined], which have no members. *)
Inductive Thrown : Type :=
| ErrorObj (message : string)
| OtherThrown
| NullThrown.

(** Outcome of an awaited call or of a [try] body. *)
Inductive result (A : Type) : Type :=
| Ok (a : A)
| Throw (e : Thrown).
Arguments Ok {A} a.
Arguments Throw {A} e.

Definition bind {A B} (m : result A) (k : A → result B) : result B :=
  match m with
  | Ok a => k a
  | Throw e => Throw e
  end.

(** Truthiness of [string | null]: [null] and [''] are falsy. *)
Definition truthy (v : option string) : bool :=
  match v with
  | Some s => bool_decide (s ≠ "")
  | None => false
  end.

(** [v || dflt] on [string | null | undefined]. *)
Definition or_else (v : option string) (dflt : string) : string :=
  match v with
  | Some s => if bool_decide (s ≠ "") then s else dflt
  | None => dflt
  end.

(** [(e as Error).message].  [Some (Some m)]: the message of an
    [Error]; [Some None]: [undefined], for a value that is no [Error];
    [None]: no value, reading a member of [null] or [undefined] raises a
    [TypeError]. *)
Definition message_of (e : Thrown) : option (option string) :=
  match e with
  | ErrorObj m => Some (Some m)
  | OtherThrown => Some None
  | NullThrown => None
  end.

(** [e instanceof Error ? e.message : dflt]. *)
Definition message_or (e : Thrown) (dflt : string) : string :=
  match e with
  | ErrorObj m => m
  | OtherThrown | NullThrown => dflt
  end.

(** How the promise of an [async] function ends whose [catch] clause
    reads [(e as Error).message] of what its [try] block threw: it
    resolves, unless the clause itself raises the [TypeError], which
    then rejects the promise (after [finally] has run). *)
Inductive Completion : Type := Resolves | RejectsTypeError.

Definition catch_completion {A} (r : result A) : Completion :=
  match r with
  | Ok _ => Resolves
  | Throw e =>
      match message_of e with
      | Some _ => Resolves
      | None => RejectsTypeError
      end
  end.

(** [accounts[0]] of a wallet answer: [undefined] on an empty array. *)
Definition first_account (accounts : list string) : option string :=
  head accounts.

(** [accounts.length > 0 && accounts[0]], and [accounts[0]] used as a
    condition: the first account when it is a non-empty string. *)
Definition restored_account (accounts : list string) : option string :=
  match first_account accounts with
  | Some a => if truthy (Some a) then Some a else None
  | None => None
  end.

(** [s.slice(start, stop)] on the string's sequence of code units (for
    the ASCII texts handled here, its characters): a negative index
    counts from the end, both indices are clamped to the string, and an
    omitted [stop] is the length. *)
Definition slice (s : string) (start : Z) (stop : option Z) : string :=
  let l := String.list_ascii_of_string s in
  let len := Z.of_nat (length l) in
  let index i := if decide (i < 0)%Z then Z.max (len + i) 0 else Z.min i len in
  let from := index start in
  let to := match stop with Some e => index e | None => len end in
  String.string_of_list_ascii
    (take (Z.to_nat (to - from)) (drop (Z.to_nat from) l)).

End Js.

Export Js.

#[global] Instance result_ret : MRet result := @Ok.
#[global] Instance result_bind : MBind result := λ A B k m, Js.bind m k.

(* ===================================================================== *)
(** * The JavaScript host and algosdk, as interfaces                      *)
(* ===================================================================== *)

Module Algosdk.

Definition bytes : Type := list Byte.byte.

(** [algosdk.SuggestedParams], as returned by [getTransactionParams]. *)
Record SuggestedParams : Type := {
  fee : Z;
  flatFee : option bool;        (* [undefined] unless the caller sets it *)
  minFee : Z;
  firstValid : Z;
  lastValid : Z;
  genesisID : string;
  genesisHash : bytes;
}.

(** [{ ...suggestedParams, fee: f, flatFee: b }] *)
Definition with_fee (sp : SuggestedParams) (f : Z) (b : bool) : SuggestedParams :=
  {| fee := f; flatFee := Some b; minFee := minFee sp;
     firstValid := firstValid sp; lastValid := lastValid sp;
     genesisID := genesisID sp; genesisHash := genesisHash sp |}.

(** A receiver is passed either as an [Address] object (its public
    key) or as its text form. *)
Inductive AddressArg : Type :=
| AddrValue (publicKey : bytes)
| AddrText (text : string).

Inductive OnApplicationComplete : Type :=
| NoOpOC | OptInOC | CloseOutOC | ClearStateOC
| UpdateApplicationOC | DeleteApplicationOC.

(** The object given to [makeAssetTransferTxnWithSuggestedParamsFromObject]. *)
Record AssetTransfer : Type := {
  axfer_sender : string;
  receiver : AddressArg;
  assetIndex : Z;
  amount : Z;
  axfer_suggestedParams : SuggestedParams;
}.

(** The object given to [makeApplicationCallTxnFromObject]. *)
Record ApplicationCall : Type := {
  appl_sender : string;
  appIndex : Z;
  onComplete : OnApplicationComplete;
  appArgs : list bytes;
  foreignAssets : list Z;
  accounts : list string;
  appl_suggestedParams : SuggestedParams;
}.

Inductive TxnFields : Type :=
| Axfer (t : AssetTransfer)
| Appl (t : ApplicationCall).

(** An [algosdk.Transaction]: what it was made from, and its group
    field ([undefined] until [assignGroupID]). *)
Record Transaction : Type := {
  fields : TxnFields;
  group : option bytes;
}.

Definition set_group (g : bytes) (t : Transaction) : Transaction :=
  {| fields := fields t; group := Some g |}.






(** ABI types the method's arguments resolve to; an argument typed
    [axfer] is a transaction reference and has no [ABIType]. *)
Inductive ABIType : Type :=
| ABIString
| ABIAddress
| ABIUint (bits : nat).

Inductive ABIValue : Type :=
| VString (s : string)
| VBigInt (n : Z).

Record ABIArg : Type := { arg_type : string; arg_name : string }.

Record ABIMethod : Type := {
  method_name : string;
  method_args : list ABIArg;
  method_returns : string;
}.

Definition abiTypeFromString (t : string) : option ABIType :=
  if bool_decide (t = "string") then Some ABIString
  else if bool_decide (t = "address") then Some ABIAddress
  else if bool_decide (t = "uint64") then Some (ABIUint 64)
  else None.

(** [name(type1,type2,...)returns] *)
Definition getSignature (m : ABIMethod) : string :=
  method_name m +:+ "(" +:+ String.concat "," (map arg_type (method_args m))
    +:+ ")" +:+ method_returns m.

(** What the code takes from the host and from algosdk. *)
Class Platform : Type := {
  (** [BigInt(str)]; throws a [SyntaxError] on a malformed string. *)
  BigInt : string → result Z;
  (** [new Date(str).getTime()]; [None] is [NaN]. *)
  Date_getTime : string → option Z;
  (** SHA-512/256. *)
  genericHash : bytes → bytes;
  getApplicationAddress : Z → result bytes;
  (** [Address.toString()] *)
  Address_toString : bytes → string;
  (** [ABIType.encode(value)] *)
  abiEncode : ABIType → ABIValue → result bytes;
  (** The validation a transaction constructor performs. *)
  txnCheck : TxnFields → result unit;
  computeGroupID : list Transaction → result bytes;
}.

Section WithPlatform.
Context `{Platform}.

(** [abiMethod.getSelector()] *)
Definition getSelector (m : ABIMethod) : bytes :=
  take 4 (genericHash (String.list_byte_of_string (getSignature m))).

(** [(abiMethod.args[i]!.type as ABIType).encode(v)] *)
Definition encodeArg (m : ABIMethod) (i : nat) (v : ABIValue) : result bytes :=
  match method_args m !! i with
  | Some a =>
      match abiTypeFromString (arg_type a) with
      | Some t => abiEncode t v
      | None => Throw (ErrorObj "encode is not a function")
      end
  | None => Throw (ErrorObj "Cannot read properties of undefined")
  end.

Definition makeAssetTransferTxnWithSuggestedParamsFromObject
    (o : AssetTransfer) : result Transaction :=
  _ ← txnCheck (Axfer o);
  mret {| fields := Axfer o; group := None |}.

Definition makeApplicationCallTxnFromObject
    (o : ApplicationCall) : result Transaction :=
  _ ← txnCheck (Appl o);
  mret {| fields := Appl o; group := None |}.

(** [assignGroupID(txns)]: one identifier, written into every
    member. *)
Definition assignGroupID (txns : list Transaction) : result (list Transaction) :=
  gid ← computeGroupID txns;
  mret (map (set_group gid) txns).

End WithPlatform.

(** Answers of the algod node to one payment attempt. *)
Record Node : Type := {
  getTransactionParams : result SuggestedParams;
  sendRawTransaction : list bytes → result string;
  (** [waitForConfirmation(client, txId, rounds)] *)
  waitForConfirmation : string → nat → result unit;
}.

End Algosdk.

(* ===================================================================== *)
(** * The Pera wallet, as the code sees it                                *)
(* ===================================================================== *)

Module Pera.

(** Calls made on the [PeraWalletConnect] instance, in program order. *)
Inductive Call : Type :=
| ReconnectSession                  (* peraWallet.reconnectSession() *)
| Connect                           (* peraWallet.connect(): prompts  *)
| Disconnect                        (* peraWallet.disconnect()        *)
| OnDisconnect.                     (* connector?.on('disconnect', h) *)

#[global] Instance Call_eq_dec : EqDecision Call.
Proof. solve_decision. Defined.

(** What the wallet answers. *)
Record Answers : Type := {
  reconnectSession : result (list string);
  connect : result (list string);
  signTransaction : list Algosdk.Transaction → result (list Algosdk.bytes);
}.

Definition prompts (log : list Call) : nat :=
  length (filter (λ c, c = Connect) log).

End Pera.

(* ===================================================================== *)
(** * src/composables/useAlgorand.ts                                      *)
(* ===================================================================== *)

Module UseAlgorand.

Inductive NetworkId : Type := testnet | mainnet.

#[global] Instance NetworkId_eq_dec : EqDecision NetworkId.
Proof. solve_decision. Defined.

(** The string a [NetworkId] is at run time. *)
Definition NetworkId_str (n : NetworkId) : string :=
  match n with
  | testnet => "testnet"
  | mainnet => "mainnet"
  end.

Record NetworkConfig : Type := {
  name : string;
  algodServer : string;
  algodPort : string;
  algodToken : string;
}.

Definition NETWORKS (n : NetworkId) : NetworkConfig :=
  match n with
  | testnet => {| name := "TestNet";
                  algodServer := "https://testnet-api.algonode.cloud";
                  algodPort := "443";
                  algodToken := "" |}
  | mainnet => {| name := "MainNet";
                  algodServer := "https://mainnet-api.algonode.cloud";
                  algodPort := "443";
                  algodToken := "" |}
  end.

(** [new algosdk.Algodv2(token, server, port)]: a client is the
    connection parameters it was constructed with. *)
Record Algodv2 : Type := {
  clientToken : string;
  clientServer : string;
  clientPort : string;
}.

Definition createAlgodClient (network : NetworkId) : Algodv2 :=
  let config := NETWORKS network in
  {| clientToken := algodToken config;
     clientServer := algodServer config;
     clientPort := algodPort config |}.

(** The module-level singletons. *)
Record Shared : Type := {
  connectedAccount : option string;
  isInitialized : bool;
  networkId : NetworkId;
  algodClient : Algodv2;
  localStorage : gmap string string;
  walletLog : list Pera.Call;
  console : list string;
}.

Definition set_connectedAccount (v : option string) (s : Shared) : Shared :=
  {| connectedAccount := v; isInitialized := isInitialized s;
     networkId := networkId s; algodClient := algodClient s;
     localStorage := localStorage s; walletLog := walletLog s;
     console := console s |}.

Definition set_isInitialized (v : bool) (s : Shared) : Shared :=
  {| connectedAccount := connectedAccount s; isInitialized := v;
     networkId := networkId s; algodClient := algodClient s;
     localStorage := localStorage s; walletLog := walletLog s;
     console := console s |}.

Definition set_networkId (v : NetworkId) (s : Shared) : Shared :=
  {| connectedAccount := connectedAccount s; isInitialized := isInitialized s;
     networkId := v; algodClient := algodClient s;
     localStorage := localStorage s; walletLog := walletLog s;
     console := console s |}.

Definition set_algodClient (v : Algodv2) (s : Shared) : Shared :=
  {| connectedAccount := connectedAccount s; isInitialized := isInitialized s;
     networkId := networkId s; algodClient := v;
     localStorage := localStorage s; walletLog := walletLog s;
     console := console s |}.

Definition localStorage_setItem (k v : string) (s : Shared) : Shared :=
  {| connectedAccount := connectedAccount s; isInitialized := isInitialized s;
     networkId := networkId s; algodClient := algodClient s;
     localStorage := <[k := v]> (localStorage s); walletLog := walletLog s;
     console := console s |}.

Definition wallet_call (c : Pera.Call) (s : Shared) : Shared :=
  {| connectedAccount := connectedAccount s; isInitialized := isInitialized s;
     networkId := networkId s; algodClient := algodClient s;
     localStorage := localStorage s; walletLog := walletLog s ++ [c];
     console := console s |}.

Definition console_write (line : string) (s : Shared) : Shared :=
  {| connectedAccount := connectedAccount s; isInitialized := isInitialized s;
     networkId := networkId s; algodClient := algodClient s;
     localStorage := localStorage s; walletLog := walletLog s;
     console := console s ++ [line] |}.

(** [computed(() => !!connectedAccount.value)] *)
Definition isConnected (s : Shared) : bool := truthy (connectedAccount s).

Definition currentNetwork (s : Shared) : NetworkConfig := NETWORKS (networkId s).

Definition init (w : Pera.Answers) (s : Shared) : Shared :=
  if isInitialized s then s
  else
    let s := set_isInitialized true s in
    let s := wallet_call Pera.ReconnectSession s in
    match Pera.reconnectSession w with
    | Ok accounts =>
        match restored_account accounts with
        | Some a => wallet_call Pera.OnDisconnect (set_connectedAccount (Some a) s)
        | None => s
        end
    | Throw _ => s   (* No existing session, that's fine *)
    end.

(** The interactive part of [connect], after the silent restore gave
    nothing (or threw, which the inner [catch] swallows). *)
Definition connect_interactive (w : Pera.Answers) (s : Shared)
  : Shared * result unit :=
  let s := wallet_call Pera.Connect s in
  match Pera.connect w with
  | Ok accounts =>
      (wallet_call Pera.OnDisconnect
         (set_connectedAccount (first_account accounts) s), Ok tt)
  | Throw e =>
      (console_write "Wallet connection failed:" s, Throw e)
  end.

(** [connect]: the new shared state and how the returned promise
    settles ([Throw e] is a rejection reaching the caller). *)
Definition connect (w : Pera.Answers) (s : Shared) : Shared * result unit :=
  if isConnected s then (s, Ok tt)
  else
    let s := wallet_call Pera.ReconnectSession s in
    match Pera.reconnectSession w with
    | Ok existingAccounts =>
        match restored_account existingAccounts with
        | Some a =>
            (wallet_call Pera.OnDisconnect (set_connectedAccount (Some a) s),
             Ok tt)
        | None => connect_interactive w s
        end
    | Throw _ => connect_interactive w s
    end.

Definition handleDisconnect (s : Shared) : Shared :=
  set_connectedAccount None s.

Definition disconnect (s : Shared) : Shared :=
  set_connectedAccount None (wallet_call Pera.Disconnect s).

Definition switchNetwork (network : NetworkId) (s : Shared) : Shared :=
  if decide (network = networkId s) then s
  else
    let s := set_networkId network s in
    let s := localStorage_setItem "network" (NetworkId_str network) s in
    let s := set_algodClient (createAlgodClient network) s in
    let s := if isConnected s then disconnect s else s in
    console_write ("[Network] Switched to " +:+ name (NETWORKS network)) s.

(** [signAndSendTransactions(txns)]: the id of the confirmed
    transaction, or what was thrown. *)
Definition signAndSendTransactions (node : Algosdk.Node) (w : Pera.Answers)
    (s : Shared) (txns : list Algosdk.Transaction) : result string :=
  if negb (truthy (connectedAccount s)) then
    Throw (ErrorObj "Wallet not connected")
  else
    signedTxns ← Pera.signTransaction w txns;
    txId ← Algosdk.sendRawTransaction node signedTxns;
    _ ← Algosdk.waitForConfirmation node txId 4;
    mret txId.

End UseAlgorand.

(* ===================================================================== *)
(** * Browser interval timers                                             *)
(* ===================================================================== *)

Module Browser.

(** Handles are positive integers handed out in increasing order;
    [active] holds the handles of the intervals that still fire. *)
Record Timers : Type := {
  next_handle : nat;
  active : gset nat;
}.

Definition setInterval (t : Timers) : nat * Timers :=
  (next_handle t,
   {| next_handle := S (next_handle t);
      active := {[ next_handle t ]} ∪ active t |}).

Definition clearInterval (h : nat) (t : Timers) : Timers :=
  {| next_handle := next_handle t; active := active t ∖ {[ h ]} |}.

(** [if (handle)]: [null] and [0] are falsy. *)
Definition handle_truthy (h : option nat) : bool :=
  match h with
  | Some n => bool_decide (n ≠ 0)
  | None => false
  end.

(** A browser's timer table: handles start at 1 and every live handle
    has been handed out. *)
Definition wf (t : Timers) : Prop :=
  (1 ≤ next_handle t)%nat ∧ ∀ h, h ∈ active t → (h < next_handle t)%nat.

Definition fresh_timers : Timers := {| next_handle := 1; active := ∅ |}.

(** The interval a polling view holds, if any, is live, is its own,
    and is the only thing it added to the timers it found ([held]). *)
Definition owns_at_most_one (held : gset nat) (autoRefresh : bool)
    (refreshInterval : option nat) (t : Timers) : Prop :=
  (∀ h, h ∈ held → (h < next_handle t)%nat)
  ∧ (1 ≤ next_handle t)%nat
  ∧ match autoRefresh, refreshInterval with
    | false, None => active t = held
    | true, Some h => h ≠ 0%nat ∧ (h ∉ held) ∧ active t = {[ h ]} ∪ held
    | _, _ => False
    end.

End Browser.

(* ===================================================================== *)
(** * The standalone payment page (payment-entry view)                    *)
(* ===================================================================== *)

Module PaymentPage.
Import Algosdk.

(** [window.__CHECKOUT__].  [merchantName] and [note] may be missing
    or [null] in what the server injects; the code guards both with
    [|| '']. *)
Record Checkout : Type := {
  id : string;
  appId : string;
  merchantWallet : string;
  merchantName : option string;
  amount : string;
  assetId : string;
  note : option string;
  status : string;
  expiresAt : string;
}.

Definition set_status (v : string) (c : Checkout) : Checkout :=
  {| id := id c; appId := appId c; merchantWallet := merchantWallet c;
     merchantName := merchantName c; amount := amount c; assetId := assetId c;
     note := note c; status := v; expiresAt := expiresAt c |}.

Record Page : Type := {
  checkout : Checkout;
  connectedAccount : option string;
  loading : bool;
  error : option string;
  success : option string;
  paying : bool;
  timeRemaining : string;
  walletLog : list Pera.Call;
  timers : Browser.Timers;
  (** due times of the pending [setTimeout(reload, 1500)] *)
  reloads : list Z;
}.

Definition set_checkout (v : Checkout) (p : Page) : Page :=
  {| checkout := v; connectedAccount := connectedAccount p; loading := loading p;
     error := error p; success := success p; paying := paying p;
     timeRemaining := timeRemaining p; walletLog := walletLog p;
     timers := timers p; reloads := reloads p |}.

Definition set_connectedAccount (v : option string) (p : Page) : Page :=
  {| checkout := checkout p; connectedAccount := v; loading := loading p;
     error := error p; success := success p; paying := paying p;
     timeRemaining := timeRemaining p; walletLog := walletLog p;
     timers := timers p; reloads := reloads p |}.

Definition set_loading (v : bool) (p : Page) : Page :=
  {| checkout := checkout p; connectedAccount := connectedAccount p; loading := v;
     error := error p; success := success p; paying := paying p;
     timeRemaining := timeRemaining p; walletLog := walletLog p;
     timers := timers p; reloads := reloads p |}.

Definition set_error (v : option string) (p : Page) : Page :=
  {| checkout := checkout p; connectedAccount := connectedAccount p; loading := loading p;
     error := v; success := success p; paying := paying p;
     timeRemaining := timeRemaining p; walletLog := walletLog p;
     timers := timers p; reloads := reloads p |}.

Definition set_success (v : option string) (p : Page) : Page :=
  {| checkout := checkout p; connectedAccount := connectedAccount p; loading := loading p;
     error := error p; success := v; paying := paying p;
     timeRemaining := timeRemaining p; walletLog := walletLog p;
     timers := timers p; reloads := reloads p |}.

Definition set_paying (v : bool) (p : Page) : Page :=
  {| checkout := checkout p; connectedAccount := connectedAccount p; loading := loading p;
     error := error p; success := success p; paying := v;
     timeRemaining := timeRemaining p; walletLog := walletLog p;
     timers := timers p; reloads := reloads p |}.

Definition set_timeRemaining (v : string) (p : Page) : Page :=
  {| checkout := checkout p; connectedAccount := connectedAccount p; loading := loading p;
     error := error p; success := success p; paying := paying p;
     timeRemaining := v; walletLog := walletLog p;
     timers := timers p; reloads := reloads p |}.

Definition wallet_call (c : Pera.Call) (p : Page) : Page :=
  {| checkout := checkout p; connectedAccount := connectedAccount p; loading := loading p;
     error := error p; success := success p; paying := paying p;
     timeRemaining := timeRemaining p; walletLog := walletLog p ++ [c];
     timers := timers p; reloads := reloads p |}.

Definition set_timers (v : Browser.Timers) (p : Page) : Page :=
  {| checkout := checkout p; connectedAccount := connectedAccount p; loading := loading p;
     error := error p; success := success p; paying := paying p;
     timeRemaining := timeRemaining p; walletLog := walletLog p;
     timers := v; reloads := reloads p |}.

(** [setTimeout(() => window.location.reload(), 1500)]: one more
    pending reload, due at [due]. *)
Definition schedule_reload (due : Z) (p : Page) : Page :=
  {| checkout := checkout p; connectedAccount := connectedAccount p; loading := loading p;
     error := error p; success := success p; paying := paying p;
     timeRemaining := timeRemaining p; walletLog := walletLog p;
     timers := timers p; reloads := reloads p ++ [due] |}.

Definition isConnected (p : Page) : bool := truthy (connectedAccount p).

Definition payCheckoutMethod : ABIMethod :=
  {| method_name := "payCheckout";
     method_args :=
       [ {| arg_type := "axfer"; arg_name := "payment" |};
         {| arg_type := "string"; arg_name := "checkoutId" |};
         {| arg_type := "address"; arg_name := "merchantWallet" |};
         {| arg_type := "string"; arg_name := "merchantName" |};
         {| arg_type := "uint64"; arg_name := "expectedAmount" |};
         {| arg_type := "string"; arg_name := "note" |} ];
     method_returns := "void" |}.

Section WithPlatform.
Context `{Platform}.

(** [updateTimeRemaining], run when the clock reads [now] (ms). *)
Definition updateTimeRemaining (now : Z) (p : Page) : Page :=
  match Date_getTime (expiresAt (checkout p)) with
  | Some t =>
      let diff := (t - now)%Z in
      if decide (diff ≤ 0)%Z then
        schedule_reload (now + 1500)%Z (set_timeRemaining "Expired" p)
      else
        let minutes := (diff / 60000)%Z in
        let seconds := ((diff mod 60000) / 1000)%Z in
        set_timeRemaining (pretty minutes +:+ "m " +:+ pretty seconds +:+ "s") p
  | None => set_timeRemaining "NaNm NaNs" p
  end.

(** [onMounted]: the countdown is started for a pending checkout only;
    the handle [setInterval] returns is dropped. *)
Definition onMounted (now : Z) (w : Pera.Answers) (p : Page) : Page :=
  let p :=
    if bool_decide (status (checkout p) = "pending") then
      let p := updateTimeRemaining now p in
      set_timers (Browser.setInterval (timers p)).2 p
    else p in
  let p := wallet_call Pera.ReconnectSession p in
  match Pera.reconnectSession w with
  | Ok accounts =>
      match restored_account accounts with
      | Some a => wallet_call Pera.OnDisconnect (set_connectedAccount (Some a) p)
      | None => p
      end
  | Throw _ => p   (* No existing session *)
  end.

(** The component registers no [onUnmounted] hook: tearing the view
    down runs none of its code. *)
Definition onUnmounted (p : Page) : Page := p.

Definition handleDisconnect (p : Page) : Page := set_connectedAccount None p.

Definition connect (w : Pera.Answers) (p : Page) : Page :=
  let p := set_loading true p in
  let p := set_error None p in
  let p := wallet_call Pera.Connect p in
  let p :=
    match Pera.connect w with
    | Ok accounts =>
        match restored_account accounts with
        | Some a => wallet_call Pera.OnDisconnect (set_connectedAccount (Some a) p)
        | None => p
        end
    | Throw e =>
        match message_of e with
        | Some message =>
            if bool_decide (message ≠ Some "Connect cancelled") then
              set_error (Some (or_else message "Failed to connect wallet")) p
            else p
        | None => p   (* the clause raises a [TypeError] *)
        end
    end in
  set_loading false p.

(** How the promise [connect] returns ends. *)
Definition connect_completion (w : Pera.Answers) : Completion :=
  catch_completion (Pera.connect w).

Definition disconnect (p : Page) : Page :=
  set_connectedAccount None (wallet_call Pera.Disconnect p).

(** The group the [try] block of [pay] builds, from the checkout, the
    connected account and the fetched parameters. *)
Definition build_group (c : Checkout) (account : option string)
    (suggestedParams : SuggestedParams) : result (list Transaction) :=
  appId ← BigInt (appId c);
  assetId ← BigInt (assetId c);
  amount ← BigInt (amount c);
  appAddr ← getApplicationAddress appId;
  sender ← match account with
           | Some a => Ok a
           | None => Throw (ErrorObj "Address must not be null or undefined")
           end;
  assetTxn ← makeAssetTransferTxnWithSuggestedParamsFromObject
    {| axfer_sender := sender;
       receiver := AddrValue appAddr;
       assetIndex := assetId;
       Algosdk.amount := amount;
       axfer_suggestedParams := suggestedParams |};
  let abiMethod := payCheckoutMethod in
  checkoutIdEncoded ← encodeArg abiMethod 1 (VString (id c));
  merchantEncoded ← encodeArg abiMethod 2 (VString (merchantWallet c));
  merchantNameEncoded ← encodeArg abiMethod 3 (VString (or_else (merchantName c) ""));
  amountEncoded ← encodeArg abiMethod 4 (VBigInt amount);
  noteEncoded ← encodeArg abiMethod 5 (VString (or_else (note c) ""));
  appCallTxn ← makeApplicationCallTxnFromObject
    {| appl_sender := sender;
       appIndex := appId;
       onComplete := NoOpOC;
       appArgs := [ getSelector abiMethod; checkoutIdEncoded; merchantEncoded;
                    merchantNameEncoded; amountEncoded; noteEncoded ];
       foreignAssets := [assetId];
       accounts := [merchantWallet c];
       appl_suggestedParams := with_fee suggestedParams 2000 true |};
  assignGroupID [assetTxn; appCallTxn].

(** [pay] up to its first [await]: the guard and the three resets. *)
Definition pay_begin (p : Page) : option Page :=
  if truthy (connectedAccount p) then
    Some (set_success None (set_error None (set_paying true p)))
  else None.

(** The [try] block: its value is the confirmed transaction id. *)
Definition pay_body (node : Node) (w : Pera.Answers) (p : Page) : result string :=
  suggestedParams ← getTransactionParams node;
  txns ← build_group (checkout p) (connectedAccount p) suggestedParams;
  signedTxns ← Pera.signTransaction w txns;
  txId ← sendRawTransaction node signedTxns;
  _ ← waitForConfirmation node txId 4;
  mret txId.

(** What follows the [try] block: its last two lines or the [catch]
    clause, then [finally]. *)
Definition pay_settle (r : result string) (p : Page) : Page :=
  let p :=
    match r with
    | Ok txId => set_checkout (set_status "paid" (checkout p)) (set_success (Some txId) p)
    | Throw e =>
        match message_of e with
        | Some message => set_error (Some (or_else message "Payment failed")) p
        | None => p   (* the clause raises a [TypeError] *)
        end
    end in
  set_paying false p.

Definition pay (node : Node) (w : Pera.Answers) (p : Page) : Page :=
  match pay_begin p with
  | Some p1 => pay_settle (pay_body node w p1) p1
  | None => p
  end.

(** How the promise [pay] returns ends. *)
Definition pay_completion (node : Node) (w : Pera.Answers) (p : Page)
  : Completion :=
  match pay_begin p with
  | Some p1 => catch_completion (pay_body node w p1)
  | None => Resolves
  end.

End WithPlatform.

(** What the template renders. *)
Definition connect_button_shown (p : Page) : bool := negb (isConnected p).

Definition pay_button_shown (p : Page) : bool :=
  bool_decide (status (checkout p) = "pending") && isConnected p.

(** [:disabled="paying"] *)
Definition pay_button_enabled (p : Page) : bool :=
  pay_button_shown p && negb (paying p).

(** [shortenAddress]; the payment form, the payment query and the
    checkout list define the same function. *)
Definition shortenAddress (addr : string) : string :=
  if negb (truthy (Some addr)) || bool_decide (String.length addr < 12)%nat
  then addr
  else slice addr 0 (Some 6%Z) +:+ "..." +:+ slice addr (-4) None.

Section Display.
Context `{Platform}.

(** [contractAddress]: the text shown as the smart contract's address. *)
Definition contractAddress (p : Page) : string :=
  match appId ← BigInt (appId (checkout p)); getApplicationAddress appId with
  | Ok a => Address_toString a
  | Throw _ => "Invalid App ID"
  end.

End Display.

End PaymentPage.

(* ===================================================================== *)
(** * The dev-tool payment form (uses the composable)                     *)
(* ===================================================================== *)

Module PaymentForm.
Import Algosdk.

Record Checkout : Type := {
  id : string;
  appId : string;
  payeeWallet : string;
  payeeName : option string;
  amount : string;
  assetId : string;
  note : option string;
  status : string;
}.

Record Form : Type := {
  checkout : option Checkout;      (* [null] until the record is loaded *)
  loading : bool;
  error : option string;
  success : option string;
  paying : bool;
  (** due times of the pending [setTimeout(<re-fetch>, 2000)] *)
  refetches : list Z;
}.

Definition set_error (v : option string) (f : Form) : Form :=
  {| checkout := checkout f; loading := loading f; error := v;
     success := success f; paying := paying f; refetches := refetches f |}.

Definition set_success (v : option string) (f : Form) : Form :=
  {| checkout := checkout f; loading := loading f; error := error f;
     success := v; paying := paying f; refetches := refetches f |}.

Definition set_paying (v : bool) (f : Form) : Form :=
  {| checkout := checkout f; loading := loading f; error := error f;
     success := success f; paying := v; refetches := refetches f |}.

Definition schedule_refetch (due : Z) (f : Form) : Form :=
  {| checkout := checkout f; loading := loading f; error := error f;
     success := success f; paying := paying f;
     refetches := refetches f ++ [due] |}.

Definition payCheckoutMethod : ABIMethod :=
  {| method_name := "payCheckout";
     method_args :=
       [ {| arg_type := "axfer"; arg_name := "payment" |};
         {| arg_type := "string"; arg_name := "checkoutId" |};
         {| arg_type := "address"; arg_name := "payeeWallet" |};
         {| arg_type := "string"; arg_name := "payeeName" |};
         {| arg_type := "uint64"; arg_name := "expectedAmount" |};
         {| arg_type := "string"; arg_name := "note" |} ];
     method_returns := "void" |}.

Section WithPlatform.
Context `{Platform}.

(** The group the [try] block of [payCheckout] builds. *)
Definition build_group (c : Checkout) (account : option string)
    (suggestedParams : SuggestedParams) : result (list Transaction) :=
  appId ← BigInt (appId c);
  assetId ← BigInt (assetId c);
  amount ← BigInt (amount c);
  appAddress ← getApplicationAddress appId;
  let appAddr := Address_toString appAddress in
  sender ← match account with
           | Some a => Ok a
           | None => Throw (ErrorObj "Address must not be null or undefined")
           end;
  assetTxn ← makeAssetTransferTxnWithSuggestedParamsFromObject
    {| axfer_sender := sender;
       receiver := AddrText appAddr;
       assetIndex := assetId;
       Algosdk.amount := amount;
       axfer_suggestedParams := suggestedParams |};
  let abiMethod := payCheckoutMethod in
  checkoutIdEncoded ← encodeArg abiMethod 1 (VString (id c));
  payeeEncoded ← encodeArg abiMethod 2 (VString (payeeWallet c));
  payeeNameEncoded ← encodeArg abiMethod 3 (VString (or_else (payeeName c) ""));
  amountEncoded ← encodeArg abiMethod 4 (VBigInt amount);
  noteEncoded ← encodeArg abiMethod 5 (VString (or_else (note c) ""));
  appCallTxn ← makeApplicationCallTxnFromObject
    {| appl_sender := sender;
       appIndex := appId;
       onComplete := NoOpOC;
       appArgs := [ getSelector abiMethod; checkoutIdEncoded; payeeEncoded;
                    payeeNameEncoded; amountEncoded; noteEncoded ];
       foreignAssets := [assetId];
       accounts := [payeeWallet c];
       appl_suggestedParams := with_fee suggestedParams 2000 true |};
  assignGroupID [assetTxn; appCallTxn].

(** [payCheckout] up to its first [await]. *)
Definition payCheckout_begin (s : UseAlgorand.Shared) (f : Form) : option Form :=
  match checkout f with
  | Some _ =>
      if truthy (UseAlgorand.connectedAccount s) then
        Some (set_success None (set_error None (set_paying true f)))
      else None
  | None => None
  end.

(** The [try] block up to [const txId = await ...]. *)
Definition payCheckout_body (node : Node) (w : Pera.Answers)
    (s : UseAlgorand.Shared) (f : Form) : result string :=
  suggestedParams ← getTransactionParams node;
  c ← match checkout f with
      | Some c => Ok c
      | None => Throw (ErrorObj "Cannot read properties of null")
      end;
  txns ← build_group c (UseAlgorand.connectedAccount s) suggestedParams;
  UseAlgorand.signAndSendTransactions node w s txns.

(** The rest: on success the id is shown and a re-fetch of the record
    is scheduled 2000 ms later; [catch]; [finally]. *)
Definition payCheckout_settle (now : Z) (r : result string) (f : Form) : Form :=
  let f :=
    match r with
    | Ok txId => schedule_refetch (now + 2000)%Z (set_success (Some txId) f)
    | Throw e => set_error (Some (message_or e "Payment failed")) f
    end in
  set_paying false f.

Definition payCheckout (now : Z) (node : Node) (w : Pera.Answers)
    (s : UseAlgorand.Shared) (f : Form) : Form :=
  match payCheckout_begin s f with
  | Some f1 => payCheckout_settle now (payCheckout_body node w s f1) f1
  | None => f
  end.

End WithPlatform.

(** The pay button: rendered for a pending checkout,
    [:disabled="!isConnected || paying"]. *)
Definition pay_button_enabled (s : UseAlgorand.Shared) (f : Form) : bool :=
  match checkout f with
  | Some c =>
      bool_decide (status c = "pending")
      && negb (negb (UseAlgorand.isConnected s) || paying f)
  | None => false
  end.

Record PreviewTransfer : Type := {
  txn1_type : string;
  txn1_from : string;
  txn1_to : string;
  txn1_amount : string;
  txn1_assetId : string;
}.

Record PreviewCall : Type := {
  txn2_type : string;
  txn2_appId : string;
  txn2_method : string;
  txn2_args : list (string * string);     (* name, value *)
}.

Section Display.
Context `{Platform}.

(** [(Number(amount) / 1_000_000).toFixed(2)]: floating point, left
    to the host. *)
Variable toFixed2 : string → string.

Definition formattedAmount (f : Form) : string :=
  match checkout f with
  | Some c => toFixed2 (amount c)
  | None => "0"
  end.

Definition contractAddress (f : Form) : string :=
  match checkout f with
  | Some c =>
      match appId ← BigInt (appId c); getApplicationAddress appId with
      | Ok a => Address_toString a
      | Throw _ => "Invalid App ID"
      end
  | None => ""
  end.

(** [transactionPreview]: [null] until a checkout is loaded and an
    account is connected. *)
Definition transactionPreview (s : UseAlgorand.Shared) (f : Form)
  : option (PreviewTransfer * PreviewCall) :=
  match checkout f, UseAlgorand.connectedAccount s with
  | Some c, Some account =>
      if truthy (Some account) then
        Some ({| txn1_type := "Asset Transfer";
                 txn1_from := account;
                 txn1_to := contractAddress f;
                 txn1_amount := formattedAmount f +:+ " USDC";
                 txn1_assetId := assetId c |},
              {| txn2_type := "Application Call";
                 txn2_appId := appId c;
                 txn2_method :=
                   "payCheckout(axfer,string,address,string,uint64,string)void";
                 txn2_args :=
                   [ ("payment", "Asset Transfer (grouped)");
                     ("checkoutId", id c);
                     ("payeeWallet", payeeWallet c);
                     ("payeeName", or_else (payeeName c) "(none)");
                     ("expectedAmount", amount c);
                     ("note", or_else (note c) "(none)") ] |})
      else None
  | _, _ => None
  end.

End Display.

End PaymentForm.

(* ===================================================================== *)
(** * Views that poll on an interval                                      *)
(* ===================================================================== *)

Module ExchangeRateDemo.

Record View : Type := {
  autoRefresh : bool;
  refreshInterval : option nat;
  timers : Browser.Timers;
}.

Definition setup (t : Browser.Timers) : View :=
  {| autoRefresh := false; refreshInterval := None; timers := t |}.

Definition toggleAutoRefresh (v : View) : View :=
  let autoRefresh' := negb (autoRefresh v) in
  if autoRefresh' then
    let '(h, t) := Browser.setInterval (timers v) in
    {| autoRefresh := autoRefresh'; refreshInterval := Some h; timers := t |}
  else
    match refreshInterval v with
    | Some h =>
        if Browser.handle_truthy (Some h) then
          {| autoRefresh := autoRefresh'; refreshInterval := None;
             timers := Browser.clearInterval h (timers v) |}
        else {| autoRefresh := autoRefresh'; refreshInterval := Some h;
                timers := timers v |}
    | None => {| autoRefresh := autoRefresh'; refreshInterval := None;
                 timers := timers v |}
    end.

(** [onMounted] only fetches; it starts no timer. *)
Definition onMounted (v : View) : View := v.

Definition onUnmounted (v : View) : View :=
  match refreshInterval v with
  | Some h =>
      if Browser.handle_truthy (Some h) then
        {| autoRefresh := autoRefresh v; refreshInterval := Some h;
           timers := Browser.clearInterval h (timers v) |}
      else v
  | None => v
  end.

(** A view's life: mounted, toggled [n] times, torn down. *)
Definition lifetime (n : nat) (t : Browser.Timers) : View :=
  onUnmounted (Nat.iter n toggleAutoRefresh (onMounted (setup t))).

End ExchangeRateDemo.

Module PaymentStats.

Record View : Type := {
  autoRefresh : bool;
  refreshInterval : option nat;
  timers : Browser.Timers;
}.

Definition setup (t : Browser.Timers) : View :=
  {| autoRefresh := true; refreshInterval := None; timers := t |}.

Definition startAutoRefresh (v : View) : View :=
  let t :=
    match refreshInterval v with
    | Some h =>
        if Browser.handle_truthy (Some h) then Browser.clearInterval h (timers v)
        else timers v
    | None => timers v
    end in
  let '(h, t) := Browser.setInterval t in
  {| autoRefresh := autoRefresh v; refreshInterval := Some h; timers := t |}.

Definition stopAutoRefresh (v : View) : View :=
  match refreshInterval v with
  | Some h =>
      if Browser.handle_truthy (Some h) then
        {| autoRefresh := autoRefresh v; refreshInterval := None;
           timers := Browser.clearInterval h (timers v) |}
      else v
  | None => v
  end.

Definition toggleAutoRefresh (v : View) : View :=
  let v := {| autoRefresh := negb (autoRefresh v);
              refreshInterval := refreshInterval v; timers := timers v |} in
  if autoRefresh v then startAutoRefresh v else stopAutoRefresh v.

Definition onMounted (v : View) : View :=
  if autoRefresh v then startAutoRefresh v else v.

Definition onUnmounted (v : View) : View := stopAutoRefresh v.

Definition lifetime (n : nat) (t : Browser.Timers) : View :=
  onUnmounted (Nat.iter n toggleAutoRefresh (onMounted (setup t))).

Definition shortenTxnId (txnId : string) : string :=
  if negb (truthy (Some txnId)) || bool_decide (String.length txnId < 16)%nat
  then txnId
  else slice txnId 0 (Some 8%Z) +:+ "..." +:+ slice txnId (-6) None.

End PaymentStats.

(** src/components/WalletConnect.vue *)
Module WalletConnect.

(** This view's [shortenAddress] has no length guard. *)
Definition shortenAddress (addr : string) : string :=
  slice addr 0 (Some 6%Z) +:+ "..." +:+ slice addr (-4) None.

End WalletConnect.

(* ===================================================================== *)
(** * Overlapping payment attempts                                        *)
(* ===================================================================== *)

(** A payment function runs to its first [await], is suspended, and is
    resumed when the awaited chain settles.  [inflight] counts the calls
    that are suspended.  [Click] is the user pressing the pay button
    (nothing happens unless the button is rendered and enabled);
    [Call] is the function invoked directly. *)
Module Attempts.

Section Machine.
Context {V Bg : Type}.
Variable begin : V → option V.
Variable settle : Z → result string → V → V.
Variable enabled : V → bool.
Variable background : Bg → V → V.

Record Run : Type := { view : V; inflight : nat }.

Inductive Event : Type :=
| Click
| Call
| Settle (now : Z) (r : result string)
| Background (b : Bg).

Definition call (m : Run) : Run :=
  match begin (view m) with
  | Some v => {| view := v; inflight := S (inflight m) |}
  | None => m
  end.

Definition step (m : Run) (e : Event) : Run :=
  match e with
  | Click => if enabled (view m) then call m else m
  | Call => call m
  | Settle now r =>
      match inflight m with
      | S n => {| view := settle now r (view m); inflight := n |}
      | O => m
      end
  | Background b => {| view := background b (view m); inflight := inflight m |}
  end.

Definition run (m : Run) (es : list Event) : Run := foldl step m es.

(** Events a user and the collaborators can cause through the view. *)
Definition from_view (e : Event) : bool :=
  match e with
  | Call => false
  | _ => true
  end.

(** As many calls are suspended as a busy flag says: one or none. *)
Definition balanced (busy : V → bool) (m : Run) : Prop :=
  inflight m = if busy (view m) then 1%nat else 0%nat.

End Machine.

Arguments Run V : clear implicits.
Arguments Event Bg : clear implicits.

End Attempts.

(** The payment page as such a machine. *)
Module PageRun.

Inductive Bg : Type :=
| WalletDisconnected                 (* the wallet's 'disconnect' event *)
| ClickDisconnect
| ClickConnect (w : Pera.Answers)
| Tick (now : Z).                    (* the countdown interval fires *)

Section WithPlatform.
Context `{Algosdk.Platform}.

Definition background (b : Bg) (p : PaymentPage.Page) : PaymentPage.Page :=
  match b with
  | WalletDisconnected => PaymentPage.handleDisconnect p
  | ClickDisconnect => PaymentPage.disconnect p
  | ClickConnect w => PaymentPage.connect w p
  | Tick now => PaymentPage.updateTimeRemaining now p
  end.

Definition settle (now : Z) (r : result string) (p : PaymentPage.Page)
  : PaymentPage.Page := PaymentPage.pay_settle r p.

Definition step : Attempts.Run PaymentPage.Page → Attempts.Event Bg
                  → Attempts.Run PaymentPage.Page :=
  Attempts.step PaymentPage.pay_begin settle PaymentPage.pay_button_enabled
    background.

Definition run : Attempts.Run PaymentPage.Page → list (Attempts.Event Bg)
                 → Attempts.Run PaymentPage.Page :=
  Attempts.run PaymentPage.pay_begin settle PaymentPage.pay_button_enabled
    background.

End WithPlatform.

Definition idle (p : PaymentPage.Page) : Attempts.Run PaymentPage.Page :=
  {| Attempts.view := p; Attempts.inflight := 0 |}.

End PageRun.

(** The payment form, with the composable's shared state, likewise. *)
Module FormRun.

Definition View : Type := UseAlgorand.Shared * PaymentForm.Form.

Inductive Bg : Type :=
| WalletDisconnected
| ClickDisconnect
| SwitchNetwork (network : UseAlgorand.NetworkId)
| Loaded (c : option PaymentForm.Checkout).   (* a (re-)fetch completes *)

Definition set_checkout (c : option PaymentForm.Checkout) (f : PaymentForm.Form)
  : PaymentForm.Form :=
  {| PaymentForm.checkout := c; PaymentForm.loading := PaymentForm.loading f;
     PaymentForm.error := PaymentForm.error f;
     PaymentForm.success := PaymentForm.success f;
     PaymentForm.paying := PaymentForm.paying f;
     PaymentForm.refetches := PaymentForm.refetches f |}.

Definition background (b : Bg) (v : View) : View :=
  match b with
  | WalletDisconnected => (UseAlgorand.handleDisconnect v.1, v.2)
  | ClickDisconnect => (UseAlgorand.disconnect v.1, v.2)
  | SwitchNetwork n => (UseAlgorand.switchNetwork n v.1, v.2)
  | Loaded c => (v.1, set_checkout c v.2)
  end.

Definition begin (v : View) : option View :=
  match PaymentForm.payCheckout_begin v.1 v.2 with
  | Some f => Some (v.1, f)
  | None => None
  end.

Definition settle (now : Z) (r : result string) (v : View) : View :=
  (v.1, PaymentForm.payCheckout_settle now r v.2).

Definition enabled (v : View) : bool := PaymentForm.pay_button_enabled v.1 v.2.

Definition step : Attempts.Run View → Attempts.Event Bg → Attempts.Run View :=
  Attempts.step begin settle enabled background.

Definition run : Attempts.Run View → list (Attempts.Event Bg) → Attempts.Run View :=
  Attempts.run begin settle enabled background.

Definition idle (s : UseAlgorand.Shared) (f : PaymentForm.Form) : Attempts.Run View :=
  {| Attempts.view := (s, f); Attempts.inflight := 0 |}.

End FormRun.

(** The countdown over time: [updateTimeRemaining] runs once at mount
    and then each time the interval fires, at the given instants. *)
Module Countdown.

Section WithPlatform.
Context `{Algosdk.Platform}.

Definition ticks (times : list Z) (p : PaymentPage.Page) : PaymentPage.Page :=
  foldl (λ p now, PaymentPage.updateTimeRemaining now p) p times.

End WithPlatform.

(** [n] instants one second apart, from [t0] on. *)
Definition every_second (t0 : Z) (n : nat) : list Z :=
  (λ k, t0 + 1000 * Z.of_nat k)%Z <$> seq 0 n.

End Countdown.

(* ===================================================================== *)
(** * The composable over time                                            *)
(* ===================================================================== *)

Module UseAlgorandRun.
Import UseAlgorand.

(** [(localStorage.getItem('network') as NetworkId) || 'testnet']: a
    missing or empty entry gives the test network.  The cast is not
    checked: for any other stored text the identifier is no
    [NetworkId], which is [None] here. *)
Definition stored_network (storage : gmap string string) : option NetworkId :=
  match storage !! "network" with
  | Some v =>
      if bool_decide (v = "") then Some testnet
      else if bool_decide (v = "testnet") then Some testnet
      else if bool_decide (v = "mainnet") then Some mainnet
      else None
  | None => Some testnet
  end.

(** The module-level state when the module is first evaluated. *)
Definition startup (storage : gmap string string) : option Shared :=
  match stored_network storage with
  | Some n =>
      Some {| connectedAccount := None;
              isInitialized := false;
              networkId := n;
              algodClient := createAlgodClient n;
              localStorage := storage;
              walletLog := [];
              console := [] |}
  | None => None
  end.

(** What a user of the composable, or the wallet, can cause. *)
Inductive Op : Type :=
| Init (w : Pera.Answers)             (* useAlgorand() / init() *)
| DoConnect (w : Pera.Answers)
| DoDisconnect
| WalletDisconnected                  (* the wallet's 'disconnect' event *)
| SwitchNetwork (network : NetworkId).

Definition apply (s : Shared) (op : Op) : Shared :=
  match op with
  | Init w => init w s
  | DoConnect w => (connect w s).1
  | DoDisconnect => disconnect s
  | WalletDisconnected => handleDisconnect s
  | SwitchNetwork n => switchNetwork n s
  end.

Definition run (s : Shared) (ops : list Op) : Shared := foldl apply s ops.

(** The client is the one for the current network, and what local
    storage holds would bring the same network back. *)
Definition coherent (s : Shared) : Prop :=
  algodClient s = createAlgodClient (networkId s)
  ∧ stored_network (localStorage s) = Some (networkId s).

End UseAlgorandRun.

(* ===================================================================== *)
(** * The API endpoint composable (useApiEndpoint)                        *)
(* ===================================================================== *)

Module ApiEndpoint.

Inductive EndpointId : Type := local | test | production.

#[global] Instance EndpointId_eq_dec : EqDecision EndpointId.
Proof. solve_decision. Defined.

Definition EndpointId_str (e : EndpointId) : string :=
  match e with
  | local => "local"
  | test => "test"
  | production => "production"
  end.

Record EndpointConfig : Type := { name : string; url : string }.

Definition endpoints (e : EndpointId) : EndpointConfig :=
  match e with
  | local => {| name := "Local"; url := "http://localhost:3001" |}
  | test => {| name := "Test";
               url := "https://cloudoverturecheckout-production.up.railway.app" |}
  | production => {| name := "Production"; url := "" |}
  end.

(** The own keys of the [endpoints] object. *)
Definition own_key (k : string) : option EndpointId :=
  if bool_decide (k = "local") then Some local
  else if bool_decide (k = "test") then Some test
  else if bool_decide (k = "production") then Some production
  else None.

Section WithHost.

(** [inherited k]: [k] names a member every object inherits
    (['constructor'], ['toString'], ...), so that [endpoints[k]] is
    truthy although [k] is no endpoint. *)
Variable inherited : string → bool.

(** [stored && endpoints[stored] ? stored : 'local'].  [None]: the
    stored text passes the test without being an [EndpointId]. *)
Definition restore (stored : option string) : option EndpointId :=
  match stored with
  | Some k =>
      if truthy (Some k) then
        match own_key k with
        | Some e => Some e
        | None => if inherited k then None else Some local
        end
      else Some local
  | None => Some local
  end.

End WithHost.

Record State : Type := {
  currentEndpoint : EndpointId;
  localStorage : gmap string string;
}.

Definition switchEndpoint (id : EndpointId) (s : State) : State :=
  {| currentEndpoint := id;
     localStorage := <["api-endpoint" := EndpointId_str id]> (localStorage s) |}.

Definition baseUrl (s : State) : string := url (endpoints (currentEndpoint s)).

Definition apiUrl (s : State) (path : string) : string := baseUrl s +:+ path.

End ApiEndpoint.

(* ===================================================================== *)
(** * The checkout list                                                   *)
(* ===================================================================== *)

Module CheckoutList.

Inductive Status : Type := pending | paid | notified | failed | expired.

#[global] Instance Status_eq_dec : EqDecision Status.
Proof. solve_decision. Defined.

Definition Status_str (s : Status) : string :=
  match s with
  | pending => "pending"
  | paid => "paid"
  | notified => "notified"
  | failed => "failed"
  | expired => "expired"
  end.

Record Checkout : Type := {
  id : string;
  appId : string;
  merchantWallet : string;
  merchantName : string;
  amount : string;
  assetId : string;
  note : string;
  method : string;
  status : Status;
  createdAt : string;
  expiresAt : string;
  paidAt : option string;
  transactionId : option string;
  notifiedAt : option string;
  paymentUrl : string;
}.

(** [s.includes(q)] *)
Definition includes (s q : string) : bool :=
  bool_decide (is_Some (String.index 0 q s)).

Record Counts : Type := {
  all : nat;
  n_pending : nat;
  n_paid : nat;
  n_notified : nat;
  n_expired : nat;
  n_failed : nat;
}.

(** [counts[status]] *)
Definition count_of (c : Counts) (s : Status) : nat :=
  match s with
  | pending => n_pending c
  | paid => n_paid c
  | notified => n_notified c
  | failed => n_failed c
  | expired => n_expired c
  end.

(** [counts.all++; counts[c.status]++] *)
Definition bump (c : Counts) (s : Status) : Counts :=
  let c := {| all := S (all c); n_pending := n_pending c; n_paid := n_paid c;
              n_notified := n_notified c; n_expired := n_expired c;
              n_failed := n_failed c |} in
  match s with
  | pending => {| all := all c; n_pending := S (n_pending c); n_paid := n_paid c;
                  n_notified := n_notified c; n_expired := n_expired c;
                  n_failed := n_failed c |}
  | paid => {| all := all c; n_pending := n_pending c; n_paid := S (n_paid c);
               n_notified := n_notified c; n_expired := n_expired c;
               n_failed := n_failed c |}
  | notified => {| all := all c; n_pending := n_pending c; n_paid := n_paid c;
                   n_notified := S (n_notified c); n_expired := n_expired c;
                   n_failed := n_failed c |}
  | expired => {| all := all c; n_pending := n_pending c; n_paid := n_paid c;
                  n_notified := n_notified c; n_expired := S (n_expired c);
                  n_failed := n_failed c |}
  | failed => {| all := all c; n_pending := n_pending c; n_paid := n_paid c;
                 n_notified := n_notified c; n_expired := n_expired c;
                 n_failed := S (n_failed c) |}
  end.

Definition statusCounts (checkouts : list Checkout) : Counts :=
  foldl (λ counts c, bump counts (status c))
    {| all := 0; n_pending := 0; n_paid := 0; n_notified := 0;
       n_expired := 0; n_failed := 0 |}
    checkouts.

Section WithHost.

(** [String.prototype.toLowerCase] *)
Variable toLowerCase : string → string.

Definition matches (query : string) (c : Checkout) : bool :=
  includes (toLowerCase (id c)) query
  || includes (toLowerCase (merchantName c)) query
  || includes (toLowerCase (merchantWallet c)) query.

Definition filteredCheckouts (checkouts : list Checkout)
    (statusFilter searchQuery : string) : list Checkout :=
  let result := checkouts in
  let result :=
    if bool_decide (statusFilter ≠ "all") then
      filter (λ c, Status_str (status c) = statusFilter) result
    else result in
  if truthy (Some searchQuery) then
    let query := toLowerCase searchQuery in
    filter (λ c, matches query c = true) result
  else result.

End WithHost.

Section WithPlatform.
Context `{Algosdk.Platform}.

(** [getTimeRemaining(expiresAt)], when the clock reads [now]. *)
Definition getTimeRemaining (now : Z) (expiresAt : string) : string :=
  match Algosdk.Date_getTime expiresAt with
  | Some t =>
      let diff := (t - now)%Z in
      if decide (diff ≤ 0)%Z then "Expired"
      else
        let minutes := (diff / 60000)%Z in
        let seconds := ((diff mod 60000) / 1000)%Z in
        pretty minutes +:+ "m " +:+ pretty seconds +:+ "s"
  | None => "NaNm NaNs"
  end.

End WithPlatform.

End CheckoutList.

(* ===================================================================== *)
(** * HTTP answers                                                        *)
(* ===================================================================== *)

Module Http.

(** What [await fetch(...)] resolves to, with what [res.json()] gives. *)
Record Response (Data : Type) : Type := {
  ok : bool;
  status : Z;
  json : result Data;
}.
Arguments ok {Data} r.
Arguments status {Data} r.
Arguments json {Data} r.

(** A parsed payload of a view that does not look at its shape: JSON
    [null], or a value whose members can be read. *)
Inductive Json (Data : Type) : Type :=
| JsonNull
| JsonValue (d : Data).
Arguments JsonNull {Data}.
Arguments JsonValue {Data} d.

(** What a [ref<T | null>] holds once the payload is assigned to it. *)
Definition stored {Data} (data : Json Data) : option Data :=
  match data with
  | JsonNull => None
  | JsonValue d => Some d
  end.

(** [data.member]: on [null] the read raises a [TypeError], whose
    message is the engine's. *)
Definition read_member {Data A} (typeError_message : string)
    (member : Data → A) (data : Json Data) : result A :=
  match data with
  | JsonNull => Throw (ErrorObj typeError_message)
  | JsonValue d => Ok (member d)
  end.

End Http.

(* ===================================================================== *)
(** * src/components/CheckoutCreator.vue                                  *)
(* ===================================================================== *)

Module CheckoutCreator.

Inductive Method : Type := contract | direct.

Definition Method_str (m : Method) : string :=
  match m with contract => "contract" | direct => "direct" end.

Record FormData : Type := {
  checkoutId : string;
  method : Method;
  appId : string;
  merchantWallet : string;
  merchantName : string;
  amount : string;
  assetId : string;
  note : string;
}.

Definition set_checkoutId (v : string) (f : FormData) : FormData :=
  {| checkoutId := v; method := method f; appId := appId f;
     merchantWallet := merchantWallet f; merchantName := merchantName f;
     amount := amount f; assetId := assetId f; note := note f |}.

(** [{ ...form.value }] *)
Definition spread (f : FormData) : gmap string string :=
  list_to_map
    [ ("checkoutId", checkoutId f); ("method", Method_str (method f));
      ("appId", appId f); ("merchantWallet", merchantWallet f);
      ("merchantName", merchantName f); ("amount", amount f);
      ("assetId", assetId f); ("note", note f) ].

(** The object both [requestBody] and [createCheckout] hand to
    [JSON.stringify]. *)
Definition body (f : FormData) : gmap string string :=
  let body := spread f in
  match method f with
  | direct => delete "appId" body
  | contract => body
  end.

Section WithData.

(** The payloads that are not [null], with their [error] member when
    they have a text there, and the message of the [TypeError] that
    reading a member of [null] raises. *)
Variable Data : Type.
Variable error_member : Data → option string.
Variable typeError_message : string.

Record State : Type := {
  form : FormData;
  loading : bool;
  (** [None] is [null] *)
  response : option Data;
  error : option string;
  (** the bodies POSTed to [/api/checkouts], in order *)
  posted : list (gmap string string);
}.

(** The [try] block up to [response.value = data]. *)
Definition request (answer : result (Http.Response (Http.Json Data)))
  : result (Http.Json Data) :=
  res ← answer;
  data ← Http.json res;
  if negb (Http.ok res) then
    m ← Http.read_member typeError_message error_member data;
    Throw (ErrorObj (or_else m ("HTTP " +:+ pretty (Http.status res))))
  else Ok data.

(** [createCheckout], when the clock reads [now] at its end. *)
Definition createCheckout (now : Z)
    (answer : result (Http.Response (Http.Json Data))) (s : State) : State :=
  let sent := body (form s) in
  match request answer with
  | Ok data =>
      {| form := set_checkoutId ("CHK-" +:+ pretty now) (form s);
         loading := false;
         response := Http.stored data;
         error := None;
         posted := posted s ++ [sent] |}
  | Throw e =>
      {| form := form s;
         loading := false;
         response := None;
         error := Some (message_or e "Request failed");
         posted := posted s ++ [sent] |}
  end.

End WithData.

End CheckoutCreator.

(* ===================================================================== *)
(** * The payment query view                                              *)
(* ===================================================================== *)

Module PaymentQuery.

Inductive QueryType : Type := txn | checkout.

(** What the endpoints answer: one payment or an array of them. *)
Inductive Data (Payment : Type) : Type :=
| One (p : Payment)
| Many (ps : list Payment).
Arguments One {Payment} p.
Arguments Many {Payment} ps.

Section WithHost.
Variable Payment : Type.
(** [String.prototype.trim] and [encodeURIComponent] *)
Variable trim : string → string.
Variable encodeURIComponent : string → string.

Record State : Type := {
  queryType : QueryType;
  queryValue : string;
  loading : bool;
  error : option string;
  results : list Payment;
  searched : bool;
  (** the URLs fetched, in order *)
  fetched : list string;
}.

Definition endpoint (s : State) : string :=
  match queryType s with
  | txn => "/api/payments/txn/" +:+ encodeURIComponent (queryValue s)
  | checkout => "/api/payments/checkout/" +:+ encodeURIComponent (queryValue s)
  end.

(** The [try] block: the list to show. *)
Definition outcome (answer : result (Http.Response (Data Payment)))
  : result (list Payment) :=
  res ← answer;
  if bool_decide (Http.status res = 404%Z) then Ok []
  else if negb (Http.ok res) then Throw (ErrorObj "Failed to fetch payment")
  else
    data ← Http.json res;
    Ok (match data with Many ps => ps | One p => [p] end).

Definition search (answer : result (Http.Response (Data Payment)))
    (s : State) : State :=
  if negb (truthy (Some (trim (queryValue s)))) then
    {| queryType := queryType s; queryValue := queryValue s;
       loading := loading s; error := Some "Please enter a search value";
       results := results s; searched := searched s; fetched := fetched s |}
  else
    match outcome answer with
    | Ok ps =>
        {| queryType := queryType s; queryValue := queryValue s;
           loading := false; error := None; results := ps;
           searched := true; fetched := fetched s ++ [endpoint s] |}
    | Throw e =>
        {| queryType := queryType s; queryValue := queryValue s;
           loading := false; error := Some (message_or e "Search failed");
           results := []; searched := true;
           fetched := fetched s ++ [endpoint s] |}
    end.

End WithHost.

End PaymentQuery.

(* ===================================================================== *)
(** * Loading data into the views                                         *)
(* ===================================================================== *)

(** The payment form's [onMounted]: the checkout named in the page's
    query string is fetched from the chosen API endpoint. *)
Module PaymentFormLoad.

(** The form together with the URLs it has fetched, in order. *)
Record Loaded : Type := {
  form : PaymentForm.Form;
  fetched : list string;
}.

Definition set_error (v : option string) (f : PaymentForm.Form) : PaymentForm.Form :=
  {| PaymentForm.checkout := PaymentForm.checkout f;
     PaymentForm.loading := PaymentForm.loading f;
     PaymentForm.error := v;
     PaymentForm.success := PaymentForm.success f;
     PaymentForm.paying := PaymentForm.paying f;
     PaymentForm.refetches := PaymentForm.refetches f |}.

Definition set_loading (v : bool) (f : PaymentForm.Form) : PaymentForm.Form :=
  {| PaymentForm.checkout := PaymentForm.checkout f;
     PaymentForm.loading := v;
     PaymentForm.error := PaymentForm.error f;
     PaymentForm.success := PaymentForm.success f;
     PaymentForm.paying := PaymentForm.paying f;
     PaymentForm.refetches := PaymentForm.refetches f |}.

(** The [try] block: the record to store. *)
Definition load (answer : result (Http.Response PaymentForm.Checkout))
  : result PaymentForm.Checkout :=
  res ← answer;
  if negb (Http.ok res) then Throw (ErrorObj "Checkout not found")
  else Http.json res.

(** [checkoutId] is [params.get('checkoutId')]. *)
Definition onMounted (api : ApiEndpoint.State) (checkoutId : option string)
    (answer : result (Http.Response PaymentForm.Checkout)) (v : Loaded) : Loaded :=
  if negb (truthy checkoutId) then
    {| form := set_error
                 (Some "No checkout ID provided. Add ?checkoutId=XXX to the URL.")
                 (form v);
       fetched := fetched v |}
  else
    let url := ApiEndpoint.apiUrl api
                 ("/api/checkouts/" +:+ or_else checkoutId "") in
    let f :=
      match load answer with
      | Ok c => FormRun.set_checkout (Some c) (form v)
      | Throw e => set_error (Some (message_or e "Failed to load checkout")) (form v)
      end in
    {| form := set_loading false f; fetched := fetched v ++ [url] |}.

End PaymentFormLoad.

(** The payment-stats view's [fetchData]. *)
Module PaymentStatsData.

Section WithData.
Variable Stats Payment : Type.

Record State : Type := {
  stats : option Stats;
  payments : list Payment;
  loading : bool;
  error : option string;
}.


End WithData.

End PaymentStatsData.

(** The exchange-rate view's [lookupRate] and [getAsaId]. *)
Module ExchangeRateLookup.

Record AsaMapping : Type := {
  id : Z;
  symbol : string;
  name : string;
  decimals : Z;
  coingeckoId : string;
  asaIdTestnet : option string;
  asaIdMainnet : option string;
  isNative : bool;
}.

(** [getAsaId(mapping)], for the view's [network]. *)
Definition getAsaId (network : string) (mapping : AsaMapping) : string :=
  let id := if bool_decide (network = "mainnet") then asaIdMainnet mapping
            else asaIdTestnet mapping in
  or_else id (if isNative mapping then "Native" else "N/A").

Section WithHost.
(** The payloads that are not [null], with their [error] member when
    they have a text there, and the message of the [TypeError] that
    reading a member of [null] raises. *)
Variable Data : Type.
Variable error_member : Data → option string.
Variable typeError_message : string.
Variable trim : string → string.
Variable encodeURIComponent : string → string.

Record State : Type := {
  lookupInput : string;
  (** [None] is [null] *)
  lookupResult : option Data;
  lookupLoading : bool;
  lookupError : option string;
  (** the URLs fetched, in order *)
  fetched : list string;
}.

Definition lookupRate (answer : result (Http.Response (Http.Json Data)))
    (s : State) : State :=
  if negb (truthy (Some (trim (lookupInput s)))) then s
  else
    let url := "/api/exchange-rate/" +:+ encodeURIComponent (trim (lookupInput s)) in
    let done (r : option Data) (e : option string) :=
      {| lookupInput := lookupInput s; lookupResult := r;
         lookupLoading := false; lookupError := e;
         fetched := fetched s ++ [url] |} in
    match answer with
    | Ok res =>
        if negb (Http.ok res) then
          if bool_decide (Http.status res = 503%Z) then
            match Http.json res with
            | Ok data =>
                match Http.read_member typeError_message error_member data with
                | Ok m => done (Http.stored data) (Some (or_else m "Rate unavailable"))
                | Throw e => done (Http.stored data) (Some (message_or e "Lookup failed"))
                end
            | Throw e => done None (Some (message_or e "Lookup failed"))
            end
          else done None (Some ("HTTP " +:+ pretty (Http.status res)))
        else
          match Http.json res with
          | Ok data => done (Http.stored data) None
          | Throw e => done None (Some (message_or e "Lookup failed"))
          end
    | Throw e => done None (Some (message_or e "Lookup failed"))
    end.

End WithHost.

End ExchangeRateLookup.

(* ===================================================================== *)
(** * The payment group, as the specification words it                    *)
(* ===================================================================== *)

Module BuilderSpec.
Import Algosdk.

Definition methodSignature : string :=
  "payCheckout(axfer,string,address,string,uint64,string)void".

(** Transaction A: an asset transfer of [amount] of [assetId] from the
    payer to the program's account. *)
Definition transactionA (payer : string) (programAccount : AddressArg)
    (assetId amount : Z) (sp : SuggestedParams) : TxnFields :=
  Axfer {| axfer_sender := payer; receiver := programAccount;
           assetIndex := assetId; Algosdk.amount := amount;
           axfer_suggestedParams := sp |}.

(** Transaction B: a NoOp invocation of [programId] with the given
    argument list, one foreign asset and one foreign account. *)
Definition transactionB (payer : string) (programId : Z) (args : list bytes)
    (assetId : Z) (merchantAddress : string) (sp : SuggestedParams) : TxnFields :=
  Appl {| appl_sender := payer; appIndex := programId; onComplete := NoOpOC;
          appArgs := args; foreignAssets := [assetId];
          accounts := [merchantAddress]; appl_suggestedParams := sp |}.

Section WithPlatform.
Context `{Platform}.

(** The first four bytes of the digest of a method signature. *)
Definition selector (signature : string) : bytes :=
  take 4 (genericHash (String.list_byte_of_string signature)).

(** [txns] is the two-member group for a checkout with the given
    fields: every input parses and encodes, both constructors accept
    their object, and the pair carries the identifier computed from the
    two finished transactions.  [account_of] is how the program's
    account is handed to the transfer; [paramsB] are the parameters
    given to the invocation. *)
Definition payment_group (checkoutId programId merchantAddress : string)
    (merchantName : option string) (amount assetId : string)
    (note : option string) (account_of : bytes → AddressArg)
    (payer : option string) (sp paramsB : SuggestedParams)
    (txns : list Transaction) : Prop :=
  ∃ (program asset amt : Z) (programAccount : bytes) (sender : string)
    (encId encMerchant encName encAmount encNote gid : bytes),
    BigInt programId = Ok program
    ∧ BigInt assetId = Ok asset
    ∧ BigInt amount = Ok amt
    ∧ getApplicationAddress program = Ok programAccount
    ∧ payer = Some sender
    ∧ abiEncode ABIString (VString checkoutId) = Ok encId
    ∧ abiEncode ABIAddress (VString merchantAddress) = Ok encMerchant
    ∧ abiEncode ABIString (VString (or_else merchantName "")) = Ok encName
    ∧ abiEncode (ABIUint 64) (VBigInt amt) = Ok encAmount
    ∧ abiEncode ABIString (VString (or_else note "")) = Ok encNote
    ∧ let A := transactionA sender (account_of programAccount) asset amt sp in
      let B := transactionB sender program
                 [selector methodSignature; encId; encMerchant; encName;
                  encAmount; encNote]
                 asset merchantAddress paramsB in
      txnCheck A = Ok ()
      ∧ txnCheck B = Ok ()
      ∧ computeGroupID [ {| fields := A; group := None |};
                         {| fields := B; group := None |} ] = Ok gid
      ∧ txns = [ {| fields := A; group := Some gid |};
                 {| fields := B; group := Some gid |} ].

End WithPlatform.

End BuilderSpec.

(* ===================================================================== *)
(** * A concrete platform and sample data                                 *)
(* ===================================================================== *)

(** Stand-ins for the host and algosdk, used to run the definitions on
    concrete inputs.  The ABI encoders follow ARC-4 (2-byte big-endian
    length prefix for strings, 8-byte big-endian for uint64); the digest
    is a placeholder, not SHA-512/256. *)
Module Sample.
Import Algosdk.

Definition byte_of_Z (z : Z) : Byte.byte :=
  default Byte.x00 (Byte.of_N (Z.to_N (Z.land z 255))).

(** [n] as [len] big-endian bytes. *)
Definition bigIntToBytes (n : Z) (len : nat) : bytes :=
  (λ i, byte_of_Z (Z.shiftr n (8 * Z.of_nat i))) <$> reverse (seq 0 len).

Definition digit_of_ascii (a : Ascii.ascii) : option Z :=
  let n := Z.of_N (Ascii.N_of_ascii a) in
  if decide (48 ≤ n ≤ 57)%Z then Some (n - 48)%Z else None.

Fixpoint parse_digits (acc : Z) (s : string) : result Z :=
  match s with
  | EmptyString => Ok acc
  | String a s' =>
      match digit_of_ascii a with
      | Some d => parse_digits (10 * acc + d)%Z s'
      | None => Throw (ErrorObj "Cannot convert to a BigInt")
      end
  end.

Definition digest (m : bytes) : bytes := take 32 (m ++ replicate 32 Byte.x01)%list.

Definition encode (t : ABIType) (v : ABIValue) : result bytes :=
  match t, v with
  | ABIString, VString s =>
      let b := String.list_byte_of_string s in
      if decide (Z.of_nat (length b) < 65536)%Z then
        Ok (bigIntToBytes (Z.of_nat (length b)) 2 ++ b)%list
      else Throw (ErrorObj "string too long")
  | ABIUint 64, VBigInt n =>
      if decide (0 ≤ n < 2 ^ 64)%Z then Ok (bigIntToBytes n 8)
      else Throw (ErrorObj "not a uint64")
  | ABIAddress, VString s =>
      if decide (String.length s = 58)%nat then
        Ok (take 32 (String.list_byte_of_string s))
      else Throw (ErrorObj "address seems to be malformed")
  | _, _ => Throw (ErrorObj "Cannot encode value")
  end.

Definition date (s : string) : option Z :=
  if bool_decide (s = "1970-01-01T00:00:05.000Z") then Some 5000%Z
  else if bool_decide (s = "1970-01-01T00:30:00.000Z") then Some 1800000%Z
  else None.

Definition platform : Platform :=
  {| BigInt := parse_digits 0;
     Date_getTime := date;
     genericHash := digest;
     getApplicationAddress := λ appId,
       if decide (0 ≤ appId < 2 ^ 64)%Z then
         Ok (digest (String.list_byte_of_string "appID" ++ bigIntToBytes appId 8)%list)
       else Throw (ErrorObj "not a uint64");
     Address_toString := String.string_of_list_byte;
     abiEncode := encode;
     txnCheck := λ _, Ok ();
     computeGroupID := λ txns,
       Ok (digest (String.list_byte_of_string "TG" ++
                   bigIntToBytes (Z.of_nat (length txns)) 8)%list) |}.

Definition payer : string :=
  "PAYERAAAAAAAAAAAAAAAAAAAAAAAAAAAAAAAAAAAAAAAAAAAAAAAAAAAAA".

Definition otherAccount : string :=
  "OTHERAAAAAAAAAAAAAAAAAAAAAAAAAAAAAAAAAAAAAAAAAAAAAAAAAAAAA".

Definition merchant : string :=
  "MERCHANTAAAAAAAAAAAAAAAAAAAAAAAAAAAAAAAAAAAAAAAAAAAAAAAAAA".

(** The node's usual answer, and one with a higher minimum fee. *)
Definition params : SuggestedParams :=
  {| fee := 0; flatFee := None; minFee := 1000; firstValid := 100;
     lastValid := 1100; genesisID := "testnet-v1.0"; genesisHash := [] |}.


(** A wallet that restores nothing, connects [account] and signs. *)
Definition wallet (account : string) : Pera.Answers :=
  {| Pera.reconnectSession := Ok [];
     Pera.connect := Ok [account];
     Pera.signTransaction := λ txns, Ok (replicate (length txns) []) |}.

(** A wallet whose interactive prompt fails with [e]. *)
Definition failingWallet (e : Thrown) : Pera.Answers :=
  {| Pera.reconnectSession := Ok [];
     Pera.connect := Throw e;
     Pera.signTransaction := λ _, Throw e |}.

(** A node that accepts the group and never reports it confirmed. *)
Definition silentNode (sp : SuggestedParams) : Node :=
  {| getTransactionParams := Ok sp;
     sendRawTransaction := λ _, Ok "TXID";
     waitForConfirmation := λ _ rounds,
       Throw (ErrorObj ("Transaction not confirmed after " +:+
                        pretty rounds +:+ " rounds")) |}.

Definition confirmingNode (sp : SuggestedParams) : Node :=
  {| getTransactionParams := Ok sp;
     sendRawTransaction := λ _, Ok "TXID";
     waitForConfirmation := λ _ _, Ok () |}.

Definition shared (account : option string) : UseAlgorand.Shared :=
  {| UseAlgorand.connectedAccount := account;
     UseAlgorand.isInitialized := true;
     UseAlgorand.networkId := UseAlgorand.testnet;
     UseAlgorand.algodClient := UseAlgorand.createAlgodClient UseAlgorand.testnet;
     UseAlgorand.localStorage := ∅;
     UseAlgorand.walletLog := [];
     UseAlgorand.console := [] |}.

Definition pageCheckout : PaymentPage.Checkout :=
  {| PaymentPage.id := "CHK-1";
     PaymentPage.appId := "754674671";
     PaymentPage.merchantWallet := merchant;
     PaymentPage.merchantName := Some "Shop";
     PaymentPage.amount := "1000000";
     PaymentPage.assetId := "10458941";
     PaymentPage.note := None;
     PaymentPage.status := "pending";
     PaymentPage.expiresAt := "1970-01-01T00:00:05.000Z" |}.

Definition page (account : option string) : PaymentPage.Page :=
  {| PaymentPage.checkout := pageCheckout;
     PaymentPage.connectedAccount := account;
     PaymentPage.loading := false;
     PaymentPage.error := None;
     PaymentPage.success := None;
     PaymentPage.paying := false;
     PaymentPage.timeRemaining := "";
     PaymentPage.walletLog := [];
     PaymentPage.timers := Browser.fresh_timers;
     PaymentPage.reloads := [] |}.

Definition formCheckout : PaymentForm.Checkout :=
  {| PaymentForm.id := "CHK-1";
     PaymentForm.appId := "754674671";
     PaymentForm.payeeWallet := merchant;
     PaymentForm.payeeName := Some "Shop";
     PaymentForm.amount := "1000000";
     PaymentForm.assetId := "10458941";
     PaymentForm.note := None;
     PaymentForm.status := "pending" |}.

Definition form : PaymentForm.Form :=
  {| PaymentForm.checkout := Some formCheckout;
     PaymentForm.loading := false;
     PaymentForm.error := None;
     PaymentForm.success := None;
     PaymentForm.paying := false;
     PaymentForm.refetches := [] |}.

(** What the page's builder makes of the sample checkout. *)
Definition scenario : result (list Transaction) :=
  PaymentPage.build_group (H := platform) pageCheckout (Some payer) params.

Definition scenarioGroup : list Transaction :=
  match scenario with Ok txns => txns | Throw _ => [] end.

(** What the form's builder makes of the sample checkout. *)
Definition formGroup : list Transaction :=
  match PaymentForm.build_group (H := platform) formCheckout (Some payer) params with
  | Ok txns => txns
  | Throw _ => []
  end.

End Sample.

(* ===================================================================== *)
(** * Theorems                                                            *)
(* ===================================================================== *)

Module JsFacts.

Lemma or_else_truthy (v : option string) (dflt : string) :
  dflt ≠ "" → truthy (Some (or_else v dflt)) = true.
Proof.
  intros Hd. unfold or_else, truthy.
  destruct v as [s |]; [destruct (decide (s ≠ "")) as [Hs | Hs] |].
  - rewrite (bool_decide_eq_true_2 _ Hs). by apply bool_decide_eq_true_2.
  - rewrite (bool_decide_eq_false_2 _ Hs). by apply bool_decide_eq_true_2.
  - by apply bool_decide_eq_true_2.
Qed.

Lemma bind_ok {A B} (m : result A) (k : A → result B) (b : B) :
  m ≫= k = Ok b ↔ ∃ a, m = Ok a ∧ k a = Ok b.
Proof.
  destruct m as [a | e]; cbn; split.
  - intros Hk. by exists a.
  - by intros (a' & [= <-] & Hk).
  - discriminate.
  - by intros (a' & [=] & _).
Qed.

Lemma ret_bind {A B} (a : A) (k : A → result B) : Ok a ≫= k = k a.
Proof. reflexivity. Qed.

End JsFacts.

(** The sample encoders on the scenario's values. *)
Module SampleFacts.
Import Algosdk.

Example encode_uint64_1000000 :
  Sample.encode (ABIUint 64) (VBigInt 1000000)
  = Ok [Byte.x00; Byte.x00; Byte.x00; Byte.x00; Byte.x00; Byte.x0f; Byte.x42;
        Byte.x40].
Proof. reflexivity. Qed.

Example encode_string_CHK_1 :
  Sample.encode ABIString (VString "CHK-1")
  = Ok [Byte.x00; Byte.x05; Byte.x43; Byte.x48; Byte.x4b; Byte.x2d; Byte.x31].
Proof. reflexivity. Qed.

Example encode_uint64_out_of_range :
  Sample.encode (ABIUint 64) (VBigInt (2 ^ 64))
  = Throw (ErrorObj "not a uint64").
Proof. reflexivity. Qed.

Example parse_amount : Sample.parse_digits 0 "1000000" = Ok 1000000%Z.
Proof. reflexivity. Qed.

Example parse_malformed :
  Sample.parse_digits 0 "12a" = Throw (ErrorObj "Cannot convert to a BigInt").
Proof. reflexivity. Qed.

End SampleFacts.

Module UseAlgorandFacts.
Import UseAlgorand.

(** C10. Calling [switchNetwork] with the network that is already
    active changes nothing: the connected account, the node client,
    the network identifier, the persisted selection, the wallet log
    (no disconnect is requested) and the console are all as before. *)
Theorem switchNetwork_same_network_noop (s : Shared) :
  switchNetwork (networkId s) s = s.
Proof.
  unfold switchNetwork. case_decide; [reflexivity | congruence].
Qed.

(** C6. Switching to a different network while an account is connected
    leaves [isConnected] false right after the call (the wallet is asked
    to disconnect and the account is cleared), and the node client is
    replaced by one built from the new network's configuration; the new
    identifier is also stored in memory and in local storage. *)
Theorem switchNetwork_disconnects (network : NetworkId) (s : Shared) :
  network ≠ networkId s →
  isConnected s = true →
  let s' := switchNetwork network s in
  isConnected s' = false
  ∧ connectedAccount s' = None
  ∧ walletLog s' = walletLog s ++ [Pera.Disconnect]
  ∧ algodClient s' = createAlgodClient network
  ∧ clientServer (algodClient s') = algodServer (NETWORKS network)
  ∧ clientPort (algodClient s') = algodPort (NETWORKS network)
  ∧ clientToken (algodClient s') = algodToken (NETWORKS network)
  ∧ networkId s' = network
  ∧ localStorage s' !! "network" = Some (NetworkId_str network).
Proof.
  intros Hne Hconn. unfold switchNetwork.
  case_decide; [congruence |].
  assert (Hc : isConnected
            (set_algodClient (createAlgodClient network)
               (localStorage_setItem "network" (NetworkId_str network)
                  (set_networkId network s))) = true) by exact Hconn.
  rewrite Hc. cbn.
  repeat split; try reflexivity.
  apply lookup_insert_eq.
Qed.

Lemma switchNetwork_disconnects_witness :
  let s' := switchNetwork mainnet (Sample.shared (Some Sample.payer)) in
  isConnected s' = false
  ∧ connectedAccount s' = None
  ∧ walletLog s' = walletLog (Sample.shared (Some Sample.payer)) ++ [Pera.Disconnect]
  ∧ algodClient s' = createAlgodClient mainnet
  ∧ clientServer (algodClient s') = algodServer (NETWORKS mainnet)
  ∧ clientPort (algodClient s') = algodPort (NETWORKS mainnet)
  ∧ clientToken (algodClient s') = algodToken (NETWORKS mainnet)
  ∧ networkId s' = mainnet
  ∧ localStorage s' !! "network" = Some (NetworkId_str mainnet).
Proof.
  apply (switchNetwork_disconnects mainnet (Sample.shared (Some Sample.payer)));
    [discriminate | reflexivity].
Defined.

End UseAlgorandFacts.

Module ConnectFacts.

(** C7, as the claim states it, fails on the payment page: with an
    account connected, its [connect] still prompts the wallet and takes
    over whatever account the wallet answers with. *)
Lemma page_connect_prompts_again :
  let p := Sample.page (Some Sample.payer) in
  let p' := PaymentPage.connect (Sample.wallet Sample.otherAccount) p in
  PaymentPage.isConnected p = true
  ∧ Pera.prompts (PaymentPage.walletLog p') = S (Pera.prompts (PaymentPage.walletLog p))
  ∧ PaymentPage.connectedAccount p' ≠ PaymentPage.connectedAccount p.
Proof. cbv zeta. split; [reflexivity | split; [reflexivity | discriminate]]. Qed.

(** C7 (amended). The composable's [connect] is idempotent: with an
    account connected it returns at once, the shared state (account and
    wallet log included: no prompt, no restore attempt) exactly as it
    was.  The payment page's [connect] has no such check; there the
    connect button is rendered only while no account is connected. *)
Theorem composable_connect_idempotent :
  (∀ (w : Pera.Answers) (s : UseAlgorand.Shared),
     UseAlgorand.isConnected s = true →
     UseAlgorand.connect w s = (s, Ok ()))
  ∧ (∀ p : PaymentPage.Page,
       PaymentPage.isConnected p = true →
       PaymentPage.connect_button_shown p = false).
Proof.
  split.
  - intros w s Hc. unfold UseAlgorand.connect. by rewrite Hc.
  - intros p Hc. unfold PaymentPage.connect_button_shown. by rewrite Hc.
Qed.

Lemma composable_connect_idempotent_witness :
  UseAlgorand.connect (Sample.wallet Sample.otherAccount)
    (Sample.shared (Some Sample.payer))
  = (Sample.shared (Some Sample.payer), Ok ())
  ∧ PaymentPage.connect_button_shown (Sample.page (Some Sample.payer)) = false.
Proof.
  destruct composable_connect_idempotent as [Hc Hp].
  split; [apply Hc | apply Hp]; reflexivity.
Defined.

(** C8, as the claim states it, fails on the composable: a cancelled
    prompt is re-thrown to the caller like any other failure. *)
Lemma composable_connect_rethrows_cancel :
  (UseAlgorand.connect (Sample.failingWallet (ErrorObj "Connect cancelled"))
     (Sample.shared None)).2
  = Throw (ErrorObj "Connect cancelled").
Proof. reflexivity. Qed.

(** C8 (amended). On the payment page, a failure of the wallet's
    [connect] whose message is ['Connect cancelled'] leaves the error
    indication unset and the call resolves: a silent outcome.  No other
    failure is silent.  Every other failure that is not a thrown [null]
    or [undefined] sets the error indication to a non-empty text (the
    failure's message, or a default) and the call resolves; a thrown
    [null] or [undefined] sets no text, as reading its message raises a
    [TypeError] in the [catch] clause, and the call rejects with it once
    [finally] has cleared the loading flag.  The composable's [connect]
    makes no such distinction: when the silent restore gives no account,
    every failure of the prompt, a cancellation included, is logged to
    the console and re-thrown to the caller, the account unchanged. *)
Theorem page_connect_suppresses_only_cancel :
  (∀ (w : Pera.Answers) (p : PaymentPage.Page) (e : Thrown),
     Pera.connect w = Throw e →
     let p' := PaymentPage.connect w p in
     (message_of e = Some (Some "Connect cancelled") →
      PaymentPage.error p' = None
      ∧ PaymentPage.connect_completion w = Resolves)
     ∧ (∀ message, message_of e = Some message →
        message ≠ Some "Connect cancelled" →
        PaymentPage.error p' = Some (or_else message "Failed to connect wallet")
        ∧ truthy (PaymentPage.error p') = true
        ∧ PaymentPage.connect_completion w = Resolves)
     ∧ (e = NullThrown →
        PaymentPage.error p' = None
        ∧ PaymentPage.connect_completion w = RejectsTypeError)
     ∧ (PaymentPage.error p' = None
        ∧ PaymentPage.connect_completion w = Resolves
        ↔ e = ErrorObj "Connect cancelled")
     ∧ PaymentPage.connectedAccount p' = PaymentPage.connectedAccount p
     ∧ PaymentPage.loading p' = false)
  ∧ (∀ (w : Pera.Answers) (s : UseAlgorand.Shared) (e : Thrown),
       UseAlgorand.isConnected s = false →
       Pera.connect w = Throw e →
       (∀ a, Pera.reconnectSession w = Ok a → restored_account a = None) →
       let s' := (UseAlgorand.connect w s).1 in
       (UseAlgorand.connect w s).2 = Throw e
       ∧ UseAlgorand.console s'
         = UseAlgorand.console s ++ ["Wallet connection failed:"]
       ∧ UseAlgorand.connectedAccount s' = UseAlgorand.connectedAccount s).
Proof.
  split.
  - intros w p e He p'. subst p'.
    unfold PaymentPage.connect, PaymentPage.connect_completion. rewrite He.
    destruct e as [m | |]; cbn [message_of catch_completion].
    + destruct (decide (m = "Connect cancelled")) as [-> | Hm].
      * rewrite bool_decide_eq_false_2 by tauto.
        split; [| split; [| split; [| split; [| split]]]].
        -- by intros _.
        -- intros msg [= <-] Hne. done.
        -- intros [=].
        -- done.
        -- done.
        -- done.
      * rewrite bool_decide_eq_true_2 by congruence.
        split; [| split; [| split; [| split; [| split]]]].
        -- intros [= ->]. done.
        -- intros msg [= <-] _.
           split; [done | split; [| done]].
           by apply (JsFacts.or_else_truthy (Some m)).
        -- intros [=].
        -- split; [by intros [[=] _] | by intros [= ->]].
        -- done.
        -- done.
    + rewrite bool_decide_eq_true_2 by done.
      split; [| split; [| split; [| split; [| split]]]].
      * intros [=].
      * intros msg [= <-] _. done.
      * intros [=].
      * split; [by intros [[=] _] | intros [=]].
      * done.
      * done.
    + split; [| split; [| split; [| split; [| split]]]].
      * intros [=].
      * intros msg [=].
      * by intros _.
      * split; [by intros [_ [=]] | intros [=]].
      * done.
      * done.
  - intros w s e Hs He Hr. cbv zeta. unfold UseAlgorand.connect. rewrite Hs.
    destruct (Pera.reconnectSession w) as [a |] eqn:Ha.
    + rewrite (Hr a eq_refl). unfold UseAlgorand.connect_interactive.
      by rewrite He.
    + unfold UseAlgorand.connect_interactive. by rewrite He.
Qed.

Lemma page_connect_suppresses_only_cancel_witness :
  PaymentPage.error
    (PaymentPage.connect (Sample.failingWallet (ErrorObj "Connect cancelled"))
       (Sample.page None)) = None
  ∧ PaymentPage.error
      (PaymentPage.connect (Sample.failingWallet (ErrorObj "Session rejected"))
         (Sample.page None)) = Some "Session rejected"
  ∧ PaymentPage.connect_completion (Sample.failingWallet NullThrown)
    = RejectsTypeError
  ∧ (UseAlgorand.connect (Sample.failingWallet (ErrorObj "Session rejected"))
       (Sample.shared None)).2 = Throw (ErrorObj "Session rejected")
  ∧ UseAlgorand.console
      (UseAlgorand.connect (Sample.failingWallet (ErrorObj "Session rejected"))
         (Sample.shared None)).1 = ["Wallet connection failed:"].
Proof.
  destruct page_connect_suppresses_only_cancel as [Hp Hc].
  split; [| split; [| split]].
  - destruct (Hp (Sample.failingWallet (ErrorObj "Connect cancelled"))
                 (Sample.page None) _ eq_refl) as [Hcancel _].
    exact (proj1 (Hcancel eq_refl)).
  - destruct (Hp (Sample.failingWallet (ErrorObj "Session rejected"))
                 (Sample.page None) _ eq_refl) as (_ & Hother & _).
    apply (Hother (Some "Session rejected")); [reflexivity | discriminate].
  - destruct (Hp (Sample.failingWallet NullThrown)
                 (Sample.page None) _ eq_refl) as (_ & _ & Hnull & _).
    exact (proj2 (Hnull eq_refl)).
  - destruct (Hc (Sample.failingWallet (ErrorObj "Session rejected"))
                 (Sample.shared None) (ErrorObj "Session rejected"))
      as (Hthrow & Hlog & _); [reflexivity | reflexivity | |].
    + intros a Ha. injection Ha as <-. reflexivity.
    + split; [exact Hthrow | exact Hlog].
Defined.

End ConnectFacts.

(* --------------------------------------------------------------------- *)
(** ** The transaction builder                                            *)
(* --------------------------------------------------------------------- *)

Module BuilderFacts.
Import Algosdk.

(** Splits a hypothesis [m ≫= k = Ok b] into its successful steps. *)
Ltac bind_inv H :=
  repeat match type of H with
         | (_ ≫= _) = Ok _ =>
             apply JsFacts.bind_ok in H;
             let a := fresh "v" in
             let Ha := fresh "Hstep" in
             destruct H as (a & Ha & H)
         end.

(** Rewrites a successful step and feeds its value to the rest. *)
Ltac step E := rewrite E, JsFacts.ret_bind; cbv beta.

Section WithPlatform.
Context `{Platform}.

Lemma page_signature :
  getSignature PaymentPage.payCheckoutMethod = BuilderSpec.methodSignature.
Proof. reflexivity. Qed.

Lemma form_signature :
  getSignature PaymentForm.payCheckoutMethod = BuilderSpec.methodSignature.
Proof. reflexivity. Qed.

Lemma make_transfer_ok (o : AssetTransfer) (t : Transaction) :
  makeAssetTransferTxnWithSuggestedParamsFromObject o = Ok t
  ↔ txnCheck (Axfer o) = Ok () ∧ t = {| fields := Axfer o; group := None |}.
Proof.
  unfold makeAssetTransferTxnWithSuggestedParamsFromObject.
  rewrite JsFacts.bind_ok. split.
  - intros ([] & Hc & [= <-]). done.
  - intros [Hc ->]. by exists ().
Qed.

Lemma make_call_ok (o : ApplicationCall) (t : Transaction) :
  makeApplicationCallTxnFromObject o = Ok t
  ↔ txnCheck (Appl o) = Ok () ∧ t = {| fields := Appl o; group := None |}.
Proof.
  unfold makeApplicationCallTxnFromObject.
  rewrite JsFacts.bind_ok. split.
  - intros ([] & Hc & [= <-]). done.
  - intros [Hc ->]. by exists ().
Qed.

Lemma assign_pair_ok (a b : Transaction) (txns : list Transaction) :
  assignGroupID [a; b] = Ok txns
  ↔ ∃ gid, computeGroupID [a; b] = Ok gid
           ∧ txns = [set_group gid a; set_group gid b].
Proof.
  unfold assignGroupID. rewrite JsFacts.bind_ok. split.
  - intros (gid & Hg & [= <-]). by exists gid.
  - intros (gid & Hg & ->). by exists gid.
Qed.

Lemma sender_ok (account : option string) (a : string) :
  match account with
  | Some a => Ok a
  | None => Throw (ErrorObj "Address must not be null or undefined")
  end = Ok a ↔ account = Some a.
Proof. destruct account; split; congruence. Qed.

(** The page's builder returns a group exactly when the group is the
    one specified, with the invocation's parameters being the fetched
    ones with [fee: 2000, flatFee: true]. *)
Lemma page_build_group_spec (c : PaymentPage.Checkout) (account : option string)
    (sp : SuggestedParams) (txns : list Transaction) :
  PaymentPage.build_group c account sp = Ok txns
  ↔ BuilderSpec.payment_group (PaymentPage.id c) (PaymentPage.appId c)
      (PaymentPage.merchantWallet c) (PaymentPage.merchantName c)
      (PaymentPage.amount c) (PaymentPage.assetId c) (PaymentPage.note c)
      AddrValue account sp (with_fee sp 2000 true) txns.
Proof.
  unfold PaymentPage.build_group, BuilderSpec.payment_group. split.
  - intros Hb. bind_inv Hb.
    apply sender_ok in Hstep3.
    apply make_transfer_ok in Hstep4 as [Hca ->].
    apply make_call_ok in Hstep10 as [Hcb ->].
    apply assign_pair_ok in Hb as (gid & Hg & ->).
    exists v, v0, v1, v2, v3, v5, v6, v7, v8, v9, gid.
    repeat (split; [assumption || reflexivity |]).
    cbv zeta. repeat (split; [assumption || reflexivity |]). reflexivity.
  - intros (program & asset & amt & acc & sender & e1 & e2 & e3 & e4 & e5 & gid
            & H1 & H2 & H3 & H4 & -> & H6 & H7 & H8 & H9 & H10
            & Hca & Hcb & Hg & ->).
    cbv zeta in Hca, Hcb, Hg |- *.
    step H1. step H2. step H3. step H4. rewrite JsFacts.ret_bind; cbv beta.
    unfold BuilderSpec.transactionA in Hca.
    pose proof (proj2 (make_transfer_ok _ _) (conj Hca eq_refl)) as Hta.
    step Hta.
    change (encodeArg _ 1 ?x) with (abiEncode ABIString x).
    change (encodeArg _ 2 ?x) with (abiEncode ABIAddress x).
    change (encodeArg _ 3 ?x) with (abiEncode ABIString x).
    change (encodeArg _ 4 ?x) with (abiEncode (ABIUint 64) x).
    change (encodeArg _ 5 ?x) with (abiEncode ABIString x).
    step H6. step H7. step H8. step H9. step H10.
    change (getSelector _) with (BuilderSpec.selector BuilderSpec.methodSignature).
    unfold BuilderSpec.transactionB in Hcb.
    pose proof (proj2 (make_call_ok _ _) (conj Hcb eq_refl)) as Htb.
    step Htb.
    apply assign_pair_ok. by exists gid.
Qed.

Lemma form_build_group_spec (c : PaymentForm.Checkout) (account : option string)
    (sp : SuggestedParams) (txns : list Transaction) :
  PaymentForm.build_group c account sp = Ok txns
  ↔ BuilderSpec.payment_group (PaymentForm.id c) (PaymentForm.appId c)
      (PaymentForm.payeeWallet c) (PaymentForm.payeeName c)
      (PaymentForm.amount c) (PaymentForm.assetId c) (PaymentForm.note c)
      (λ a, AddrText (Address_toString a)) account sp (with_fee sp 2000 true) txns.
Proof.
  unfold PaymentForm.build_group, BuilderSpec.payment_group. split.
  - intros Hb. bind_inv Hb.
    apply sender_ok in Hstep3.
    apply make_transfer_ok in Hstep4 as [Hca ->].
    apply make_call_ok in Hstep10 as [Hcb ->].
    apply assign_pair_ok in Hb as (gid & Hg & ->).
    exists v, v0, v1, v2, v3, v5, v6, v7, v8, v9, gid.
    repeat (split; [assumption || reflexivity |]).
    cbv zeta. repeat (split; [assumption || reflexivity |]). reflexivity.
  - intros (program & asset & amt & acc & sender & e1 & e2 & e3 & e4 & e5 & gid
            & H1 & H2 & H3 & H4 & -> & H6 & H7 & H8 & H9 & H10
            & Hca & Hcb & Hg & ->).
    cbv zeta in Hca, Hcb, Hg |- *.
    step H1. step H2. step H3. step H4. rewrite JsFacts.ret_bind; cbv beta.
    unfold BuilderSpec.transactionA in Hca.
    pose proof (proj2 (make_transfer_ok _ _) (conj Hca eq_refl)) as Hta.
    step Hta.
    change (encodeArg _ 1 ?x) with (abiEncode ABIString x).
    change (encodeArg _ 2 ?x) with (abiEncode ABIAddress x).
    change (encodeArg _ 3 ?x) with (abiEncode ABIString x).
    change (encodeArg _ 4 ?x) with (abiEncode (ABIUint 64) x).
    change (encodeArg _ 5 ?x) with (abiEncode ABIString x).
    step H6. step H7. step H8. step H9. step H10.
    change (getSelector _) with (BuilderSpec.selector BuilderSpec.methodSignature).
    unfold BuilderSpec.transactionB in Hcb.
    pose proof (proj2 (make_call_ok _ _) (conj Hcb eq_refl)) as Htb.
    step Htb.
    apply assign_pair_ok. by exists gid.
Qed.

(** C2. For every checkout, payer and fetched parameters, the builder
    of either view returns a group exactly when every field parses and
    encodes, and the group is then: transaction A, an asset transfer of
    the checkout's amount of the checkout's asset from the payer to the
    address derived from the program id; transaction B, a NoOp
    invocation of the program whose arguments are, in order, the 4-byte
    selector of [payCheckout(axfer,string,address,string,uint64,string)void],
    the checkout id as string, the merchant address, the merchant name
    or the empty string, the amount as uint64, the note or the empty
    string, with the asset as foreign asset and the merchant address as
    foreign account. *)
Theorem builder_produces_specified_group :
  (∀ (c : PaymentPage.Checkout) (account : option string)
     (sp : SuggestedParams) (txns : list Transaction),
     PaymentPage.build_group c account sp = Ok txns
     ↔ BuilderSpec.payment_group (PaymentPage.id c) (PaymentPage.appId c)
         (PaymentPage.merchantWallet c) (PaymentPage.merchantName c)
         (PaymentPage.amount c) (PaymentPage.assetId c) (PaymentPage.note c)
         AddrValue account sp (with_fee sp 2000 true) txns)
  ∧ (∀ (c : PaymentForm.Checkout) (account : option string)
       (sp : SuggestedParams) (txns : list Transaction),
       PaymentForm.build_group c account sp = Ok txns
       ↔ BuilderSpec.payment_group (PaymentForm.id c) (PaymentForm.appId c)
           (PaymentForm.payeeWallet c) (PaymentForm.payeeName c)
           (PaymentForm.amount c) (PaymentForm.assetId c) (PaymentForm.note c)
           (λ a, AddrText (Address_toString a)) account sp
           (with_fee sp 2000 true) txns).
Proof.
  split; intros.
  - apply page_build_group_spec.
  - apply form_build_group_spec.
Qed.



End WithPlatform.

(** The scenario of the specification: checkout [CHK-1] for 1000000
    units of asset 10458941 at program 754674671. *)
Example scenario_CHK_1 :
  match Sample.scenario with
  | Ok [a; b] =>
      (∃ receiver, fields a =
         BuilderSpec.transactionA Sample.payer receiver 10458941 1000000
           Sample.params)
      ∧ (∃ o, fields b = Appl o
              ∧ head (appArgs o) =
                Some (BuilderSpec.selector (H := Sample.platform)
                        BuilderSpec.methodSignature)
              ∧ onComplete o = NoOpOC
              ∧ foreignAssets o = [10458941%Z]
              ∧ accounts o = [Sample.merchant])
  | _ => False
  end.
Proof.
  vm_compute. split; [eexists; reflexivity |].
  eexists. repeat split.
Qed.



End BuilderFacts.

(* --------------------------------------------------------------------- *)
(** ** Payment attempts and their outcome                                 *)
(* --------------------------------------------------------------------- *)

Module PaymentFacts.
Import Algosdk.

Section WithPlatform.
Context `{Platform}.

(** The [try] block reads the checkout and the account only; the three
    resets at the start of [pay] do not change what it does. *)
Lemma pay_body_after_begin (node : Node) (w : Pera.Answers)
    (p p1 : PaymentPage.Page) :
  PaymentPage.pay_begin p = Some p1 →
  PaymentPage.pay_body node w p1 = PaymentPage.pay_body node w p.
Proof.
  unfold PaymentPage.pay_begin. destruct (truthy _); [| discriminate].
  by intros [= <-].
Qed.

Lemma payCheckout_body_after_begin (node : Node) (w : Pera.Answers)
    (s : UseAlgorand.Shared) (f f1 : PaymentForm.Form) :
  PaymentForm.payCheckout_begin s f = Some f1 →
  PaymentForm.payCheckout_body node w s f1 = PaymentForm.payCheckout_body node w s f.
Proof.
  unfold PaymentForm.payCheckout_begin.
  destruct (PaymentForm.checkout f) eqn:Hc; [| discriminate].
  destruct (truthy _); [| discriminate].
  intros [= <-]. unfold PaymentForm.payCheckout_body. cbn. by rewrite Hc.
Qed.

(** C4. Whenever a payment attempt fails, at whatever step, the
    checkout record held by the view is what it was (its status, if
    ['pending'], stays ['pending']): the failure path sets the error
    text (on the page none, for a thrown [null] or [undefined], whose
    message cannot be read), and [finally] clears the busy flag; nothing
    else changes.
    This covers the case in which everything up to
    [waitForConfirmation(client, txId, 4)] succeeds and that call throws
    because the transaction was not confirmed within 4 rounds. *)
Theorem failed_payment_keeps_checkout :
  (∀ (node : Node) (w : Pera.Answers) (p : PaymentPage.Page) (e : Thrown),
     PaymentPage.isConnected p = true →
     PaymentPage.pay_body node w p = Throw e →
     let p' := PaymentPage.pay node w p in
     PaymentPage.checkout p' = PaymentPage.checkout p
     ∧ PaymentPage.status (PaymentPage.checkout p')
       = PaymentPage.status (PaymentPage.checkout p)
     ∧ p' = PaymentPage.set_paying false
              (PaymentPage.set_error
                 (match message_of e with
                  | Some message => Some (or_else message "Payment failed")
                  | None => None
                  end)
                 (PaymentPage.set_success None p)))
  ∧ (∀ (now : Z) (node : Node) (w : Pera.Answers) (s : UseAlgorand.Shared)
       (f : PaymentForm.Form) (e : Thrown),
       UseAlgorand.isConnected s = true →
       is_Some (PaymentForm.checkout f) →
       PaymentForm.payCheckout_body node w s f = Throw e →
       let f' := PaymentForm.payCheckout now node w s f in
       PaymentForm.checkout f' = PaymentForm.checkout f
       ∧ PaymentForm.refetches f' = PaymentForm.refetches f
       ∧ f' = PaymentForm.set_paying false
                (PaymentForm.set_error (Some (message_or e "Payment failed"))
                   (PaymentForm.set_success None f)))
  ∧ (∀ (node : Node) (w : Pera.Answers) (p : PaymentPage.Page)
       (sp : SuggestedParams) (txns : list Transaction)
       (signed : list bytes) (txId : string) (e : Thrown),
       getTransactionParams node = Ok sp →
       PaymentPage.build_group (PaymentPage.checkout p)
         (PaymentPage.connectedAccount p) sp = Ok txns →
       Pera.signTransaction w txns = Ok signed →
       sendRawTransaction node signed = Ok txId →
       waitForConfirmation node txId 4 = Throw e →
       PaymentPage.pay_body node w p = Throw e)
  ∧ (∀ (node : Node) (w : Pera.Answers) (s : UseAlgorand.Shared)
       (txns : list Transaction) (signed : list bytes) (txId : string)
       (e : Thrown),
       UseAlgorand.isConnected s = true →
       Pera.signTransaction w txns = Ok signed →
       sendRawTransaction node signed = Ok txId →
       waitForConfirmation node txId 4 = Throw e →
       UseAlgorand.signAndSendTransactions node w s txns = Throw e).
Proof.
  split; [| split; [| split]].
  - intros node w p e Hc Hb p'. subst p'. unfold PaymentPage.pay.
    destruct (PaymentPage.pay_begin p) as [p1 |] eqn:Hp1.
    + rewrite (pay_body_after_begin _ _ _ _ Hp1), Hb.
      unfold PaymentPage.pay_begin in Hp1. unfold PaymentPage.isConnected in Hc.
      rewrite Hc in Hp1. injection Hp1 as <-. by destruct p, e.
    + unfold PaymentPage.pay_begin in Hp1. unfold PaymentPage.isConnected in Hc.
      by rewrite Hc in Hp1.
  - intros now node w s f e Hc [c Hf] Hb f'. subst f'.
    unfold PaymentForm.payCheckout.
    destruct (PaymentForm.payCheckout_begin s f) as [f1 |] eqn:Hf1.
    + rewrite (payCheckout_body_after_begin _ _ _ _ _ Hf1), Hb.
      unfold PaymentForm.payCheckout_begin in Hf1.
      unfold UseAlgorand.isConnected in Hc. rewrite Hf, Hc in Hf1.
      injection Hf1 as <-. by destruct f.
    + unfold PaymentForm.payCheckout_begin in Hf1.
      unfold UseAlgorand.isConnected in Hc. by rewrite Hf, Hc in Hf1.
  - intros node w p sp txns signed txId e Hsp Hg Hs Hsend Hw.
    unfold PaymentPage.pay_body.
    rewrite Hsp, JsFacts.ret_bind, Hg, JsFacts.ret_bind, Hs, JsFacts.ret_bind,
      Hsend, JsFacts.ret_bind, Hw. reflexivity.
  - intros node w s txns signed txId e Hc Hs Hsend Hw.
    unfold UseAlgorand.signAndSendTransactions.
    unfold UseAlgorand.isConnected in Hc. rewrite Hc. cbn [negb].
    rewrite Hs, JsFacts.ret_bind, Hsend, JsFacts.ret_bind, Hw. reflexivity.
Qed.

End WithPlatform.

Lemma failed_payment_keeps_checkout_witness :
  let p := Sample.page (Some Sample.payer) in
  let p' := PaymentPage.pay (H := Sample.platform)
              (Sample.silentNode Sample.params) (Sample.wallet Sample.payer) p in
  PaymentPage.status (PaymentPage.checkout p') = "pending"
  ∧ PaymentPage.checkout p' = PaymentPage.checkout p
  ∧ PaymentPage.error p' = Some "Transaction not confirmed after 4 rounds".
Proof.
  destruct (failed_payment_keeps_checkout (H := Sample.platform)) as (Hpage & _).
  destruct (Hpage (Sample.silentNode Sample.params) (Sample.wallet Sample.payer)
              (Sample.page (Some Sample.payer))
              (ErrorObj "Transaction not confirmed after 4 rounds")
              eq_refl) as (Hck & Hst & Heq).
  - vm_compute. reflexivity.
  - cbv zeta. rewrite Hst, Hck, Heq. repeat split.
Defined.

End PaymentFacts.

(* --------------------------------------------------------------------- *)
(** ** Overlapping attempts                                               *)
(* --------------------------------------------------------------------- *)

Module AttemptFacts.
Import Attempts.

(** For any view whose button is enabled only while its busy flag is
    down, whose payment function raises the flag when it starts and
    lowers it when it settles, and whose other handlers leave the flag
    alone. *)
Section Guarded.
Context {V Bg : Type}.
Variable begin : V → option V.
Variable settle : Z → result string → V → V.
Variable enabled : V → bool.
Variable background : Bg → V → V.
Variable busy : V → bool.

Hypothesis begin_busy : ∀ v v', begin v = Some v' → busy v' = true.
Hypothesis settle_idle : ∀ now r v, busy (settle now r v) = false.
Hypothesis enabled_idle : ∀ v, enabled v = true → busy v = false.
Hypothesis background_busy : ∀ b v, busy (background b v) = busy v.

Lemma step_balanced (m : Run V) (e : Event Bg) :
  from_view e = true → balanced busy m →
  balanced busy (step begin settle enabled background m e).
Proof.
  unfold balanced. intros He Hm.
  destruct e as [| | now r | b]; cbn in *; try discriminate.
  - destruct (enabled (view m)) eqn:Hen; [| exact Hm].
    unfold call. destruct (begin (view m)) as [v' |] eqn:Hb; [| exact Hm].
    cbn. rewrite (begin_busy _ _ Hb).
    rewrite (enabled_idle _ Hen) in Hm. by rewrite Hm.
  - destruct (inflight m) as [| n] eqn:Hn; [by rewrite Hn |].
    cbn. rewrite settle_idle.
    destruct (busy (view m)); congruence.
  - by rewrite background_busy.
Qed.

Lemma run_balanced (es : list (Event Bg)) (m : Run V) :
  Forall (λ e, from_view e = true) es → balanced busy m →
  balanced busy (run begin settle enabled background m es).
Proof.
  intros Hes. revert m.
  induction Hes as [| e es He _ IH]; intros m Hm; [exact Hm |].
  cbn. apply IH. by apply step_balanced.
Qed.

Lemma balanced_at_most_one (m : Run V) :
  balanced busy m →
  (inflight m ≤ 1)%nat ∧ (inflight m = 1%nat ↔ busy (view m) = true).
Proof.
  unfold balanced. intros ->. destruct (busy (view m)); split; try lia;
    split; congruence.
Qed.

Lemma click_while_busy (m : Run V) :
  busy (view m) = true → step begin settle enabled background m Click = m.
Proof.
  intros Hb. cbn. destruct (enabled (view m)) eqn:Hen; [| reflexivity].
  rewrite (enabled_idle _ Hen) in Hb. discriminate.
Qed.

End Guarded.

Section WithPlatform.
Context `{Algosdk.Platform}.

Lemma page_begin_busy (p p' : PaymentPage.Page) :
  PaymentPage.pay_begin p = Some p' → PaymentPage.paying p' = true.
Proof.
  unfold PaymentPage.pay_begin. destruct (truthy _); [| discriminate].
  by intros [= <-].
Qed.

Lemma page_enabled_idle (p : PaymentPage.Page) :
  PaymentPage.pay_button_enabled p = true → PaymentPage.paying p = false.
Proof.
  unfold PaymentPage.pay_button_enabled.
  intros [_ Hp]%andb_prop. by apply negb_true_iff.
Qed.

Lemma page_background_busy (b : PageRun.Bg) (p : PaymentPage.Page) :
  PaymentPage.paying (PageRun.background b p) = PaymentPage.paying p.
Proof.
  destruct b as [| | w | now]; cbn; try reflexivity.
  - unfold PaymentPage.connect.
    destruct (Pera.connect w) as [accounts | e]; cbn.
    + by destruct (restored_account accounts).
    + destruct (message_of e); [by case_bool_decide | done].
  - unfold PaymentPage.updateTimeRemaining.
    destruct (Algosdk.Date_getTime _); [case_decide |]; reflexivity.
Qed.

Lemma form_begin_busy (v v' : FormRun.View) :
  FormRun.begin v = Some v' → PaymentForm.paying v'.2 = true.
Proof.
  unfold FormRun.begin, PaymentForm.payCheckout_begin.
  destruct (PaymentForm.checkout v.2); [| discriminate].
  destruct (truthy _); [| discriminate].
  by intros [= <-].
Qed.

Lemma form_enabled_idle (v : FormRun.View) :
  FormRun.enabled v = true → PaymentForm.paying v.2 = false.
Proof.
  unfold FormRun.enabled, PaymentForm.pay_button_enabled.
  destruct (PaymentForm.checkout v.2); [| discriminate].
  intros [_ Hp]%andb_prop. apply negb_true_iff in Hp.
  by apply orb_false_iff in Hp as [_ Hp].
Qed.

Lemma form_background_busy (b : FormRun.Bg) (v : FormRun.View) :
  PaymentForm.paying (FormRun.background b v).2 = PaymentForm.paying v.2.
Proof. by destruct b. Qed.

(** C3 (amended). In either view, as long as payments are started
    from the view (its pay button, which is disabled while the busy
    flag [paying] is up), at most one payment call is in flight, and
    one is in flight exactly while the flag is up; pressing the button
    then changes nothing, so the call in flight goes on unaffected.
    The payment functions themselves make no in-progress check and
    report no error of that kind. *)
Theorem view_starts_one_attempt_at_a_time :
  (∀ (p : PaymentPage.Page) (es : list (Event PageRun.Bg)),
     PaymentPage.paying p = false →
     Forall (λ e, from_view e = true) es →
     let m := PageRun.run (PageRun.idle p) es in
     (inflight m ≤ 1)%nat
     ∧ (inflight m = 1%nat ↔ PaymentPage.paying (view m) = true)
     ∧ (PaymentPage.paying (view m) = true →
        PaymentPage.pay_button_enabled (view m) = false
        ∧ PageRun.step m Click = m))
  ∧ (∀ (s : UseAlgorand.Shared) (f : PaymentForm.Form)
       (es : list (Event FormRun.Bg)),
       PaymentForm.paying f = false →
       Forall (λ e, from_view e = true) es →
       let m := FormRun.run (FormRun.idle s f) es in
       (inflight m ≤ 1)%nat
       ∧ (inflight m = 1%nat ↔ PaymentForm.paying (view m).2 = true)
       ∧ (PaymentForm.paying (view m).2 = true →
          FormRun.enabled (view m) = false
          ∧ FormRun.step m Click = m)).
Proof.
  split.
  - intros p es Hp Hes m.
    assert (Hbal : balanced PaymentPage.paying m).
    { apply (run_balanced PaymentPage.pay_begin PageRun.settle
               PaymentPage.pay_button_enabled PageRun.background
               PaymentPage.paying page_begin_busy
               (λ _ _ _, eq_refl) page_enabled_idle page_background_busy
               es _ Hes).
      unfold balanced. cbn. by rewrite Hp. }
    destruct (balanced_at_most_one _ _ Hbal) as [Hle Hiff].
    split; [exact Hle | split; [exact Hiff |]].
    intros Hbusy. split.
    + destruct (PaymentPage.pay_button_enabled (view m)) eqn:Hen; [| done].
      apply page_enabled_idle in Hen. congruence.
    + exact (click_while_busy PaymentPage.pay_begin PageRun.settle
               PaymentPage.pay_button_enabled PageRun.background
               PaymentPage.paying page_enabled_idle m Hbusy).
  - intros s f es Hf Hes m.
    assert (Hbal : balanced (λ v : FormRun.View, PaymentForm.paying v.2) m).
    { apply (run_balanced FormRun.begin FormRun.settle FormRun.enabled
               FormRun.background (λ v : FormRun.View, PaymentForm.paying v.2)
               form_begin_busy (λ _ _ _, eq_refl) form_enabled_idle
               form_background_busy es _ Hes).
      unfold balanced. cbn. by rewrite Hf. }
    destruct (balanced_at_most_one _ _ Hbal) as [Hle Hiff].
    split; [exact Hle | split; [exact Hiff |]].
    intros Hbusy. split.
    + destruct (FormRun.enabled (view m)) eqn:Hen; [| done].
      apply form_enabled_idle in Hen. congruence.
    + exact (click_while_busy FormRun.begin FormRun.settle FormRun.enabled
               FormRun.background (λ v : FormRun.View, PaymentForm.paying v.2)
               form_enabled_idle m Hbusy).
Qed.

End WithPlatform.

(** C3, as the claim states it, fails on the code: with one [pay()]
    suspended, a second call of [pay()] is not rejected (no error is
    set) and starts a second attempt. *)
Lemma second_pay_call_starts_second_attempt :
  let m1 := PageRun.step (H := Sample.platform)
              (PageRun.idle (Sample.page (Some Sample.payer))) Call in
  let m2 := PageRun.step (H := Sample.platform) m1 Call in
  inflight m1 = 1%nat
  ∧ PaymentPage.paying (view m1) = true
  ∧ inflight m2 = 2%nat
  ∧ PaymentPage.error (view m2) = None.
Proof. cbv zeta. repeat split. Qed.

Lemma view_starts_one_attempt_at_a_time_witness :
  let m := PageRun.run (H := Sample.platform)
             (PageRun.idle (Sample.page (Some Sample.payer)))
             [Click; Click; Background (PageRun.Tick 1000)] in
  (inflight m ≤ 1)%nat
  ∧ (inflight m = 1%nat ↔ PaymentPage.paying (view m) = true)
  ∧ (PaymentPage.paying (view m) = true →
     PaymentPage.pay_button_enabled (view m) = false
     ∧ PageRun.step (H := Sample.platform) m Click = m).
Proof.
  destruct (view_starts_one_attempt_at_a_time (H := Sample.platform)) as [Hpage _].
  apply (Hpage (Sample.page (Some Sample.payer))
           [Click; Click; Background (PageRun.Tick 1000)]).
  - reflexivity.
  - repeat constructor.
Defined.

End AttemptFacts.

(* --------------------------------------------------------------------- *)
(** ** The expiry countdown                                               *)
(* --------------------------------------------------------------------- *)

Module CountdownFacts.
Import Algosdk.

(** ["Expired"] has no ['m'] in it, a formatted remaining time has. *)
Lemma minutes_text_not_expired (a rest : string) :
  a +:+ String "m"%char rest ≠ "Expired".
Proof.
  intros Heq.
  do 7 (destruct a as [| ? a]; cbn in Heq; [discriminate |];
        injection Heq as _ Heq).
  destruct a; discriminate.
Qed.

Section WithPlatform.
Context `{Platform}.

Lemma update_checkout (now : Z) (p : PaymentPage.Page) :
  PaymentPage.checkout (PaymentPage.updateTimeRemaining now p)
  = PaymentPage.checkout p.
Proof.
  unfold PaymentPage.updateTimeRemaining.
  destruct (Date_getTime _); [case_decide |]; reflexivity.
Qed.

Lemma ticks_checkout (times : list Z) (p : PaymentPage.Page) :
  PaymentPage.checkout (Countdown.ticks times p) = PaymentPage.checkout p.
Proof.
  revert p. induction times as [| now times IH]; intros p; [reflexivity |].
  cbn. change (foldl _ ?q times) with (Countdown.ticks times q).
  by rewrite IH, update_checkout.
Qed.

Lemma ticks_snoc (times : list Z) (now : Z) (p : PaymentPage.Page) :
  Countdown.ticks (times ++ [now]) p
  = PaymentPage.updateTimeRemaining now (Countdown.ticks times p).
Proof. unfold Countdown.ticks. by rewrite foldl_app. Qed.

(** One run of [updateTimeRemaining]. *)
Lemma update_at (now e : Z) (p : PaymentPage.Page) :
  Date_getTime (PaymentPage.expiresAt (PaymentPage.checkout p)) = Some e →
  let p' := PaymentPage.updateTimeRemaining now p in
  (PaymentPage.timeRemaining p' = "Expired" ↔ (e ≤ now)%Z)
  ∧ PaymentPage.reloads p'
    = PaymentPage.reloads p ++ (if decide (e ≤ now)%Z then [(now + 1500)%Z] else []).
Proof.
  intros He p'. subst p'. unfold PaymentPage.updateTimeRemaining. rewrite He.
  cbv zeta. destruct (decide (e - now ≤ 0)%Z) as [Hd | Hd].
  - rewrite decide_True by lia. cbn. split; [split; [lia | done] | done].
  - rewrite decide_False by lia. cbn. rewrite app_nil_r. split; [| done].
    split; [| lia]. intros Heq. by apply minutes_text_not_expired in Heq.
Qed.

Lemma ticks_reloads (times : list Z) (e : Z) (p : PaymentPage.Page) :
  Date_getTime (PaymentPage.expiresAt (PaymentPage.checkout p)) = Some e →
  PaymentPage.reloads (Countdown.ticks times p)
  = PaymentPage.reloads p
    ++ ((λ now, (now + 1500)%Z) <$> filter (λ now, (e ≤ now)%Z) times).
Proof.
  intros He. revert p He.
  induction times as [| now times IH]; intros p He.
  - cbn. by rewrite app_nil_r.
  - change (Countdown.ticks (now :: times) p)
      with (Countdown.ticks times (PaymentPage.updateTimeRemaining now p)).
    rewrite IH by (by rewrite update_checkout).
    destruct (update_at now e p He) as [_ ->].
    rewrite filter_cons. destruct (decide (e ≤ now)%Z).
    + by rewrite fmap_cons, <- app_assoc.
    + by rewrite app_nil_r.
Qed.

(** C5 (amended). For a checkout whose expiry time parses, whatever
    the instants at which the countdown runs: after a run at time
    [now] the display reads ['Expired'] exactly when [now] has reached
    [expiresAt], never before; a run at or after [expiresAt] schedules a
    reload of the page due 1.5 s after that run, and a run before it
    schedules none.  The scheduling is not one-time: every run at or
    after [expiresAt] adds a reload, so the reloads pending are as many
    as there were such runs. *)
Theorem countdown_expired_never_early (times : list Z) (now e : Z)
    (p : PaymentPage.Page) :
  Date_getTime (PaymentPage.expiresAt (PaymentPage.checkout p)) = Some e →
  let before := Countdown.ticks times p in
  let after := Countdown.ticks (times ++ [now]) p in
  (PaymentPage.timeRemaining after = "Expired" ↔ (e ≤ now)%Z)
  ∧ ((e ≤ now)%Z →
     PaymentPage.reloads after = PaymentPage.reloads before ++ [(now + 1500)%Z])
  ∧ ((now < e)%Z → PaymentPage.reloads after = PaymentPage.reloads before)
  ∧ PaymentPage.reloads after
    = PaymentPage.reloads p
      ++ ((λ t, (t + 1500)%Z) <$> filter (λ t, (e ≤ t)%Z) (times ++ [now])).
Proof.
  intros He before after. subst before after. rewrite ticks_snoc.
  assert (He' : Date_getTime (PaymentPage.expiresAt (PaymentPage.checkout
                  (Countdown.ticks times p))) = Some e)
    by (by rewrite ticks_checkout).
  destruct (update_at now e _ He') as [Hd Hr].
  split; [exact Hd |]. rewrite Hr.
  split; [| split].
  - intros Hle. by rewrite decide_True.
  - intros Hlt. rewrite decide_False by lia. by rewrite app_nil_r.
  - rewrite <- Hr, <- ticks_snoc. by apply ticks_reloads.
Qed.

End WithPlatform.

Lemma countdown_expired_never_early_witness :
  let p := Sample.page None in
  let before := Countdown.ticks (H := Sample.platform) (Countdown.every_second 0 5) p in
  let after := Countdown.ticks (H := Sample.platform)
                 (Countdown.every_second 0 5 ++ [5000%Z]) p in
  (PaymentPage.timeRemaining after = "Expired" ↔ (5000 ≤ 5000)%Z)
  ∧ ((5000 ≤ 5000)%Z →
     PaymentPage.reloads after = PaymentPage.reloads before ++ [(5000 + 1500)%Z])
  ∧ ((5000 < 5000)%Z → PaymentPage.reloads after = PaymentPage.reloads before)
  ∧ PaymentPage.reloads after
    = PaymentPage.reloads p
      ++ ((λ t, (t + 1500)%Z) <$> filter (λ t, (5000 ≤ t)%Z)
                                     (Countdown.every_second 0 5 ++ [5000%Z])).
Proof.
  apply (countdown_expired_never_early (H := Sample.platform)
           (Countdown.every_second 0 5) 5000 5000 (Sample.page None)).
  reflexivity.
Defined.

(** What the display reads second by second when the checkout expires
    5 s after the page is mounted. *)
Example countdown_display_5s :
  (λ n, PaymentPage.timeRemaining
          (Countdown.ticks (H := Sample.platform) (Countdown.every_second 0 n)
             (Sample.page None))) <$> [1; 2; 5; 6; 7]%nat
  = ["0m 5s"; "0m 4s"; "0m 1s"; "Expired"; "Expired"].
Proof. vm_compute. reflexivity. Qed.

(** C5, as the claim states it, fails on the code: with expiry 5 s
    after mount, the runs at 5 s and at 6 s each schedule a reload, so
    two reloads are pending at 6 s, before the first one is due. *)
Lemma countdown_schedules_two_reloads :
  PaymentPage.reloads
    (Countdown.ticks (H := Sample.platform) (Countdown.every_second 0 7)
       (Sample.page None))
  = [6500%Z; 7500%Z].
Proof. vm_compute. reflexivity. Qed.

End CountdownFacts.

(* --------------------------------------------------------------------- *)
(** ** Interval timers and view teardown                                  *)
(* --------------------------------------------------------------------- *)

Module TimerFacts.
Import Browser.

Lemma start_owns (held : gset nat) (t : Timers) :
  (∀ h, h ∈ held → (h < next_handle t)%nat) →
  (1 ≤ next_handle t)%nat →
  active t = held →
  owns_at_most_one held true (Some (setInterval t).1) (setInterval t).2.
Proof.
  intros Hheld Hnext Hact. unfold owns_at_most_one. cbn.
  split; [| split; [lia | split; [lia | split]]].
  - intros h Hh. specialize (Hheld h Hh). lia.
  - intros Hin. specialize (Hheld _ Hin). lia.
  - by rewrite Hact.
Qed.

Lemma clear_owned (held : gset nat) (h : nat) (t : Timers) :
  h ∉ held → active t = {[ h ]} ∪ held → active (clearInterval h t) = held.
Proof.
  intros Hh Hact. unfold clearInterval. cbn [active]. rewrite Hact.
  apply set_eq. intros x. rewrite elem_of_difference, elem_of_union,
    elem_of_singleton. split; [intros [[-> | Hx] Hne]; done |].
  intros Hx. split; [by right | by intros ->].
Qed.

Lemma exchange_toggle_owns (held : gset nat) (v : ExchangeRateDemo.View) :
  owns_at_most_one held (ExchangeRateDemo.autoRefresh v)
    (ExchangeRateDemo.refreshInterval v) (ExchangeRateDemo.timers v) →
  let v' := ExchangeRateDemo.toggleAutoRefresh v in
  owns_at_most_one held (ExchangeRateDemo.autoRefresh v')
    (ExchangeRateDemo.refreshInterval v') (ExchangeRateDemo.timers v').
Proof.
  destruct v as [auto [h |] t]; intros (Hheld & Hnext & Hm); destruct auto;
    cbn in Hm; try done.
  - destruct Hm as (Hh0 & Hh & Hact).
    cbn. rewrite bool_decide_eq_true_2 by done. cbn.
    split; [done | split; [done |]]. by apply clear_owned.
  - by apply start_owns.
Qed.

Lemma exchange_toggles_own (held : gset nat) (n : nat) (v : ExchangeRateDemo.View) :
  owns_at_most_one held (ExchangeRateDemo.autoRefresh v)
    (ExchangeRateDemo.refreshInterval v) (ExchangeRateDemo.timers v) →
  let v' := Nat.iter n ExchangeRateDemo.toggleAutoRefresh v in
  owns_at_most_one held (ExchangeRateDemo.autoRefresh v')
    (ExchangeRateDemo.refreshInterval v') (ExchangeRateDemo.timers v').
Proof.
  intros Hv. induction n as [| n IH]; [exact Hv |].
  cbn. by apply exchange_toggle_owns.
Qed.

Lemma stats_toggle_owns (held : gset nat) (v : PaymentStats.View) :
  owns_at_most_one held (PaymentStats.autoRefresh v)
    (PaymentStats.refreshInterval v) (PaymentStats.timers v) →
  let v' := PaymentStats.toggleAutoRefresh v in
  owns_at_most_one held (PaymentStats.autoRefresh v')
    (PaymentStats.refreshInterval v') (PaymentStats.timers v').
Proof.
  destruct v as [auto [h |] t]; intros (Hheld & Hnext & Hm); destruct auto;
    cbn in Hm; try done.
  - destruct Hm as (Hh0 & Hh & Hact).
    cbn. rewrite bool_decide_eq_true_2 by done. cbn.
    split; [done | split; [done |]]. by apply clear_owned.
  - by apply start_owns.
Qed.

Lemma stats_toggles_own (held : gset nat) (n : nat) (v : PaymentStats.View) :
  owns_at_most_one held (PaymentStats.autoRefresh v)
    (PaymentStats.refreshInterval v) (PaymentStats.timers v) →
  let v' := Nat.iter n PaymentStats.toggleAutoRefresh v in
  owns_at_most_one held (PaymentStats.autoRefresh v')
    (PaymentStats.refreshInterval v') (PaymentStats.timers v').
Proof.
  intros Hv. induction n as [| n IH]; [exact Hv |].
  cbn. by apply stats_toggle_owns.
Qed.

(** C9 (amended). The auto-refresh polling interval of the
    exchange-rate view and of the payment-stats view is cancelled when
    the view is torn down: whatever timers the browser had when the view
    was set up, and however often auto-refresh was toggled in between,
    after [onUnmounted] the live intervals are those the view found.
    The payment page's per-second countdown interval is not covered:
    that view keeps no handle and registers no teardown hook. *)
Theorem polling_views_cancel_on_unmount (t : Timers) (n : nat) :
  wf t →
  active (ExchangeRateDemo.timers (ExchangeRateDemo.lifetime n t)) = active t
  ∧ active (PaymentStats.timers (PaymentStats.lifetime n t)) = active t.
Proof.
  intros [Hnext Hact]. split.
  - unfold ExchangeRateDemo.lifetime, ExchangeRateDemo.onMounted.
    assert (Hv : owns_at_most_one (active t) false None t) by done.
    apply (exchange_toggles_own _ n (ExchangeRateDemo.setup t)) in Hv.
    cbv zeta in Hv. destruct (Nat.iter n _ _) as [auto [h |] t'].
    + destruct Hv as (_ & _ & Hm). destruct auto; [| done].
      destruct Hm as (Hh0 & Hh & Ht'). cbn.
      rewrite bool_decide_eq_true_2 by done. cbn. by apply clear_owned.
    + destruct Hv as (_ & _ & Hm). by destruct auto.
  - unfold PaymentStats.lifetime.
    assert (Hv : owns_at_most_one (active t) true (Some (setInterval t).1)
                   (setInterval t).2) by (by apply start_owns).
    apply (stats_toggles_own _ n (PaymentStats.onMounted (PaymentStats.setup t)))
      in Hv.
    cbv zeta in Hv. destruct (Nat.iter n _ _) as [auto [h |] t'].
    + destruct Hv as (_ & _ & Hm). destruct auto; [| done].
      destruct Hm as (Hh0 & Hh & Ht'). cbn.
      rewrite bool_decide_eq_true_2 by done. cbn. by apply clear_owned.
    + destruct Hv as (_ & _ & Hm). by destruct auto.
Qed.

Lemma polling_views_cancel_on_unmount_witness :
  active (ExchangeRateDemo.timers (ExchangeRateDemo.lifetime 3 fresh_timers))
  = active fresh_timers
  ∧ active (PaymentStats.timers (PaymentStats.lifetime 3 fresh_timers))
    = active fresh_timers.
Proof.
  apply (polling_views_cancel_on_unmount fresh_timers 3).
  split; [cbn; lia | intros h Hh; cbn in Hh; set_solver].
Defined.

(** C9, as the claim states it, fails on the payment page: the
    countdown interval started in [onMounted] is still live after the
    view is torn down. *)
Lemma page_countdown_interval_outlives_view :
  let p := Sample.page None in
  let p' := PaymentPage.onUnmounted
              (PaymentPage.onMounted (H := Sample.platform) 0
                 (Sample.wallet Sample.payer) p) in
  active (PaymentPage.timers p) = ∅
  ∧ 1%nat ∈ active (PaymentPage.timers p').
Proof. cbv zeta. split; [reflexivity |]. cbn. set_solver. Qed.

End TimerFacts.

(* ===================================================================== *)
(** * Further properties of the code                                      *)
(* ===================================================================== *)

(* --------------------------------------------------------------------- *)
(** ** Shortened addresses and transaction ids                            *)
(* --------------------------------------------------------------------- *)

Module ShortenFacts.

Abbreviation chars := String.list_ascii_of_string.

Lemma length_chars (s : string) : length (chars s) = String.length s.
Proof. induction s as [| c s IH]; cbn; [reflexivity | by f_equal]. Qed.

Lemma chars_append (a b : string) : chars (a +:+ b) = chars a ++ chars b.
Proof.
  induction a as [| c a IH]; [reflexivity |].
  change (String c a +:+ b) with (String c (a +:+ b)). cbn. by f_equal.
Qed.

Lemma chars_inj (a b : string) : chars a = chars b → a = b.
Proof.
  intros Heq. rewrite <- (String.string_of_list_ascii_of_string a),
    <- (String.string_of_list_ascii_of_string b). by rewrite Heq.
Qed.

(** [s.slice(0, k)] is the first [k] characters (all of [s] if it has
    fewer). *)
Lemma slice_prefix (s : string) (k : nat) :
  chars (slice s 0 (Some (Z.of_nat k))) = take k (chars s).
Proof.
  unfold slice. rewrite String.list_ascii_of_string_of_list_ascii.
  cbv zeta beta. repeat case_decide; try lia.
  rewrite (Z.min_l 0) by lia. change (Z.to_nat 0) with 0%nat.
  rewrite drop_0, Z.sub_0_r.
  destruct (decide (k ≤ length (chars s))%nat) as [Hk | Hk].
  - rewrite Z.min_l by lia. by rewrite Nat2Z.id.
  - rewrite Z.min_r by lia. rewrite Nat2Z.id.
    rewrite firstn_all. symmetry. apply take_ge. lia.
Qed.

(** [s.slice(-k)] is the last [k] characters (all of [s] if it has
    fewer). *)
Lemma slice_suffix (s : string) (k : nat) :
  (0 < k)%nat →
  chars (slice s (- Z.of_nat k) None) = drop (length (chars s) - k) (chars s).
Proof.
  intros Hk. unfold slice. rewrite String.list_ascii_of_string_of_list_ascii.
  cbv zeta beta. case_decide; [| lia].
  set (n := length (chars s)).
  destruct (decide (k ≤ n)%nat) as [Hkn | Hkn].
  - rewrite Z.max_l by lia.
    replace (Z.to_nat (Z.of_nat n + - Z.of_nat k)) with (n - k)%nat by lia.
    apply take_ge. rewrite length_drop. lia.
  - rewrite Z.max_r by lia.
    replace (n - k)%nat with 0%nat by lia. change (Z.to_nat 0) with 0%nat.
    rewrite !drop_0. apply take_ge. lia.
Qed.

(** What [a.slice(0, i) + '...' + a.slice(-j)] is, whatever [a]. *)
Lemma ellipsis_chars (a : string) (i j : nat) :
  (0 < j)%nat →
  chars (slice a 0 (Some (Z.of_nat i)) +:+ "..." +:+ slice a (- Z.of_nat j) None)
  = take i (chars a) ++ chars "..." ++ drop (String.length a - j) (chars a).
Proof.
  intros Hj. rewrite !chars_append, slice_prefix, slice_suffix by done.
  by rewrite length_chars.
Qed.

Lemma ellipsis_length (a : string) (i j : nat) :
  (0 < j)%nat →
  String.length (slice a 0 (Some (Z.of_nat i)) +:+ "..." +:+ slice a (- Z.of_nat j) None)
  = (i `min` String.length a + 3 + j `min` String.length a)%nat.
Proof.
  intros Hj. rewrite <- length_chars, ellipsis_chars by done.
  rewrite !length_app, length_take, length_drop, length_chars. cbn. lia.
Qed.

(** X1. [shortenAddress] returns an address of fewer than 12
    characters unchanged; a longer one becomes its first 6 characters,
    three dots and its last 4 characters, 13 characters in all.  So the
    result is shorter than the address only for addresses of more than
    13 characters (one of 12 characters comes out longer than it went
    in). *)
Theorem shortenAddress_shape (addr : string) :
  let n := String.length addr in
  let r := PaymentPage.shortenAddress addr in
  (if decide (n < 12)%nat then r = addr
   else chars r = take 6 (chars addr) ++ chars "..." ++ drop (n - 4) (chars addr)
        ∧ String.length r = 13%nat)
  ∧ ((String.length r < n)%nat ↔ (13 < n)%nat).
Proof.
  intros n r. subst n r. unfold PaymentPage.shortenAddress.
  destruct (decide (String.length addr < 12)%nat) as [Hn | Hn].
  - rewrite (bool_decide_eq_true_2 _ Hn), orb_true_r. split; [done | lia].
  - rewrite (bool_decide_eq_false_2 _ Hn), orb_false_r.
    assert (Ht : truthy (Some addr) = true).
    { apply bool_decide_eq_true_2. intros ->. cbn in Hn. lia. }
    rewrite Ht. cbn [negb].
    pose proof (ellipsis_chars addr 6 4 ltac:(lia)) as Hc.
    pose proof (ellipsis_length addr 6 4 ltac:(lia)) as Hl.
    cbv [Z.of_nat Pos.of_succ_nat Pos.succ Z.opp] in Hc, Hl.
    rewrite Hc, Hl. split; [split; [done | lia] | lia].
Qed.

(** X2. The wallet header's [shortenAddress] has no length guard: its
    result always has [min 6 n + 3 + min 4 n] characters for an address
    of [n] characters, so it is longer than any address of fewer than 13
    characters; from 12 characters on it is the same text as the
    guarded function gives. *)
Theorem header_shortenAddress_unguarded (addr : string) :
  let n := String.length addr in
  let r := WalletConnect.shortenAddress addr in
  String.length r = (6 `min` n + 3 + 4 `min` n)%nat
  ∧ ((n < String.length r)%nat ↔ (n < 13)%nat)
  ∧ (if decide (12 ≤ n)%nat then r = PaymentPage.shortenAddress addr
     else r ≠ PaymentPage.shortenAddress addr).
Proof.
  intros n r. subst n r. unfold WalletConnect.shortenAddress.
  pose proof (ellipsis_length addr 6 4 ltac:(lia)) as Hl.
  cbv [Z.of_nat Pos.of_succ_nat Pos.succ Z.opp] in Hl.
  split; [exact Hl | split; [lia |]].
  unfold PaymentPage.shortenAddress.
  destruct (decide (12 ≤ String.length addr)%nat) as [Hn | Hn].
  - rewrite (bool_decide_eq_false_2 (String.length addr < 12)%nat) by lia.
    rewrite orb_false_r.
    assert (Ht : truthy (Some addr) = true).
    { apply bool_decide_eq_true_2. intros ->. cbn in Hn. lia. }
    by rewrite Ht.
  - rewrite (bool_decide_eq_true_2 (String.length addr < 12)%nat) by lia.
    rewrite orb_true_r. intros Heq. rewrite Heq in Hl. lia.
Qed.

(** X3. [shortenTxnId] returns an id of fewer than 16 characters
    unchanged; a longer one becomes its first 8 characters, three dots
    and its last 6 characters, 17 characters in all. *)
Theorem shortenTxnId_shape (txnId : string) :
  let n := String.length txnId in
  let r := PaymentStats.shortenTxnId txnId in
  (if decide (n < 16)%nat then r = txnId
   else chars r = take 8 (chars txnId) ++ chars "..." ++ drop (n - 6) (chars txnId)
        ∧ String.length r = 17%nat)
  ∧ ((String.length r < n)%nat ↔ (17 < n)%nat).
Proof.
  intros n r. subst n r. unfold PaymentStats.shortenTxnId.
  destruct (decide (String.length txnId < 16)%nat) as [Hn | Hn].
  - rewrite (bool_decide_eq_true_2 _ Hn), orb_true_r. split; [done | lia].
  - rewrite (bool_decide_eq_false_2 _ Hn), orb_false_r.
    assert (Ht : truthy (Some txnId) = true).
    { apply bool_decide_eq_true_2. intros ->. cbn in Hn. lia. }
    rewrite Ht. cbn [negb].
    pose proof (ellipsis_chars txnId 8 6 ltac:(lia)) as Hc.
    pose proof (ellipsis_length txnId 8 6 ltac:(lia)) as Hl.
    cbv [Z.of_nat Pos.of_succ_nat Pos.succ Z.opp] in Hc, Hl.
    rewrite Hc, Hl. split; [split; [done | lia] | lia].
Qed.

Example shortenAddress_merchant :
  PaymentPage.shortenAddress Sample.merchant = "MERCHA...AAAA".
Proof. vm_compute. reflexivity. Qed.

Example shortenAddress_12 :
  PaymentPage.shortenAddress "ABCDEFGHIJKL" = "ABCDEF...IJKL".
Proof. vm_compute. reflexivity. Qed.

Example header_shortenAddress_short :
  WalletConnect.shortenAddress "ABC" = "ABC...ABC".
Proof. vm_compute. reflexivity. Qed.

End ShortenFacts.

(* --------------------------------------------------------------------- *)
(** ** The composable: restore, connect, network, submission              *)
(* --------------------------------------------------------------------- *)

Module SessionFacts.
Import UseAlgorand.

Lemma prompts_snoc (log : list Pera.Call) (c : Pera.Call) :
  Pera.prompts (log ++ [c])
  = (Pera.prompts log + if decide (c = Pera.Connect) then 1 else 0)%nat.
Proof.
  unfold Pera.prompts. rewrite filter_app, length_app. f_equal.
  rewrite filter_cons, filter_nil. by case_decide.
Qed.

Lemma prompts_other (log : list Pera.Call) (c : Pera.Call) :
  c ≠ Pera.Connect → Pera.prompts (log ++ [c]) = Pera.prompts log.
Proof. intros Hc. rewrite prompts_snoc, decide_False by done. lia. Qed.

Lemma prompts_connect (log : list Pera.Call) :
  Pera.prompts (log ++ [Pera.Connect]) = S (Pera.prompts log).
Proof. rewrite prompts_snoc, decide_True by done. lia. Qed.

Lemma restored_account_truthy (accounts : list string) (a : string) :
  restored_account accounts = Some a → truthy (Some a) = true.
Proof.
  unfold restored_account. destruct (first_account accounts) as [b |]; [| done].
  destruct (truthy (Some b)) eqn:Hb; [| done]. by intros [= <-].
Qed.



(** X5. [connect] tries the silent restore first.  From a disconnected
    state: when the restore yields an account, that account is
    connected, the promise resolves and the wallet is not prompted; in
    every other case (no session, an empty first account, or a restore
    that throws) the wallet is prompted exactly once, and then either
    the prompt's first account (or [null]) is stored and the promise
    resolves, or the prompt's failure is re-thrown with the account
    unchanged. *)
Theorem connect_restores_before_prompting (w : Pera.Answers) (s : Shared) :
  isConnected s = false →
  let s' := (connect w s).1 in
  let r := (connect w s).2 in
  match Pera.reconnectSession w ≫= λ accounts,
          match restored_account accounts with
          | Some a => Ok a
          | None => Throw OtherThrown
          end with
  | Ok a =>
      connectedAccount s' = Some a ∧ isConnected s' = true ∧ r = Ok ()
      ∧ Pera.prompts (walletLog s') = Pera.prompts (walletLog s)
  | Throw _ =>
      Pera.prompts (walletLog s') = S (Pera.prompts (walletLog s))
      ∧ match Pera.connect w with
        | Ok accounts =>
            connectedAccount s' = first_account accounts ∧ r = Ok ()
        | Throw e =>
            connectedAccount s' = connectedAccount s ∧ r = Throw e
        end
  end.
Proof.
  intros Hs. cbv zeta. unfold connect. rewrite Hs.
  assert (Hi : ∀ s0 : Shared,
             Pera.prompts (walletLog s0) = Pera.prompts (walletLog s) →
             connectedAccount s0 = connectedAccount s →
             Pera.prompts (walletLog (connect_interactive w s0).1)
             = S (Pera.prompts (walletLog s))
             ∧ match Pera.connect w with
               | Ok accounts =>
                   connectedAccount (connect_interactive w s0).1
                   = first_account accounts
                   ∧ (connect_interactive w s0).2 = Ok ()
               | Throw e =>
                   connectedAccount (connect_interactive w s0).1
                   = connectedAccount s
                   ∧ (connect_interactive w s0).2 = Throw e
               end).
  { intros s0 Hp Hc. unfold connect_interactive.
    destruct (Pera.connect w) as [accounts | e]; cbn -[Pera.prompts];
      rewrite ?prompts_other by done; rewrite prompts_connect, Hp; by split. }
  destruct (Pera.reconnectSession w) as [accounts | e]; cbn -[Pera.prompts].
  - destruct (restored_account accounts) as [a |] eqn:Ha; cbn -[Pera.prompts].
    + split; [done | split; [| split; [done |]]].
      * unfold isConnected. cbn. by eapply restored_account_truthy.
      * by rewrite !prompts_other.
    + apply Hi; cbn -[Pera.prompts]; [| done]. by rewrite prompts_other.
  - apply Hi; cbn -[Pera.prompts]; [| done]. by rewrite prompts_other.
Qed.

Lemma connect_restores_before_prompting_witness :
  let w := {| Pera.reconnectSession := Ok [Sample.otherAccount];
              Pera.connect := Ok [Sample.payer];
              Pera.signTransaction := λ _, Throw OtherThrown |} in
  let s' := (connect w (Sample.shared None)).1 in
  connectedAccount s' = Some Sample.otherAccount
  ∧ isConnected s' = true
  ∧ (connect w (Sample.shared None)).2 = Ok ()
  ∧ Pera.prompts (walletLog s') = Pera.prompts (walletLog (Sample.shared None)).
Proof.
  exact (connect_restores_before_prompting
           {| Pera.reconnectSession := Ok [Sample.otherAccount];
              Pera.connect := Ok [Sample.payer];
              Pera.signTransaction := λ _, Throw OtherThrown |}
           (Sample.shared None) eq_refl).
Defined.

(** X6. A resolved [connect] need not have connected anything: when
    no session is restored and the prompt answers with no account (an
    empty array, or an empty first entry), the promise resolves, the
    disconnect handler is registered, and [isConnected] is still
    false. *)
Theorem connect_may_resolve_disconnected (w : Pera.Answers) (s : Shared)
    (accounts : list string) :
  isConnected s = false →
  (∀ restored, Pera.reconnectSession w = Ok restored →
               restored_account restored = None) →
  Pera.connect w = Ok accounts →
  restored_account accounts = None →
  let s' := (connect w s).1 in
  (connect w s).2 = Ok ()
  ∧ isConnected s' = false
  ∧ walletLog s'
    = walletLog s ++ [Pera.ReconnectSession; Pera.Connect; Pera.OnDisconnect].
Proof.
  intros Hs Hr Hc Ha. cbv zeta. unfold connect. rewrite Hs.
  assert (Hi : ∀ s0 : Shared,
             (connect_interactive w s0).2 = Ok ()
             ∧ isConnected (connect_interactive w s0).1 = false
             ∧ walletLog (connect_interactive w s0).1
               = walletLog s0 ++ [Pera.Connect; Pera.OnDisconnect]).
  { intros s0. unfold connect_interactive. rewrite Hc. cbn.
    split; [done | split].
    - unfold isConnected. cbn. unfold restored_account in Ha.
      destruct (first_account accounts) as [a |]; [| done].
      by destruct (truthy (Some a)).
    - by rewrite <- app_assoc. }
  destruct (Pera.reconnectSession w) as [restored | e].
  - rewrite (Hr restored eq_refl).
    destruct (Hi (wallet_call Pera.ReconnectSession s)) as (H1 & H2 & H3).
    split; [done | split; [done |]]. rewrite H3. cbn. by rewrite <- app_assoc.
  - destruct (Hi (wallet_call Pera.ReconnectSession s)) as (H1 & H2 & H3).
    split; [done | split; [done |]]. rewrite H3. cbn. by rewrite <- app_assoc.
Qed.

Lemma connect_may_resolve_disconnected_witness :
  let w := {| Pera.reconnectSession := Ok [];
              Pera.connect := Ok [];
              Pera.signTransaction := λ _, Throw OtherThrown |} in
  let s' := (connect w (Sample.shared None)).1 in
  (connect w (Sample.shared None)).2 = Ok ()
  ∧ isConnected s' = false
  ∧ walletLog s'
    = walletLog (Sample.shared None)
      ++ [Pera.ReconnectSession; Pera.Connect; Pera.OnDisconnect].
Proof.
  apply (connect_may_resolve_disconnected
           {| Pera.reconnectSession := Ok [];
              Pera.connect := Ok [];
              Pera.signTransaction := λ _, Throw OtherThrown |}
           (Sample.shared None) []); try reflexivity.
  intros restored [= <-]. reflexivity.
Defined.

(** X7. [signAndSendTransactions] returns a transaction id exactly when
    an account is connected, the wallet signed the given transactions,
    the node accepted the signed bytes under that id, and
    [waitForConfirmation] with a bound of 4 rounds succeeded for it;
    without a connected account it throws ['Wallet not connected']
    whatever the wallet and node would answer. *)
Theorem signAndSend_confirmed_only (node : Algosdk.Node) (w : Pera.Answers)
    (s : Shared) (txns : list Algosdk.Transaction) (txId : string) :
  (signAndSendTransactions node w s txns = Ok txId
   ↔ isConnected s = true
     ∧ ∃ signed, Pera.signTransaction w txns = Ok signed
                 ∧ Algosdk.sendRawTransaction node signed = Ok txId
                 ∧ Algosdk.waitForConfirmation node txId 4 = Ok ())
  ∧ (isConnected s = false →
     signAndSendTransactions node w s txns
     = Throw (ErrorObj "Wallet not connected")).
Proof.
  unfold signAndSendTransactions, isConnected.
  destruct (truthy (connectedAccount s)); cbn [negb]; split.
  - rewrite JsFacts.bind_ok. split.
    + intros (signed & Hs & Hrest). apply JsFacts.bind_ok in Hrest as (t & Ht & Hrest).
      apply JsFacts.bind_ok in Hrest as ([] & Hw & [= <-]).
      split; [done |]. by exists signed.
    + intros (_ & signed & Hs & Ht & Hw). exists signed. split; [done |].
      by rewrite Ht, JsFacts.ret_bind, Hw.
  - done.
  - split; [done | by intros [? _]].
  - done.
Qed.

Lemma signAndSend_confirmed_only_witness :
  signAndSendTransactions (Sample.confirmingNode Sample.params)
    (Sample.wallet Sample.payer) (Sample.shared None) []
  = Throw (ErrorObj "Wallet not connected").
Proof.
  destruct (signAndSend_confirmed_only (Sample.confirmingNode Sample.params)
              (Sample.wallet Sample.payer) (Sample.shared None) [] "TXID")
    as [_ Hnot].
  exact (Hnot eq_refl).
Defined.

Lemma connect_frame (w : Pera.Answers) (s : Shared) :
  networkId (connect w s).1 = networkId s
  ∧ algodClient (connect w s).1 = algodClient s
  ∧ localStorage (connect w s).1 = localStorage s.
Proof.
  unfold connect. destruct (isConnected s); [done |].
  unfold connect_interactive.
  destruct (Pera.reconnectSession w) as [accounts |];
    [destruct (restored_account accounts) |];
    try done; by destruct (Pera.connect w).
Qed.

Lemma init_frame (w : Pera.Answers) (s : Shared) :
  networkId (init w s) = networkId s
  ∧ algodClient (init w s) = algodClient s
  ∧ localStorage (init w s) = localStorage s.
Proof.
  unfold init. destruct (isInitialized s); [done |].
  destruct (Pera.reconnectSession w) as [accounts |]; [| done].
  by destruct (restored_account accounts).
Qed.

Lemma stored_network_str (n : NetworkId) (storage : gmap string string) :
  UseAlgorandRun.stored_network (<["network" := NetworkId_str n]> storage) = Some n.
Proof.
  unfold UseAlgorandRun.stored_network. rewrite lookup_insert_eq.
  by destruct n.
Qed.

Lemma apply_coherent (s : Shared) (op : UseAlgorandRun.Op) :
  UseAlgorandRun.coherent s → UseAlgorandRun.coherent (UseAlgorandRun.apply s op).
Proof.
  unfold UseAlgorandRun.coherent. intros [Hc Hs].
  destruct op as [w | w | | | n]; cbn.
  - destruct (init_frame w s) as (-> & -> & ->). done.
  - destruct (connect_frame w s) as (-> & -> & ->). done.
  - done.
  - done.
  - unfold switchNetwork. case_decide; [done |].
    destruct (isConnected _); cbn; split; try done; apply stored_network_str.
Qed.

(** X8. From the moment the module is loaded, whatever is done through
    the composable (restore, connect, disconnect, the wallet's
    disconnect event, network switches, in any order): the node client
    is always the one built from the active network's configuration, and
    local storage always holds what brings the same network back on the
    next load. *)
Theorem client_and_storage_follow_network (storage : gmap string string)
    (s0 : Shared) (ops : list UseAlgorandRun.Op) :
  UseAlgorandRun.startup storage = Some s0 →
  let s := UseAlgorandRun.run s0 ops in
  algodClient s = createAlgodClient (networkId s)
  ∧ clientServer (algodClient s) = algodServer (currentNetwork s)
  ∧ (∃ s1, UseAlgorandRun.startup (localStorage s) = Some s1
           ∧ networkId s1 = networkId s
           ∧ algodClient s1 = algodClient s).
Proof.
  intros Hstart s.
  assert (Hco : UseAlgorandRun.coherent s).
  { subst s. revert s0 Hstart.
    assert (Hrun : ∀ s0, UseAlgorandRun.coherent s0 →
                         UseAlgorandRun.coherent (UseAlgorandRun.run s0 ops)).
    { induction ops as [| op ops IH]; intros s0 H0; [exact H0 |].
      cbn. apply IH. by apply apply_coherent. }
    intros s0 Hstart. apply Hrun.
    unfold UseAlgorandRun.startup in Hstart.
    destruct (UseAlgorandRun.stored_network storage) as [n |] eqn:Hn; [| done].
    injection Hstart as <-. by split. }
  destruct Hco as [Hc Hs]. split; [exact Hc | split].
  - rewrite Hc. reflexivity.
  - unfold UseAlgorandRun.startup. rewrite Hs. eexists. split; [reflexivity |].
    cbn. by rewrite Hc.
Qed.

Lemma client_and_storage_follow_network_witness :
  let s := UseAlgorandRun.run
             {| connectedAccount := None; isInitialized := false;
                networkId := testnet;
                algodClient := createAlgodClient testnet;
                localStorage := ∅; walletLog := []; console := [] |}
             [UseAlgorandRun.Init (Sample.wallet Sample.payer);
              UseAlgorandRun.SwitchNetwork mainnet;
              UseAlgorandRun.DoConnect (Sample.wallet Sample.payer)] in
  algodClient s = createAlgodClient (networkId s)
  ∧ clientServer (algodClient s) = algodServer (currentNetwork s)
  ∧ (∃ s1, UseAlgorandRun.startup (localStorage s) = Some s1
           ∧ networkId s1 = networkId s
           ∧ algodClient s1 = algodClient s).
Proof.
  apply (client_and_storage_follow_network ∅). reflexivity.
Defined.

Example network_survives_reload :
  let s := UseAlgorandRun.run
             {| connectedAccount := None; isInitialized := false;
                networkId := testnet;
                algodClient := createAlgodClient testnet;
                localStorage := ∅; walletLog := []; console := [] |}
             [UseAlgorandRun.SwitchNetwork mainnet] in
  networkId s = mainnet
  ∧ UseAlgorandRun.stored_network (localStorage s) = Some mainnet.
Proof. cbv zeta. split; [reflexivity |]. cbn. apply stored_network_str. Qed.

End SessionFacts.

(* --------------------------------------------------------------------- *)
(** ** Payment outcome and what the views display                         *)
(* --------------------------------------------------------------------- *)

Module OutcomeFacts.
Import Algosdk.

Section WithPlatform.
Context `{Platform}.

Lemma pay_body_ok (node : Node) (w : Pera.Answers) (p : PaymentPage.Page)
    (txId : string) :
  PaymentPage.pay_body node w p = Ok txId
  ↔ ∃ sp txns signed,
      getTransactionParams node = Ok sp
      ∧ PaymentPage.build_group (PaymentPage.checkout p)
          (PaymentPage.connectedAccount p) sp = Ok txns
      ∧ Pera.signTransaction w txns = Ok signed
      ∧ sendRawTransaction node signed = Ok txId
      ∧ waitForConfirmation node txId 4 = Ok ().
Proof.
  unfold PaymentPage.pay_body. split.
  - intros Hb. BuilderFacts.bind_inv Hb. injection Hb as <-.
    destruct v3. eauto 10.
  - intros (sp & txns & signed & H1 & H2 & H3 & H4 & H5).
    by rewrite H1, JsFacts.ret_bind, H2, JsFacts.ret_bind, H3, JsFacts.ret_bind,
      H4, JsFacts.ret_bind, H5.
Qed.

(** X9. What [pay] leaves behind.  Without a connected account it
    changes nothing and resolves.  With one, the busy flag is down
    again, and the connected account, the timers and the pending reloads
    are as before.  If the [try] block succeeds, the id of the
    transaction is shown without error text, the checkout's status is
    set to ['paid'] with nothing else of the record changed, and the
    call resolves; this happens only if the group was built, signed,
    accepted by the node under that id and confirmed within 4 rounds.
    If it fails, the record is untouched and no transaction id is shown;
    a non-empty error text is set and the call resolves, unless what was
    thrown is [null] or [undefined]: then no indication at all is set
    and the call rejects with the [TypeError] of the [catch] clause. *)
Theorem pay_outcome (node : Node) (w : Pera.Answers) (p : PaymentPage.Page) :
  let p' := PaymentPage.pay node w p in
  if PaymentPage.isConnected p then
    PaymentPage.paying p' = false
    ∧ PaymentPage.connectedAccount p' = PaymentPage.connectedAccount p
    ∧ PaymentPage.timers p' = PaymentPage.timers p
    ∧ PaymentPage.reloads p' = PaymentPage.reloads p
    ∧ match PaymentPage.pay_body node w p with
      | Ok txId =>
          PaymentPage.success p' = Some txId
          ∧ PaymentPage.error p' = None
          ∧ PaymentPage.checkout p'
            = PaymentPage.set_status "paid" (PaymentPage.checkout p)
          ∧ PaymentPage.pay_completion node w p = Resolves
          ∧ ∃ sp txns signed,
              getTransactionParams node = Ok sp
              ∧ PaymentPage.build_group (PaymentPage.checkout p)
                  (PaymentPage.connectedAccount p) sp = Ok txns
              ∧ Pera.signTransaction w txns = Ok signed
              ∧ sendRawTransaction node signed = Ok txId
              ∧ waitForConfirmation node txId 4 = Ok ()
      | Throw e =>
          PaymentPage.success p' = None
          ∧ PaymentPage.checkout p' = PaymentPage.checkout p
          ∧ match e with
            | NullThrown =>
                PaymentPage.error p' = None
                ∧ PaymentPage.pay_completion node w p = RejectsTypeError
            | _ =>
                truthy (PaymentPage.error p') = true
                ∧ PaymentPage.pay_completion node w p = Resolves
            end
      end
  else p' = p ∧ PaymentPage.pay_completion node w p = Resolves.
Proof.
  cbv zeta. unfold PaymentPage.pay, PaymentPage.pay_completion,
    PaymentPage.isConnected.
  destruct (PaymentPage.pay_begin p) as [p1 |] eqn:Hp1.
  - rewrite (PaymentFacts.pay_body_after_begin _ _ _ _ Hp1).
    unfold PaymentPage.pay_begin in Hp1.
    destruct (truthy (PaymentPage.connectedAccount p)); [| done].
    injection Hp1 as <-.
    destruct (PaymentPage.pay_body node w p) as [txId | e] eqn:Hb.
    + cbn. repeat (split; [done |]). by apply pay_body_ok.
    + destruct e as [m | |]; cbn; repeat (split; [done |]).
      * split; [| done]. by apply (JsFacts.or_else_truthy (Some m)).
      * done.
      * done.
  - unfold PaymentPage.pay_begin in Hp1.
    by destruct (truthy (PaymentPage.connectedAccount p)).
Qed.

(** X10. The dev-tool form never changes the checkout it holds,
    whatever the outcome of [payCheckout]: on success it shows the
    transaction id and schedules one re-fetch of the record, due 2 s
    later; on failure it shows an error text and schedules nothing; with
    no checkout loaded or no account connected it does nothing. *)
Theorem payCheckout_outcome (now : Z) (node : Node) (w : Pera.Answers)
    (s : UseAlgorand.Shared) (f : PaymentForm.Form) :
  let f' := PaymentForm.payCheckout now node w s f in
  PaymentForm.checkout f' = PaymentForm.checkout f
  ∧ if bool_decide (is_Some (PaymentForm.checkout f)) && UseAlgorand.isConnected s
    then
      PaymentForm.paying f' = false
      ∧ match PaymentForm.payCheckout_body node w s f with
        | Ok txId =>
            PaymentForm.success f' = Some txId
            ∧ PaymentForm.error f' = None
            ∧ PaymentForm.refetches f'
              = PaymentForm.refetches f ++ [(now + 2000)%Z]
        | Throw e =>
            PaymentForm.success f' = None
            ∧ PaymentForm.error f' = Some (message_or e "Payment failed")
            ∧ PaymentForm.refetches f' = PaymentForm.refetches f
        end
    else f' = f.
Proof.
  cbv zeta. unfold PaymentForm.payCheckout, UseAlgorand.isConnected.
  destruct (PaymentForm.payCheckout_begin s f) as [f1 |] eqn:Hf1.
  - rewrite (PaymentFacts.payCheckout_body_after_begin _ _ _ _ _ Hf1).
    unfold PaymentForm.payCheckout_begin in Hf1.
    destruct (PaymentForm.checkout f) as [c |] eqn:Hc; [| done].
    destruct (truthy (UseAlgorand.connectedAccount s)); [| done].
    injection Hf1 as <-.
    rewrite bool_decide_eq_true_2 by eauto. cbn [andb].
    destruct (PaymentForm.payCheckout_body node w s f) as [txId | e]; cbn;
      by rewrite Hc.
  - split; [done |]. unfold PaymentForm.payCheckout_begin in Hf1.
    destruct (PaymentForm.checkout f) as [c |] eqn:Hc.
    + destruct (truthy (UseAlgorand.connectedAccount s)); [done |].
      by rewrite andb_false_r.
    + rewrite bool_decide_eq_false_2; [done |]. by intros [? ?].
Qed.

(** X11. The address the views display as the smart contract's is the
    one the payment goes to: whenever a group is built, the receiver of
    its asset transfer is, on the payment page, the address object whose
    text the page displays and, on the form, the displayed text itself.
    When a view displays ['Invalid App ID'] because the program id does
    not parse or has no address, no group can be built. *)
Theorem displayed_contract_address_is_receiver :
  (∀ (p : PaymentPage.Page) (sp : SuggestedParams) (txns : list Transaction),
     PaymentPage.build_group (PaymentPage.checkout p)
       (PaymentPage.connectedAccount p) sp = Ok txns →
     ∃ a b o publicKey,
       txns = [a; b]
       ∧ fields a = Axfer o
       ∧ receiver o = AddrValue publicKey
       ∧ Address_toString publicKey = PaymentPage.contractAddress p)
  ∧ (∀ (f : PaymentForm.Form) (c : PaymentForm.Checkout) (account : option string)
       (sp : SuggestedParams) (txns : list Transaction),
       PaymentForm.checkout f = Some c →
       PaymentForm.build_group c account sp = Ok txns →
       ∃ a b o,
         txns = [a; b]
         ∧ fields a = Axfer o
         ∧ receiver o = AddrText (PaymentForm.contractAddress f))
  ∧ (∀ (p : PaymentPage.Page) (account : option string) (sp : SuggestedParams)
       (e : Thrown),
       (appId ← BigInt (PaymentPage.appId (PaymentPage.checkout p));
        getApplicationAddress appId) = Throw e →
       PaymentPage.contractAddress p = "Invalid App ID"
       ∧ ∀ txns, PaymentPage.build_group (PaymentPage.checkout p) account sp
                 ≠ Ok txns).
Proof.
  split; [| split].
  - intros p sp txns Hb. apply BuilderFacts.page_build_group_spec in Hb.
    destruct Hb as (program & asset & amt & acc & sender & e1 & e2 & e3 & e4
                    & e5 & gid & H1 & _ & _ & H4 & _ & _ & _ & _ & _ & _
                    & _ & _ & _ & ->).
    eexists _, _, _, acc. split; [reflexivity |].
    split; [reflexivity | split; [reflexivity |]].
    unfold PaymentPage.contractAddress. by rewrite H1, JsFacts.ret_bind, H4.
  - intros f c account sp txns Hc Hb.
    apply BuilderFacts.form_build_group_spec in Hb.
    destruct Hb as (program & asset & amt & acc & sender & e1 & e2 & e3 & e4
                    & e5 & gid & H1 & _ & _ & H4 & _ & _ & _ & _ & _ & _
                    & _ & _ & _ & ->).
    eexists _, _, _. split; [reflexivity | split; [reflexivity |]]. cbn.
    unfold PaymentForm.contractAddress. by rewrite Hc, H1, JsFacts.ret_bind, H4.
  - intros p account sp e He. split.
    + unfold PaymentPage.contractAddress. by rewrite He.
    + intros txns Hb. apply BuilderFacts.page_build_group_spec in Hb.
      destruct Hb as (program & asset & amt & acc & sender & e1 & e2 & e3 & e4
                      & e5 & gid & H1 & _ & _ & H4 & _).
      by rewrite H1, JsFacts.ret_bind, H4 in He.
Qed.

(** X12. What the form previews is what [payCheckout] builds: when a
    preview is shown and a group is built for the same checkout and
    account, the previewed sender, receiver, asset and program are those
    of the two transactions, the previewed method text is the signature
    of the method whose selector is the invocation's first argument, and
    the previewed argument names are the method's, in order. *)
Theorem preview_matches_group (toFixed2 : string → string)
    (s : UseAlgorand.Shared) (f : PaymentForm.Form) (c : PaymentForm.Checkout)
    (pv : PaymentForm.PreviewTransfer * PaymentForm.PreviewCall)
    (sp : SuggestedParams) (txns : list Transaction) :
  PaymentForm.transactionPreview toFixed2 s f = Some pv →
  PaymentForm.checkout f = Some c →
  PaymentForm.build_group c (UseAlgorand.connectedAccount s) sp = Ok txns →
  ∃ o1 o2 gid,
    txns = [ {| fields := Axfer o1; group := Some gid |};
             {| fields := Appl o2; group := Some gid |} ]
    ∧ axfer_sender o1 = PaymentForm.txn1_from pv.1
    ∧ appl_sender o2 = PaymentForm.txn1_from pv.1
    ∧ receiver o1 = AddrText (PaymentForm.txn1_to pv.1)
    ∧ BigInt (PaymentForm.txn1_assetId pv.1) = Ok (assetIndex o1)
    ∧ foreignAssets o2 = [assetIndex o1]
    ∧ BigInt (PaymentForm.txn2_appId pv.2) = Ok (appIndex o2)
    ∧ PaymentForm.txn2_method pv.2 = getSignature PaymentForm.payCheckoutMethod
    ∧ head (appArgs o2) = Some (BuilderSpec.selector (PaymentForm.txn2_method pv.2))
    ∧ length (appArgs o2) = length (PaymentForm.txn2_args pv.2)
    ∧ fst <$> PaymentForm.txn2_args pv.2
      = arg_name <$> method_args PaymentForm.payCheckoutMethod.
Proof.
  intros Hpv Hc Hb. unfold PaymentForm.transactionPreview in Hpv.
  rewrite Hc in Hpv.
  destruct (UseAlgorand.connectedAccount s) as [account |] eqn:Ha; [| done].
  destruct (truthy (Some account)); [| done]. injection Hpv as <-.
  apply BuilderFacts.form_build_group_spec in Hb.
  destruct Hb as (program & asset & amt & acc & sender & e1 & e2 & e3 & e4
                  & e5 & gid & H1 & H2 & _ & H4 & [= <-] & _ & _ & _ & _ & _
                  & _ & _ & _ & ->).
  eexists _, _, gid. split; [reflexivity |]. cbn.
  repeat (split; [done |]).
  split; [| done].
  unfold PaymentForm.contractAddress. by rewrite Hc, H1, JsFacts.ret_bind, H4.
Qed.

End WithPlatform.

Lemma displayed_contract_address_is_receiver_witness :
  ∃ a b o publicKey,
    Sample.scenarioGroup = [a; b]
    ∧ fields a = Axfer o
    ∧ receiver o = AddrValue publicKey
    ∧ Address_toString (Platform := Sample.platform) publicKey
      = PaymentPage.contractAddress (H := Sample.platform)
          (Sample.page (Some Sample.payer)).
Proof.
  destruct (displayed_contract_address_is_receiver (H := Sample.platform))
    as [Hpage _].
  apply (Hpage (Sample.page (Some Sample.payer)) Sample.params
           Sample.scenarioGroup).
  vm_compute. reflexivity.
Defined.

Lemma preview_matches_group_witness :
  ∃ o1 o2 gid,
    Sample.formGroup
    = [ {| fields := Axfer o1; group := Some gid |};
        {| fields := Appl o2; group := Some gid |} ]
    ∧ axfer_sender o1 = Sample.payer
    ∧ receiver o1
      = AddrText (PaymentForm.contractAddress (H := Sample.platform) Sample.form)
    ∧ BigInt (Platform := Sample.platform) "10458941" = Ok (assetIndex o1)
    ∧ BigInt (Platform := Sample.platform) "754674671" = Ok (appIndex o2).
Proof.
  destruct (preview_matches_group (H := Sample.platform) (λ a, a)
              (Sample.shared (Some Sample.payer)) Sample.form Sample.formCheckout
              _ Sample.params Sample.formGroup eq_refl eq_refl)
    as (o1 & o2 & gid & Ht & Hs & _ & Hr & Ha & _ & Hp & _).
  - vm_compute. reflexivity.
  - exists o1, o2, gid. repeat split; assumption.
Defined.

End OutcomeFacts.

(* --------------------------------------------------------------------- *)
(** ** Remaining time, mounting the page, the checkout list               *)
(* --------------------------------------------------------------------- *)

Module ListFacts.
Import CheckoutList.

Section WithPlatform.
Context `{Algosdk.Platform}.

(** X13. The remaining-time text rounds down to whole seconds.  For an
    expiry time that parses and lies in the future, the text is
    [<m>m <s>s] with [s] between 0 and 59, and the time really left is at
    least [m] minutes [s] seconds and less than one second more (so the
    last second before expiry reads [0m 0s], not ['Expired']).  The
    checkout list and the payment page compute the same text. *)
Theorem remaining_time_rounds_down (now t : Z) (p : PaymentPage.Page) :
  Algosdk.Date_getTime (PaymentPage.expiresAt (PaymentPage.checkout p)) = Some t →
  (now < t)%Z →
  let text := getTimeRemaining now (PaymentPage.expiresAt (PaymentPage.checkout p)) in
  PaymentPage.timeRemaining (PaymentPage.updateTimeRemaining now p) = text
  ∧ ∃ m s : Z,
      text = pretty m +:+ "m " +:+ pretty s +:+ "s"
      ∧ (0 ≤ m)%Z ∧ (0 ≤ s ≤ 59)%Z
      ∧ (60000 * m + 1000 * s ≤ t - now < 60000 * m + 1000 * s + 1000)%Z.
Proof.
  intros Ht Hlt. cbv zeta.
  unfold getTimeRemaining, PaymentPage.updateTimeRemaining. rewrite Ht.
  cbv zeta. rewrite !decide_False by lia. split; [reflexivity |].
  exists ((t - now) / 60000)%Z, (((t - now) mod 60000) / 1000)%Z.
  split; [reflexivity |].
  pose proof (Z.div_mod (t - now) 60000 ltac:(lia)) as Hd.
  pose proof (Z.mod_pos_bound (t - now) 60000 ltac:(lia)) as Hm.
  pose proof (Z.div_mod ((t - now) mod 60000) 1000 ltac:(lia)) as Hd'.
  pose proof (Z.mod_pos_bound ((t - now) mod 60000) 1000 ltac:(lia)) as Hm'.
  assert (0 ≤ (t - now) / 60000)%Z by (apply Z.div_pos; lia).
  assert (0 ≤ (t - now) mod 60000 / 1000)%Z by (apply Z.div_pos; lia).
  lia.
Qed.

End WithPlatform.

Lemma remaining_time_rounds_down_witness :
  let text := getTimeRemaining (H := Sample.platform) 4001
                (PaymentPage.expiresAt (PaymentPage.checkout (Sample.page None))) in
  PaymentPage.timeRemaining
    (PaymentPage.updateTimeRemaining (H := Sample.platform) 4001 (Sample.page None))
  = text
  ∧ ∃ m s : Z,
      text = pretty m +:+ "m " +:+ pretty s +:+ "s"
      ∧ (0 ≤ m)%Z ∧ (0 ≤ s ≤ 59)%Z
      ∧ (60000 * m + 1000 * s ≤ 5000 - 4001 < 60000 * m + 1000 * s + 1000)%Z.
Proof.
  apply (remaining_time_rounds_down (H := Sample.platform) 4001 5000
           (Sample.page None)); [reflexivity | lia].
Defined.

Example last_second_reads_zero :
  getTimeRemaining (H := Sample.platform) 4001 "1970-01-01T00:00:05.000Z"
  = "0m 0s".
Proof. vm_compute. reflexivity. Qed.

Section WithPlatform.
Context `{Algosdk.Platform}.

(** X14. Mounting the payment page never prompts the wallet and never
    touches the checkout, the error or the busy flag.  For a checkout
    that is not ['pending'] it starts no interval, schedules no reload
    and leaves the countdown text alone; for a pending one it computes
    the text once and starts exactly one interval, with a fresh
    handle. *)
Theorem page_mount_starts_countdown_for_pending_only (now : Z)
    (w : Pera.Answers) (p : PaymentPage.Page) :
  let p' := PaymentPage.onMounted now w p in
  Pera.prompts (PaymentPage.walletLog p') = Pera.prompts (PaymentPage.walletLog p)
  ∧ PaymentPage.checkout p' = PaymentPage.checkout p
  ∧ PaymentPage.error p' = PaymentPage.error p
  ∧ PaymentPage.paying p' = PaymentPage.paying p
  ∧ if bool_decide (PaymentPage.status (PaymentPage.checkout p) = "pending")
    then
      PaymentPage.timeRemaining p'
      = getTimeRemaining now (PaymentPage.expiresAt (PaymentPage.checkout p))
      ∧ Browser.active (PaymentPage.timers p')
        = {[ Browser.next_handle (PaymentPage.timers p) ]}
          ∪ Browser.active (PaymentPage.timers p)
      ∧ Browser.next_handle (PaymentPage.timers p')
        = S (Browser.next_handle (PaymentPage.timers p))
    else
      PaymentPage.timers p' = PaymentPage.timers p
      ∧ PaymentPage.reloads p' = PaymentPage.reloads p
      ∧ PaymentPage.timeRemaining p' = PaymentPage.timeRemaining p.
Proof.
  cbv zeta. unfold PaymentPage.onMounted.
  set (p0 := if bool_decide (PaymentPage.status (PaymentPage.checkout p) = "pending")
             then _ else p).
  assert (Hrest : ∀ q : PaymentPage.Page,
             let q' := match Pera.reconnectSession w with
                       | Ok accounts =>
                           match restored_account accounts with
                           | Some a =>
                               PaymentPage.wallet_call Pera.OnDisconnect
                                 (PaymentPage.set_connectedAccount (Some a)
                                    (PaymentPage.wallet_call Pera.ReconnectSession q))
                           | None => PaymentPage.wallet_call Pera.ReconnectSession q
                           end
                       | Throw _ => PaymentPage.wallet_call Pera.ReconnectSession q
                       end in
             Pera.prompts (PaymentPage.walletLog q')
             = Pera.prompts (PaymentPage.walletLog q)
             ∧ PaymentPage.checkout q' = PaymentPage.checkout q
             ∧ PaymentPage.error q' = PaymentPage.error q
             ∧ PaymentPage.paying q' = PaymentPage.paying q
             ∧ PaymentPage.timers q' = PaymentPage.timers q
             ∧ PaymentPage.reloads q' = PaymentPage.reloads q
             ∧ PaymentPage.timeRemaining q' = PaymentPage.timeRemaining q).
  { intros q. cbv zeta.
    destruct (Pera.reconnectSession w) as [accounts |];
      [destruct (restored_account accounts) |]; cbn -[Pera.prompts];
      rewrite !SessionFacts.prompts_other by done; done. }
  destruct (Hrest p0) as (Hp & Hc & He & Hb & Ht & Hr & Htr).
  cbv zeta in Hp, Hc, He, Hb, Ht, Hr, Htr.
  rewrite Hp, Hc, He, Hb, Ht, Hr, Htr. subst p0.
  case_bool_decide as Hpend.
  - unfold PaymentPage.updateTimeRemaining, getTimeRemaining.
    destruct (Algosdk.Date_getTime _); [case_decide |]; done.
  - done.
Qed.

End WithPlatform.

Section WithHost.
Variable toLowerCase : string → string.

Lemma Status_str_inj (a b : Status) : Status_str a = Status_str b → a = b.
Proof. by destruct a, b. Qed.

Lemma Status_str_not_all (a : Status) : Status_str a ≠ "all".
Proof. by destruct a. Qed.

Lemma bump_all (c : Counts) (s : Status) : all (bump c s) = S (all c).
Proof. by destruct s. Qed.

Lemma bump_count (c : Counts) (s s' : Status) :
  count_of (bump c s) s'
  = (count_of c s' + if decide (s = s') then 1 else 0)%nat.
Proof. destruct s, s'; cbn; case_decide; try done; lia. Qed.

Lemma counts_fold (cs : list Checkout) (c0 : Counts) :
  let counts := foldl (λ counts c, bump counts (status c)) c0 cs in
  all counts = (all c0 + length cs)%nat
  ∧ ∀ s, count_of counts s
         = (count_of c0 s + length (filter (λ c, status c = s) cs))%nat.
Proof.
  revert c0. induction cs as [| c cs IH]; intros c0; cbn [foldl].
  - split; [cbn; lia | intros s; cbn; lia].
  - destruct (IH (bump c0 (status c))) as [Ha Hs]. cbv zeta in Ha, Hs.
    rewrite Ha, bump_all. split; [cbn [length]; lia |].
    intros s. rewrite Hs, bump_count, filter_cons.
    case_decide; cbn [length]; lia.
Qed.

Lemma status_partition (cs : list Checkout) :
  length cs
  = (length (filter (λ c, status c = pending) cs)
     + length (filter (λ c, status c = paid) cs)
     + length (filter (λ c, status c = notified) cs)
     + length (filter (λ c, status c = expired) cs)
     + length (filter (λ c, status c = failed) cs))%nat.
Proof.
  induction cs as [| c cs IH]; [reflexivity |].
  rewrite !filter_cons. destruct (status c);
    repeat case_decide; try done; cbn; lia.
Qed.

(** X15. The status badges count what the list shows: [statusCounts]
    gives under [all] the number of checkouts, which is the sum of the
    five per-status counts, and under each status exactly the number of
    rows [filteredCheckouts] lists when that status is selected and the
    search box is empty. *)
Theorem statusCounts_match_the_list (checkouts : list Checkout) :
  let counts := statusCounts checkouts in
  all counts = length checkouts
  ∧ all counts
    = (n_pending counts + n_paid counts + n_notified counts
       + n_expired counts + n_failed counts)%nat
  ∧ ∀ s, count_of counts s
         = length (filteredCheckouts toLowerCase checkouts (Status_str s) "").
Proof.
  cbv zeta. unfold statusCounts.
  destruct (counts_fold checkouts
              {| all := 0; n_pending := 0; n_paid := 0; n_notified := 0;
                 n_expired := 0; n_failed := 0 |}) as [Ha Hs].
  cbv zeta in Ha, Hs. split; [exact Ha | split].
  - rewrite Ha. cbn [all].
    pose proof (Hs pending) as H1. pose proof (Hs paid) as H2.
    pose proof (Hs notified) as H3. pose proof (Hs expired) as H4.
    pose proof (Hs failed) as H5. cbn [count_of] in H1, H2, H3, H4, H5.
    rewrite H1, H2, H3, H4, H5. cbn [n_pending n_paid n_notified n_expired n_failed].
    rewrite (status_partition checkouts) at 1. lia.
  - intros s. rewrite Hs. unfold filteredCheckouts. cbn [truthy].
    rewrite (bool_decide_eq_true_2 (Status_str s ≠ "all"))
      by apply Status_str_not_all.
    rewrite (bool_decide_eq_false_2 ("" ≠ "")) by (intros Hne; by apply Hne).
    cbn [count_of]. replace (count_of _ s) with 0%nat by (by destruct s).
    cbn. f_equal. apply list_filter_iff. intros c. split.
    + by intros ->.
    + apply Status_str_inj.
Qed.


End WithHost.


End ListFacts.

(* --------------------------------------------------------------------- *)
(** ** Endpoint choice, checkout creation, payment query, polling         *)
(* --------------------------------------------------------------------- *)

Module EndpointFacts.
Import ApiEndpoint.

Lemma own_key_str (e : EndpointId) : own_key (EndpointId_str e) = Some e.
Proof. by destruct e. Qed.

Lemma own_key_inv (k : string) (e : EndpointId) :
  own_key k = Some e → k = EndpointId_str e.
Proof.
  unfold own_key. repeat case_bool_decide; intros [= <-]; done.
Qed.

Lemma str_truthy (e : EndpointId) : truthy (Some (EndpointId_str e)) = true.
Proof. by destruct e. Qed.

(** X17. The endpoint choice survives a reload: after
    [switchEndpoint(id)] the active endpoint is [id], what is then in
    local storage restores [id] (whatever was stored before, and
    whichever member names objects inherit), no other storage entry is
    touched, and [apiUrl] prefixes paths with the chosen endpoint's URL,
    which for the production endpoint leaves the path as it is. *)
Theorem endpoint_choice_survives_reload (inherited : string → bool)
    (id : EndpointId) (s : State) (path : string) :
  let s' := switchEndpoint id s in
  currentEndpoint s' = id
  ∧ restore inherited (localStorage s' !! "api-endpoint") = Some id
  ∧ (∀ k, k ≠ "api-endpoint" → localStorage s' !! k = localStorage s !! k)
  ∧ apiUrl s' path = url (endpoints id) +:+ path
  ∧ apiUrl (switchEndpoint production s) path = path.
Proof.
  cbv zeta. split; [done | split; [| split; [| done]]].
  - cbn. rewrite lookup_insert_eq. unfold restore.
    by rewrite str_truthy, own_key_str.
  - intros k Hk. cbn. by rewrite lookup_insert_ne.
Qed.

Lemma endpoint_choice_survives_reload_witness :
  localStorage
    (switchEndpoint test
       {| currentEndpoint := local;
          localStorage := {[ "network" := "mainnet" ]} |}) !! "network"
  = Some "mainnet".
Proof.
  destruct (endpoint_choice_survives_reload (λ _, false) test
              {| currentEndpoint := local;
                 localStorage := {[ "network" := "mainnet" ]} |} "/api/stats")
    as (_ & _ & Hother & _).
  rewrite (Hother "network"); [| discriminate]. reflexivity.
Defined.

(** X18. Restoring the endpoint from storage falls back to the local
    endpoint when nothing, an empty text or an unknown text is stored,
    and takes a stored endpoint name as it is.  The one exception is a
    stored text that names a member every object inherits: it passes
    the [endpoints[stored]] test although it is none of the three
    endpoints. *)
Theorem restore_falls_back_to_local (inherited : string → bool)
    (stored : option string) :
  match stored with
  | None => restore inherited stored = Some local
  | Some k =>
      match own_key k with
      | Some e => restore inherited stored = Some e ∧ k = EndpointId_str e
      | None =>
          restore inherited stored
          = if truthy (Some k) && inherited k then None else Some local
      end
  end.
Proof.
  destruct stored as [k |]; [| done]. unfold restore.
  destruct (own_key k) as [e |] eqn:He.
  - apply own_key_inv in He as ->. by rewrite str_truthy.
  - destruct (truthy (Some k)); [| done]. by destruct (inherited k).
Qed.

End EndpointFacts.

Module CreatorFacts.
Import CheckoutCreator.

(** X19. The request body carries every field of the form under its
    own name, except that [appId] is left out exactly for the direct
    method: 8 members for ['contract'], 7 for ['direct'], and no
    others. *)
Theorem request_body_members (f : FormData) (k : string) :
  body f !! k
  = if bool_decide (k = "checkoutId") then Some (checkoutId f)
    else if bool_decide (k = "method") then Some (Method_str (method f))
    else if bool_decide (k = "appId") then
      match method f with
      | contract => Some (appId f)
      | direct => None
      end
    else if bool_decide (k = "merchantWallet") then Some (merchantWallet f)
    else if bool_decide (k = "merchantName") then Some (merchantName f)
    else if bool_decide (k = "amount") then Some (amount f)
    else if bool_decide (k = "assetId") then Some (assetId f)
    else if bool_decide (k = "note") then Some (note f)
    else None.
Proof.
  assert (Hs : spread f !! k
             = if bool_decide (k = "checkoutId") then Some (checkoutId f)
               else if bool_decide (k = "method") then Some (Method_str (method f))
               else if bool_decide (k = "appId") then Some (appId f)
               else if bool_decide (k = "merchantWallet") then Some (merchantWallet f)
               else if bool_decide (k = "merchantName") then Some (merchantName f)
               else if bool_decide (k = "amount") then Some (amount f)
               else if bool_decide (k = "assetId") then Some (assetId f)
               else if bool_decide (k = "note") then Some (note f)
               else None).
  { unfold spread. cbn [list_to_map foldr uncurry fst snd curry].
    repeat (let Hk := fresh "Hk" in
            case_bool_decide as Hk;
            [subst k; by rewrite lookup_insert_eq
            | rewrite lookup_insert_ne by congruence]).
    apply lookup_empty. }
  unfold body. destruct (method f); [exact Hs |].
  destruct (decide (k = "appId")) as [-> | Hk].
  - by rewrite lookup_delete_eq.
  - rewrite lookup_delete_ne by done. rewrite Hs.
    by rewrite (bool_decide_eq_false_2 (k = "appId")).
Qed.

Section WithData.
Variable Data : Type.
Variable error_member : Data → option string.
Variable typeError_message : string.

(** X20. [createCheckout] always sends exactly one request, whose
    body is the one previewed for the form as it was, and ends with the
    busy flag down.  When the answer is ok and its payload parses, the
    payload is what the response then holds, no error is set, and a
    fresh checkout id ([CHK-] and the clock) replaces the form's, the
    other fields staying; in every other case an error text is set, the
    response is [null] and the form, its checkout id included, is
    untouched.  So response and error are never set together, and
    neither is set exactly when an ok answer carries the payload
    [null].  For an answer that is not ok and whose payload parses, the
    error text is the payload's [error] member if it has a non-empty
    one, else [HTTP] and the status; for the payload [null] it is the
    message of the [TypeError] of reading that member. *)
Theorem createCheckout_outcome (now : Z)
    (answer : result (Http.Response (Http.Json Data))) (s : State Data) :
  let s' := createCheckout Data error_member typeError_message now answer s in
  loading Data s' = false
  ∧ posted Data s' = posted Data s ++ [body (form Data s)]
  ∧ match request Data error_member typeError_message answer with
    | Ok data =>
        response Data s' = Http.stored data
        ∧ error Data s' = None
        ∧ form Data s' = set_checkoutId ("CHK-" +:+ pretty now) (form Data s)
        ∧ ∃ res, answer = Ok res ∧ Http.ok res = true ∧ Http.json res = Ok data
    | Throw e =>
        response Data s' = None
        ∧ error Data s' = Some (message_or e "Request failed")
        ∧ form Data s' = form Data s
    end
  ∧ (response Data s' = None ∨ error Data s' = None)
  ∧ (response Data s' = None ∧ error Data s' = None
     ↔ ∃ res, answer = Ok res ∧ Http.ok res = true
              ∧ Http.json res = Ok Http.JsonNull)
  ∧ match answer with
    | Ok res =>
        match Http.json res with
        | Ok data =>
            Http.ok res = false →
            error Data s'
            = Some (match data with
                    | Http.JsonValue d =>
                        or_else (error_member d)
                          ("HTTP " +:+ pretty (Http.status res))
                    | Http.JsonNull => typeError_message
                    end)
        | Throw e => error Data s' = Some (message_or e "Request failed")
        end
    | Throw e => error Data s' = Some (message_or e "Request failed")
    end.
Proof.
  cbv zeta. unfold createCheckout, request.
  destruct answer as [res | e].
  2: { cbn. split; [| split; [| split; [| split; [| split]]]]; try done.
       - by left.
       - split; [by intros [_ [=]] | by intros (? & [=] & _)]. }
  rewrite JsFacts.ret_bind.
  destruct (Http.json res) as [data | e] eqn:Hj.
  2: { cbn. split; [| split; [| split; [| split; [| split]]]]; try done.
       - by left.
       - split; [by intros [_ [=]] |].
         intros (? & [= <-] & _ & ?). congruence. }
  rewrite JsFacts.ret_bind.
  destruct (Http.ok res) eqn:Hok; cbn [negb];
    destruct data as [| d]; cbn;
    (split; [| split; [| split; [| split; [| split]]]]); try done.
  - repeat (split; [done |]). by exists res.
  - by left.
  - split; [| done]. intros _. by exists res.
  - repeat (split; [done |]). by exists res.
  - by right.
  - split; [by intros [[=] _] |].
    intros (? & [= <-] & _ & ?). congruence.
  - by left.
  - split; [by intros [_ [=]] |].
    intros (? & [= <-] & ? & _). congruence.
  - by left.
  - split; [by intros [_ [=]] |].
    intros (? & [= <-] & ? & _). congruence.
Qed.

End WithData.

Lemma createCheckout_outcome_witness :
  let s := {| form := {| checkoutId := "CHK-1"; method := contract;
                         appId := "754674671";
                         merchantWallet := Sample.merchant;
                         merchantName := "Demo Store"; amount := "1000000";
                         assetId := "10458941"; note := "" |};
              loading := false; response := None; error := None;
              posted := [] |} in
  error string
    (createCheckout string Some "Cannot read properties of null" 7
       (Ok {| Http.ok := false; Http.status := 400;
              Http.json := Ok (Http.JsonValue "Checkout already exists") |}) s)
  = Some "Checkout already exists".
Proof.
  intros s.
  destruct (createCheckout_outcome string Some "Cannot read properties of null" 7
              (Ok {| Http.ok := false; Http.status := 400;
                     Http.json := Ok (Http.JsonValue "Checkout already exists") |}) s)
    as (_ & _ & _ & _ & _ & Herr).
  exact (Herr eq_refl).
Defined.

Example direct_body_has_no_appId :
  body {| checkoutId := "CHK-1"; method := direct; appId := "754674671";
          merchantWallet := Sample.merchant; merchantName := "Demo Store";
          amount := "1000000"; assetId := "10458941"; note := "" |} !! "appId"
  = None.
Proof. vm_compute. reflexivity. Qed.

End CreatorFacts.

Module QueryFacts.
Import PaymentQuery.

Section WithHost.
Variable Payment : Type.
Variable trim : string → string.
Variable encodeURIComponent : string → string.

(** X21. [search] with a blank value (empty once trimmed) only sets
    the error ['Please enter a search value']: nothing is fetched and
    the earlier results stay.  Otherwise exactly one URL is fetched, the
    txn or the checkout endpoint followed by the encoded value as typed;
    afterwards the busy flag is down, and either there is no error, or
    the result list is empty (earlier results are never left beside an
    error).  A 404 answer gives an empty list without error; an array is
    shown as it is and a single payment as a list of one. *)
Theorem search_outcome (answer : result (Http.Response (Data Payment)))
    (s : State Payment) :
  let s' := search Payment trim encodeURIComponent answer s in
  if truthy (Some (trim (queryValue Payment s))) then
    loading Payment s' = false
    ∧ searched Payment s' = true
    ∧ fetched Payment s'
      = fetched Payment s
        ++ [ (match queryType Payment s with
              | txn => "/api/payments/txn/"
              | checkout => "/api/payments/checkout/"
              end) +:+ encodeURIComponent (queryValue Payment s) ]
    ∧ (error Payment s' = None ∨ results Payment s' = [])
    ∧ match answer with
      | Ok res =>
          if bool_decide (Http.status res = 404%Z) then
            results Payment s' = [] ∧ error Payment s' = None
          else if Http.ok res then
            match Http.json res with
            | Ok (Many ps) => results Payment s' = ps ∧ error Payment s' = None
            | Ok (One p) => results Payment s' = [p] ∧ error Payment s' = None
            | Throw e => error Payment s' = Some (message_or e "Search failed")
            end
          else error Payment s' = Some "Failed to fetch payment"
      | Throw e => error Payment s' = Some (message_or e "Search failed")
      end
  else
    error Payment s' = Some "Please enter a search value"
    ∧ fetched Payment s' = fetched Payment s
    ∧ results Payment s' = results Payment s
    ∧ loading Payment s' = loading Payment s
    ∧ searched Payment s' = searched Payment s.
Proof.
  cbv zeta. unfold search.
  destruct (truthy (Some (trim (queryValue Payment s)))); cbn [negb]; [| done].
  unfold outcome, endpoint.
  destruct answer as [res | e]; [rewrite JsFacts.ret_bind |].
  - destruct (bool_decide (Http.status res = 404%Z)); cbn.
    + repeat (split; [by destruct (queryType Payment s) |]).
      split; [by left | done].
    + destruct (Http.ok res); cbn.
      * destruct (Http.json res) as [[p | ps] | e]; cbn;
          repeat (split; [by destruct (queryType Payment s) |]);
          (split; [by (left + right) | done]).
      * repeat (split; [by destruct (queryType Payment s) |]).
        split; [by right | done].
  - cbn. repeat (split; [by destruct (queryType Payment s) |]).
    split; [by right | done].
Qed.

End WithHost.

End QueryFacts.

Module PollingFacts.
Import Browser.

Lemma owned_size (held : gset nat) (auto : bool) (h : option nat) (t : Timers) :
  owns_at_most_one held auto h t →
  held ⊆ active t
  ∧ size (active t ∖ held) = if auto then 1%nat else 0%nat.
Proof.
  intros (_ & _ & Hm). destruct auto, h as [h |]; try done.
  - destruct Hm as (_ & Hh & ->). split; [apply union_subseteq_r |].
    rewrite difference_union_distr_l_L, difference_diag_L, union_empty_r_L.
    rewrite difference_disjoint_L; [apply size_singleton |].
    by apply disjoint_singleton_l.
  - rewrite Hm. split; [done |].
    rewrite difference_diag_L. apply size_empty.
Qed.

Lemma exchange_toggle_flag (v : ExchangeRateDemo.View) :
  ExchangeRateDemo.autoRefresh (ExchangeRateDemo.toggleAutoRefresh v)
  = negb (ExchangeRateDemo.autoRefresh v).
Proof.
  destruct v as [auto h t]. unfold ExchangeRateDemo.toggleAutoRefresh.
  cbn [ExchangeRateDemo.autoRefresh ExchangeRateDemo.refreshInterval
       ExchangeRateDemo.timers].
  destruct auto; cbn [negb]; [| reflexivity].
  destruct h as [h |]; [| reflexivity].
  by destruct (handle_truthy (Some h)).
Qed.

Lemma stats_toggle_flag (v : PaymentStats.View) :
  PaymentStats.autoRefresh (PaymentStats.toggleAutoRefresh v)
  = negb (PaymentStats.autoRefresh v).
Proof.
  destruct v as [auto h t].
  unfold PaymentStats.toggleAutoRefresh, PaymentStats.startAutoRefresh,
    PaymentStats.stopAutoRefresh.
  cbn [PaymentStats.autoRefresh PaymentStats.refreshInterval PaymentStats.timers].
  destruct auto; cbn [negb PaymentStats.autoRefresh PaymentStats.refreshInterval
                      PaymentStats.timers].
  - destruct h as [h |]; [| reflexivity].
    by destruct (handle_truthy (Some h)).
  - reflexivity.
Qed.

(** X22. While a polling view is mounted, its auto-refresh switch and
    its interval agree: after any number of toggles the view has added
    exactly one live interval to the browser's timers if the switch is
    on and none if it is off (toggling never piles intervals up), and the
    timers it found are all still live.  The exchange-rate view starts
    with the switch off, the payment-stats view with it on. *)
Theorem polling_switch_matches_interval (t : Timers) (n : nat) :
  wf t →
  let ex := Nat.iter n ExchangeRateDemo.toggleAutoRefresh
              (ExchangeRateDemo.onMounted (ExchangeRateDemo.setup t)) in
  let st := Nat.iter n PaymentStats.toggleAutoRefresh
              (PaymentStats.onMounted (PaymentStats.setup t)) in
  ExchangeRateDemo.autoRefresh ex = Nat.odd n
  ∧ active t ⊆ active (ExchangeRateDemo.timers ex)
  ∧ size (active (ExchangeRateDemo.timers ex) ∖ active t)
    = (if ExchangeRateDemo.autoRefresh ex then 1%nat else 0%nat)
  ∧ PaymentStats.autoRefresh st = Nat.even n
  ∧ active t ⊆ active (PaymentStats.timers st)
  ∧ size (active (PaymentStats.timers st) ∖ active t)
    = (if PaymentStats.autoRefresh st then 1%nat else 0%nat).
Proof.
  intros [Hnext Hact]. cbv zeta.
  assert (Hex : owns_at_most_one (active t) false None t) by done.
  apply (TimerFacts.exchange_toggles_own _ n (ExchangeRateDemo.setup t)) in Hex.
  assert (Hst : owns_at_most_one (active t) true (Some (setInterval t).1)
                  (setInterval t).2) by (by apply TimerFacts.start_owns).
  apply (TimerFacts.stats_toggles_own _ n
           (PaymentStats.onMounted (PaymentStats.setup t))) in Hst.
  cbv zeta in Hex, Hst.
  destruct (owned_size _ _ _ _ Hex) as [Hex1 Hex2].
  destruct (owned_size _ _ _ _ Hst) as [Hst1 Hst2].
  split; [| split; [exact Hex1 | split; [exact Hex2 |
    split; [| split; [exact Hst1 | exact Hst2]]]]].
  - clear. induction n as [| n IH]; [reflexivity |].
    rewrite Nat.iter_succ, exchange_toggle_flag, IH.
    rewrite Nat.odd_succ. by rewrite Nat.negb_odd.
  - clear. induction n as [| n IH]; [reflexivity |].
    rewrite Nat.iter_succ, stats_toggle_flag, IH.
    rewrite Nat.even_succ. by rewrite Nat.negb_even.
Qed.

Lemma polling_switch_matches_interval_witness :
  let ex := Nat.iter 3 ExchangeRateDemo.toggleAutoRefresh
              (ExchangeRateDemo.onMounted (ExchangeRateDemo.setup fresh_timers)) in
  let st := Nat.iter 3 PaymentStats.toggleAutoRefresh
              (PaymentStats.onMounted (PaymentStats.setup fresh_timers)) in
  ExchangeRateDemo.autoRefresh ex = Nat.odd 3
  ∧ active fresh_timers ⊆ active (ExchangeRateDemo.timers ex)
  ∧ size (active (ExchangeRateDemo.timers ex) ∖ active fresh_timers)
    = (if ExchangeRateDemo.autoRefresh ex then 1%nat else 0%nat)
  ∧ PaymentStats.autoRefresh st = Nat.even 3
  ∧ active fresh_timers ⊆ active (PaymentStats.timers st)
  ∧ size (active (PaymentStats.timers st) ∖ active fresh_timers)
    = (if PaymentStats.autoRefresh st then 1%nat else 0%nat).
Proof.
  apply (polling_switch_matches_interval fresh_timers 3).
  split; [cbn; lia | intros h Hh; cbn in Hh; set_solver].
Defined.

End PollingFacts.

(* --------------------------------------------------------------------- *)
(** ** Loading data, and the pay button after a payment                   *)
(* --------------------------------------------------------------------- *)

Module LoadFacts.

(** Settles the characterisations of an outcome once the answer has
    been taken apart. *)
Local Ltac outcome :=
  repeat match goal with
         | |- _ ∧ _ => split
         | |- _ ↔ _ => split
         | |- _ → _ => intros ?
         | |- ∀ _, _ => intros ?
         | H : _ ∧ _ |- _ => destruct H
         | H : ∃ _, _ |- _ => destruct H
         | H : is_Some _ |- _ => destruct H
         end;
  simplify_eq/=; try congruence; eauto 10.


Section WithData.
Variable Stats Payment : Type.


End WithData.

Section WithPlatform.
Context `{Algosdk.Platform}.

(** X25. After a confirmed payment the payment page no longer renders
    its pay button (the checkout now reads ['paid']), whereas the
    dev-tool form, which leaves the checkout as it is until the
    re-fetch, has its pay button enabled again as soon as the call
    returns. *)
Theorem pay_button_after_success :
  (∀ (node : Algosdk.Node) (w : Pera.Answers) (p : PaymentPage.Page)
     (txId : string),
     PaymentPage.isConnected p = true →
     PaymentPage.pay_body node w p = Ok txId →
     PaymentPage.pay_button_shown (PaymentPage.pay node w p) = false
     ∧ PaymentPage.pay_button_enabled (PaymentPage.pay node w p) = false)
  ∧ (∀ (now : Z) (node : Algosdk.Node) (w : Pera.Answers)
       (s : UseAlgorand.Shared) (f : PaymentForm.Form) (txId : string),
       PaymentForm.pay_button_enabled s f = true →
       PaymentForm.payCheckout_body node w s f = Ok txId →
       PaymentForm.pay_button_enabled s (PaymentForm.payCheckout now node w s f)
       = true).
Proof.
  split.
  - intros node w p txId Hc Hb.
    unfold PaymentPage.pay_button_enabled, PaymentPage.pay_button_shown,
      PaymentPage.pay.
    unfold PaymentPage.isConnected in Hc.
    destruct (PaymentPage.pay_begin p) as [p1 |] eqn:Hp1.
    + rewrite (PaymentFacts.pay_body_after_begin _ _ _ _ Hp1), Hb. by cbn.
    + unfold PaymentPage.pay_begin in Hp1. by rewrite Hc in Hp1.
  - intros now node w s f txId He Hb.
    unfold PaymentForm.pay_button_enabled in *. unfold PaymentForm.payCheckout.
    destruct (PaymentForm.checkout f) as [c |] eqn:Hc; [| done].
    apply andb_prop in He as [Hst Hrest].
    apply negb_true_iff, orb_false_iff in Hrest as [Hconn _].
    apply negb_false_iff in Hconn.
    destruct (PaymentForm.payCheckout_begin s f) as [f1 |] eqn:Hf1.
    + rewrite (PaymentFacts.payCheckout_body_after_begin _ _ _ _ _ Hf1), Hb.
      unfold PaymentForm.payCheckout_begin in Hf1. rewrite Hc in Hf1.
      destruct (truthy (UseAlgorand.connectedAccount s)); [| done].
      injection Hf1 as <-. cbn. by rewrite Hc, Hst, Hconn.
    + unfold PaymentForm.payCheckout_begin in Hf1. rewrite Hc in Hf1.
      unfold UseAlgorand.isConnected in Hconn. by rewrite Hconn in Hf1.
Qed.

End WithPlatform.

Lemma pay_button_after_success_witness :
  PaymentPage.pay_button_shown
    (PaymentPage.pay (H := Sample.platform) (Sample.confirmingNode Sample.params)
       (Sample.wallet Sample.payer) (Sample.page (Some Sample.payer))) = false
  ∧ PaymentForm.pay_button_enabled (Sample.shared (Some Sample.payer))
      (PaymentForm.payCheckout (H := Sample.platform) 0
         (Sample.confirmingNode Sample.params) (Sample.wallet Sample.payer)
         (Sample.shared (Some Sample.payer)) Sample.form) = true.
Proof.
  destruct (pay_button_after_success (H := Sample.platform)) as [Hpage Hform].
  split.
  - apply (Hpage _ _ _ "TXID"); [reflexivity | vm_compute; reflexivity].
  - apply (Hform _ _ _ _ _ "TXID"); [reflexivity | vm_compute; reflexivity].
Defined.

Section WithHost.
Variable Data : Type.
Variable error_member : Data → option string.
Variable typeError_message : string.
Variable trim : string → string.
Variable encodeURIComponent : string → string.

(** X26. [lookupRate] does nothing at all for a blank input.  Otherwise
    it fetches exactly one URL, [/api/exchange-rate/] followed by the
    encoded trimmed input, and ends with the busy flag down.  A result
    and an error text are held together exactly for an answer with
    status 503 whose payload parses and is not [null] (the stale rate
    with its notice).  The error is [null] exactly for an ok answer
    whose payload parses, and the result is then that payload.  Neither
    is held exactly when an ok answer carries the payload [null].  For
    a 503 answer with the payload [null], only the error is set, to the
    message of the [TypeError] of reading the payload's [error]
    member. *)
Theorem lookupRate_outcome (answer : result (Http.Response (Http.Json Data)))
    (s : ExchangeRateLookup.State Data) :
  let s' := ExchangeRateLookup.lookupRate Data error_member typeError_message
              trim encodeURIComponent answer s in
  if truthy (Some (trim (ExchangeRateLookup.lookupInput Data s))) then
    ExchangeRateLookup.lookupLoading Data s' = false
    ∧ ExchangeRateLookup.fetched Data s'
      = ExchangeRateLookup.fetched Data s
        ++ ["/api/exchange-rate/"
            +:+ encodeURIComponent (trim (ExchangeRateLookup.lookupInput Data s))]
    ∧ (is_Some (ExchangeRateLookup.lookupResult Data s')
       ∧ is_Some (ExchangeRateLookup.lookupError Data s')
       ↔ ∃ res d, answer = Ok res ∧ Http.ok res = false
                  ∧ Http.status res = 503%Z
                  ∧ Http.json res = Ok (Http.JsonValue d)
                  ∧ ExchangeRateLookup.lookupResult Data s' = Some d
                  ∧ ExchangeRateLookup.lookupError Data s'
                    = Some (or_else (error_member d) "Rate unavailable"))
    ∧ (ExchangeRateLookup.lookupError Data s' = None
       ↔ ∃ res data, answer = Ok res ∧ Http.ok res = true
                     ∧ Http.json res = Ok data
                     ∧ ExchangeRateLookup.lookupResult Data s'
                       = Http.stored data)
    ∧ (ExchangeRateLookup.lookupResult Data s' = None
       ∧ ExchangeRateLookup.lookupError Data s' = None
       ↔ ∃ res, answer = Ok res ∧ Http.ok res = true
                ∧ Http.json res = Ok Http.JsonNull)
    ∧ (∀ res, answer = Ok res → Http.ok res = false →
              Http.status res = 503%Z → Http.json res = Ok Http.JsonNull →
              ExchangeRateLookup.lookupResult Data s' = None
              ∧ ExchangeRateLookup.lookupError Data s' = Some typeError_message)
  else s' = s.
Proof.
  cbv zeta. unfold ExchangeRateLookup.lookupRate.
  destruct (truthy (Some (trim (ExchangeRateLookup.lookupInput Data s))));
    cbn [negb]; [| done].
  destruct answer as [res | e].
  - destruct (Http.ok res) eqn:Hok; cbn [negb].
    + destruct (Http.json res) as [[| d] | e] eqn:Hj; cbn; outcome.
    + case_bool_decide as Hst.
      * destruct (Http.json res) as [[| d] | e] eqn:Hj; cbn; outcome.
      * cbn. outcome.
  - cbn. outcome.
Qed.

End WithHost.

Lemma lookupRate_outcome_witness :
  let s' := ExchangeRateLookup.lookupRate string Some
              "Cannot read properties of null" (λ t, t) (λ t, t)
              (Ok {| Http.ok := false; Http.status := 503;
                     Http.json := Ok Http.JsonNull |})
              {| ExchangeRateLookup.lookupInput := "algorand";
                 ExchangeRateLookup.lookupResult := None;
                 ExchangeRateLookup.lookupLoading := false;
                 ExchangeRateLookup.lookupError := None;
                 ExchangeRateLookup.fetched := [] |} in
  ExchangeRateLookup.lookupResult string s' = None
  ∧ ExchangeRateLookup.lookupError string s'
    = Some "Cannot read properties of null".
Proof.
  intros s'.
  pose proof (lookupRate_outcome string Some "Cannot read properties of null"
                (λ t, t) (λ t, t)
                (Ok {| Http.ok := false; Http.status := 503;
                       Http.json := Ok Http.JsonNull |})
                {| ExchangeRateLookup.lookupInput := "algorand";
                   ExchangeRateLookup.lookupResult := None;
                   ExchangeRateLookup.lookupLoading := false;
                   ExchangeRateLookup.lookupError := None;
                   ExchangeRateLookup.fetched := [] |}) as Ho.
  cbv zeta in Ho.
  change (truthy (Some ((λ t : string, t) "algorand"))) with true in Ho.
  destruct Ho as (_ & _ & _ & _ & _ & Hnull).
  exact (Hnull _ eq_refl eq_refl eq_refl eq_refl).
Defined.

(** X27. [getAsaId] never returns an empty text: it is the asset id of
    the view's network when the mapping has a non-empty one, and
    otherwise ['Native'] for the native asset and ['N/A'] for any
    other. *)
Theorem getAsaId_never_empty (network : string)
    (mapping : ExchangeRateLookup.AsaMapping) :
  let id := if bool_decide (network = "mainnet")
            then ExchangeRateLookup.asaIdMainnet mapping
            else ExchangeRateLookup.asaIdTestnet mapping in
  let r := ExchangeRateLookup.getAsaId network mapping in
  r ≠ ""
  ∧ (if truthy id then Some r = id
     else r = if ExchangeRateLookup.isNative mapping then "Native" else "N/A").
Proof.
  cbv zeta. unfold ExchangeRateLookup.getAsaId.
  set (id := if bool_decide (network = "mainnet") then _ else _).
  destruct id as [a |]; cbn.
  - case_bool_decide; [done |].
    split; [| done]. by destruct (ExchangeRateLookup.isNative mapping).
  - split; [| done]. by destruct (ExchangeRateLookup.isNative mapping).
Qed.

End LoadFacts.
